(** * The Venice generation clients of VideoGenerator, embedded in Rocq

    The scripts under [VideoGenerator/] post a prompt to a remote generation
    service, walk a list of model identifiers until one answers with media,
    and hand the decoded bytes back.  This development embeds the clients of
    - [generate_graeber_video.py]       (module [Main]),
    - [generate_graeber_video_full.py]  (module [Full]),
    - [generate_sections.py]            (module [Sections]),
    - [generate_single_image.py]        (module [Single]),
    as functions in a state-and-exception monad over an explicit world: the
    trace of requests and pauses issued so far and the file system.  The
    remote service (together with the [requests] library in front of it) is
    a parameter [service]: it answers a request as a function of the whole
    history, so that every deterministic mock, including one that is rate
    limited first and answers later, is an instance.

    Conventions of the embedding:
    - Python values that come out of [response.json()] are the type [json];
      the dynamic operations the clients apply to them ([in], [len],
      subscripts, [isinstance], [startswith]) are functions that raise the
      exception Python raises on a value of the wrong type.
    - [print] calls are left out: they write to the console only and no
      branch depends on them.  The arguments of a [print] that can raise
      are kept: [list(data.keys())] in [generate_single_image.py], and the
      look-ups on the file system in the closing lines of
      [generate_sections].
    - [base64.b64decode] and [base64.b64encode] belong to Python's standard
      library; they are modelled after CPython's [binascii] module. *)

From Stdlib Require Import ZArith NArith List String Ascii Bool Lia.
From Stdlib.Strings Require Import Byte.
From stdpp Require Import gmap strings.
Import ListNotations.

Local Open Scope string_scope.
Local Open Scope list_scope.

Local Set Warnings "-register-all".

(** ** Python values *)

Module Py.

(** [bytes] objects. *)
Definition bytes := list byte.

(** The values [response.json()] can produce.  JSON numbers are kept as
    integers; no client ever computes with one. *)
Inductive json : Type :=
| JNull
| JBool (b : bool)
| JNum (n : Z)
| JStr (s : string)
| JList (l : list json)
| JObj (kvs : list (string * json)).

(** What [response] objects of [requests] expose to the clients. *)
Record response := mkResponse {
  status_code : Z;
  (** the value of [response.json()], [None] when the body does not parse *)
  json_body : option json;
  (** [response.content] *)
  content : bytes
}.

(** Exceptions, by the classes the handlers tell apart. *)
Inductive exn : Type :=
| HTTPError (r : response)        (* raised by [raise_for_status] *)
| RequestException (msg : string) (* connection failure, timeout, bad URL *)
| JSONDecodeError
| TypeError
| KeyError
| IndexError
| AttributeError
| ValueError (msg : string)       (* includes [binascii.Error] *)
| PyException (msg : string).     (* [raise Exception(msg)] *)

Inductive outcome (A : Type) : Type :=
| Ok (a : A)
| Raise (e : exn).
Arguments Ok {A} a.
Arguments Raise {A} e.

(** Sequencing of expressions that may raise. *)
Definition obind {A B} (o : outcome A) (k : A -> outcome B) : outcome B :=
  match o with
  | Ok a => k a
  | Raise e => Raise e
  end.

(** Dictionary lookup on the association list of an object. *)
Fixpoint assoc (k : string) (kvs : list (string * json)) : option json :=
  match kvs with
  | [] => None
  | (k', v) :: rest => if String.eqb k k' then Some v else assoc k rest
  end.

Definition is_JStr (k : string) (v : json) : bool :=
  match v with JStr s => String.eqb k s | _ => false end.

Definition is_substring (k s : string) : bool :=
  match String.index 0 k s with Some _ => true | None => false end.

(** [k in data] for a string literal [k]. *)
Definition contains (k : string) (data : json) : outcome bool :=
  match data with
  | JObj kvs => Ok (match assoc k kvs with Some _ => true | None => false end)
  | JList l => Ok (existsb (is_JStr k) l)
  | JStr s => Ok (is_substring k s)
  | JNull | JBool _ | JNum _ => Raise TypeError
  end.

(** [data[k]] for a string literal [k]. *)
Definition getitem (data : json) (k : string) : outcome json :=
  match data with
  | JObj kvs => match assoc k kvs with Some v => Ok v | None => Raise KeyError end
  | _ => Raise TypeError
  end.

(** [x[0]]. *)
Definition getitem0 (x : json) : outcome json :=
  match x with
  | JList [] => Raise IndexError
  | JList (v :: _) => Ok v
  | JStr EmptyString => Raise IndexError
  | JStr (String c _) => Ok (JStr (String c EmptyString))
  | JObj _ => Raise KeyError
  | JNull | JBool _ | JNum _ => Raise TypeError
  end.

(** [len(x)]. *)
Definition len (x : json) : outcome Z :=
  match x with
  | JList l => Ok (Z.of_nat (List.length l))
  | JStr s => Ok (Z.of_nat (String.length s))
  | JObj kvs => Ok (Z.of_nat (List.length kvs))
  | JNull | JBool _ | JNum _ => Raise TypeError
  end.

(** [list(data.keys())]. *)
Definition keys (data : json) : outcome (list string) :=
  match data with
  | JObj kvs => Ok (map fst kvs)
  | _ => Raise AttributeError
  end.

(** [isinstance(x, str)] and [isinstance(x, list)]. *)
Definition isinstance_str (x : json) : bool :=
  match x with JStr _ => true | _ => false end.
Definition isinstance_list (x : json) : bool :=
  match x with JList _ => true | _ => false end.

(** [s.startswith(p)]. *)
Definition startswith (s p : string) : bool := String.prefix p s.

End Py.

Notation "'let+' x ':=' o 'in' k" := (Py.obind o (fun x => k))
  (at level 10, x name, o at level 100, k at level 200).

(** ** Base64, after CPython's [binascii] *)

Module Base64.
Import Py.

Definition alphabet : string :=
  "ABCDEFGHIJKLMNOPQRSTUVWXYZabcdefghijklmnopqrstuvwxyz0123456789+/".

Definition BASE64_PAD : ascii := "="%char.

(** [table_b2a_base64[n]]. *)
Definition table_b2a_base64 (n : N) : ascii :=
  match String.get (N.to_nat n) alphabet with
  | Some c => c
  | None => BASE64_PAD
  end.

Fixpoint index_of (c : ascii) (s : string) (i : N) : option N :=
  match s with
  | EmptyString => None
  | String c' s' => if Ascii.eqb c c' then Some i else index_of c s' (N.succ i)
  end.

(** [table_a2b_base64[c]]; characters outside the alphabet map to a value
    of 64 or more (the table holds -1, read as an unsigned char). *)
Definition table_a2b_base64 (c : ascii) : N :=
  match index_of c alphabet 0 with
  | Some i => i
  | None => 255
  end.

(** A store into an [unsigned char]. *)
Definition to_uchar (n : N) : byte := byte_of_ascii (ascii_of_N n).

Definition sextet0 (a : byte) : N := N.shiftr (Byte.to_N a) 2.
Definition sextet1 (a b : byte) : N :=
  N.lor (N.shiftl (N.land (Byte.to_N a) 3) 4) (N.shiftr (Byte.to_N b) 4).
Definition sextet2 (b c : byte) : N :=
  N.lor (N.shiftl (N.land (Byte.to_N b) 15) 2) (N.shiftr (Byte.to_N c) 6).
Definition sextet3 (c : byte) : N := N.land (Byte.to_N c) 63.

(** [base64.b64encode]: three bytes give four characters; a tail of one
    or two bytes is padded with [=]. *)
Fixpoint b64encode_chars (data : bytes) : list ascii :=
  match data with
  | [] => []
  | [a] =>
      [table_b2a_base64 (sextet0 a);
       table_b2a_base64 (sextet1 a "000"%byte);
       BASE64_PAD; BASE64_PAD]
  | [a; b] =>
      [table_b2a_base64 (sextet0 a);
       table_b2a_base64 (sextet1 a b);
       table_b2a_base64 (sextet2 b "000"%byte);
       BASE64_PAD]
  | a :: b :: c :: rest =>
      table_b2a_base64 (sextet0 a) ::
      table_b2a_base64 (sextet1 a b) ::
      table_b2a_base64 (sextet2 b c) ::
      table_b2a_base64 (sextet3 c) :: b64encode_chars rest
  end.

Definition b64encode (data : bytes) : string :=
  string_of_list_ascii (b64encode_chars data).

(** The loop state of [binascii.a2b_base64]. *)
Record a2b_state := mkA2b {
  quad_pos : N;
  leftchar : N;
  pads : N;
  bin_data : bytes (* written so far *)
}.

(** The body of the [switch (quad_pos)] for a character of the alphabet. *)
Definition a2b_push (st : a2b_state) (this_ch : N) : a2b_state :=
  let out := bin_data st in
  let lc := leftchar st in
  match quad_pos st with
  | 0%N => mkA2b 1 this_ch 0 out
  | 1%N => mkA2b 2 (N.land this_ch 15) 0
             (out ++ [to_uchar (N.lor (N.shiftl lc 2) (N.shiftr this_ch 4))])
  | 2%N => mkA2b 3 (N.land this_ch 3) 0
             (out ++ [to_uchar (N.lor (N.shiftl lc 4) (N.shiftr this_ch 2))])
  | _ => mkA2b 0 0 0
             (out ++ [to_uchar (N.lor (N.shiftl lc 6) this_ch)])
  end.

(** [binascii.a2b_base64(s, strict_mode=False)]: characters outside the
    alphabet are skipped, a complete pad sequence ends the input, and what
    is left of a quad at the end of the input is an error. *)
Fixpoint a2b_loop (s : list ascii) (st : a2b_state) : outcome bytes :=
  match s with
  | [] =>
      if N.eqb (quad_pos st) 0 then Ok (bin_data st)
      else if N.eqb (quad_pos st) 1 then
        Raise (ValueError "Invalid base64-encoded string")
      else Raise (ValueError "Incorrect padding")
  | c :: rest =>
      if Ascii.eqb c BASE64_PAD then
        if N.leb 2 (quad_pos st) then
          let pads' := N.succ (pads st) in
          if N.leb 4 (quad_pos st + pads') then Ok (bin_data st)
          else a2b_loop rest (mkA2b (quad_pos st) (leftchar st) pads' (bin_data st))
        else a2b_loop rest st
      else
        let this_ch := table_a2b_base64 c in
        if N.leb 64 this_ch then a2b_loop rest st
        else a2b_loop rest (a2b_push st this_ch)
  end.

Definition a2b_base64 (s : list ascii) : outcome bytes :=
  a2b_loop s (mkA2b 0 0 0 []).

Definition is_ascii (c : ascii) : bool := N.ltb (N_of_ascii c) 128.

(** The 256 bytes. *)
Definition all_bytes : list byte :=
  map (fun n => to_uchar (N.of_nat n)) (seq 0 256).

(** A character the encoder emits for the sextet [n] is ASCII, is not the
    pad, and is mapped back to [n] by the decoding table. *)
Definition good_char (n : N) : bool :=
  let c := table_b2a_base64 n in
  is_ascii c && negb (Ascii.eqb c BASE64_PAD)
  && N.eqb (table_a2b_base64 c) n && N.ltb n 64.

(** [base64.b64decode(x)] on a value taken from a JSON body: a [str] is
    encoded to ASCII and passed to [a2b_base64]; anything else is not
    bytes-like. *)
Definition b64decode (x : json) : outcome bytes :=
  match x with
  | JStr s =>
      let cs := list_ascii_of_string s in
      if forallb is_ascii cs then a2b_base64 cs
      else Raise (ValueError "string argument should contain only ASCII characters")
  | _ => Raise TypeError
  end.

End Base64.

(** ** The world, and the monad the clients run in *)

Module Net.
Import Py.

Inductive request : Type :=
(** [requests.post(url, headers=headers, json=body, timeout=timeout)] *)
| Post (url : string) (headers : list (string * string)) (body : json)
       (timeout : option Z)
(** [requests.get(url)], with the Python value passed as [url] *)
| Get (url : json).

Inductive event : Type :=
| EvRequest (r : request)
| EvSleep (secs : Z).            (* [time.sleep(secs)] *)

(** What a request comes back with: a response object, or an exception of
    [requests] that is not an [HTTPError]. *)
Inductive net_result : Type :=
| Response (r : response)
| NetFail (msg : string).

Definition service_t : Type := list event -> request -> net_result.

Record world := mkWorld {
  trace : list event;
  files : gmap string bytes
}.

Definition M (A : Type) : Type := world -> outcome A * world.

Definition ret {A} (a : A) : M A := fun w => (Ok a, w).

Definition raise {A} (e : exn) : M A := fun w => (Raise e, w).

Definition bind {A B} (m : M A) (k : A -> M B) : M B :=
  fun w =>
    match m w with
    | (Ok a, w') => k a w'
    | (Raise e, w') => (Raise e, w')
    end.

(** [try: m except ... as e: h e]. *)
Definition try_except {A} (m : M A) (h : exn -> M A) : M A :=
  fun w =>
    match m w with
    | (Ok a, w') => (Ok a, w')
    | (Raise e, w') => h e w'
    end.

(** A pure Python operation that may raise. *)
Definition lift {A} (o : outcome A) : M A := fun w => (o, w).

Definition send (service : service_t) (r : request) : M response :=
  fun w =>
    let w' := mkWorld (trace w ++ [EvRequest r]) (files w) in
    match service (trace w) r with
    | Response resp => (Ok resp, w')
    | NetFail msg => (Raise (RequestException msg), w')
    end.

Definition sleep (secs : Z) : M unit :=
  fun w => (Ok tt, mkWorld (trace w ++ [EvSleep secs]) (files w)).

(** [Path(path).write_bytes(data)] on a path the file system accepts.
    A write that raises (the directory is missing, the path names a
    directory) is not modelled: where a caller wraps the write in a
    [try], such a failure takes the [except] branch. *)
Definition write_bytes (path : string) (data : bytes) : M unit :=
  fun w => (Ok tt, mkWorld (trace w) (<[path := data]> (files w))).

(** [response.raise_for_status()]. *)
Definition raise_for_status (r : response) : M unit :=
  if (400 <=? status_code r)%Z && (status_code r <? 600)%Z
  then raise (HTTPError r)
  else ret tt.

(** [response.json()]. *)
Definition response_json (r : response) : M json :=
  match json_body r with
  | Some data => ret data
  | None => raise JSONDecodeError
  end.

End Net.

Notation "'let*' x ':=' m 'in' k" := (Net.bind m (fun x => k))
  (at level 10, x name, m at level 100, k at level 200).

(** ** Expressions the clients share *)

Module Expr.
Import Py Base64 Net.

(** [k in data and len(data[k]) > 0] *)
Definition has_nonempty (k : string) (data : json) : outcome bool :=
  let+ has := contains k data in
  if has then
    let+ items := getitem data k in
    let+ n := len items in
    Ok (0 <? n)%Z
  else Ok false.

(** ["images" in data and len(data["images"]) > 0] *)
Definition has_images (data : json) : outcome bool :=
  has_nonempty "images" data.

(** [base64.b64decode(data["images"][0])] *)
Definition decode_first_image (data : json) : outcome bytes :=
  let+ images := getitem data "images" in
  let+ base64_data := getitem0 images in
  b64decode base64_data.

(** The branch taken on a value that is a [str]:
    [if v.startswith("http"): return requests.get(v).content
     else: return base64.b64decode(v)];
    [None] when [isinstance(v, str)] is false and nothing is returned. *)
Definition fetch_or_decode (service : service_t) (v : json) : M (option bytes) :=
  match v with
  | JStr s =>
      if startswith s "http" then
        let* video_response := send service (Get v) in
        ret (Some (content video_response))
      else
        let* b := lift (b64decode v) in
        ret (Some b)
  | _ => ret None
  end.

Definition VENICE_API_BASE : string := "https://api.venice.ai/api/v1".

(** The [self.headers] every client builds from its key. *)
Definition make_headers (api_key : string) : list (string * string) :=
  [("Authorization", String.append "Bearer " api_key);
   ("Content-Type", "application/json")].

End Expr.

(** ** [generate_graeber_video.py]: class [VeniceAPIClient] *)

Module Main.
Import Py Base64 Net Expr.

Record VeniceAPIClient := mkClient {
  api_key : string;
  headers : list (string * string)
}.

(** [__init__] *)
Definition init (api_key : string) : VeniceAPIClient :=
  mkClient api_key (make_headers api_key).

(** How one iteration of a [for] loop over the models ends: with the
    [return] of the method, or by going on to the next model with the
    value [last_error] then holds. *)
Inductive step : Type :=
| Return (b : bytes)
| Continue (last_error : option exn).

Section Methods.
Variable service : service_t.
Variable self : VeniceAPIClient.

(** *** [generate_image] *)

Definition image_endpoint : string :=
  String.append VENICE_API_BASE "/image/generate".

Definition image_models_to_try (model : string) : list string :=
  ["nano-banana-pro"; "hidream"; "venice-sd35"; "qwen-image";
   "z-image-turbo"; model].

(** The default of the parameter [model]. *)
Definition default_model : string := "nano-banana-pro".

Definition image_payload (try_model prompt : string) : json :=
  JObj [("model", JStr try_model);
        ("prompt", JStr prompt);
        ("width", JNum 1280);
        ("height", JNum 720);
        ("return_binary", JBool false)].

(** The request of an iteration, as an event of the trace. *)
Definition image_post (try_model prompt : string) : event :=
  EvRequest (Post image_endpoint (headers self)
                  (image_payload try_model prompt) (Some 60%Z)).

(** [requests.post(...)], [raise_for_status()], [response.json()]. *)
Definition image_request (payload : json) : M json :=
  let* response :=
    send service (Post image_endpoint (headers self) payload (Some 60%Z)) in
  let* _ := raise_for_status response in
  response_json response.

(** The body of the outer [try]. *)
Definition image_try (payload : json) : M bytes :=
  let* data := image_request payload in
  let* ok := lift (has_images data) in
  if ok then lift (decode_first_image data)
  else raise (PyException "No image data returned").

(** The body of the inner [try], after the pause: [Some] is a [return],
    [None] is reaching the end of the block without one. *)
Definition image_retry (payload : json) : M (option bytes) :=
  let* data := image_request payload in
  let* ok := lift (has_images data) in
  if ok then
    let* b := lift (decode_first_image data) in
    ret (Some b)
  else ret None.

(** One iteration of [for try_model in models_to_try]. *)
Definition image_attempt (prompt try_model : string)
           (last_error : option exn) : M step :=
  let payload := image_payload try_model prompt in
  try_except
    (let* b := image_try payload in ret (Return b))
    (fun e =>
       match e with
       | HTTPError r =>
           let last_error := Some e in
           if (status_code r =? 404)%Z then ret (Continue last_error)
           else if (status_code r =? 429)%Z then
             let* _ := sleep 15 in
             (* Retry same model *)
             try_except
               (let* again := image_retry payload in
                match again with
                | Some b => ret (Return b)
                | None => ret (Continue last_error)
                end)
               (fun _ => ret (Continue last_error))
           else ret (Continue last_error)
       | _ => ret (Continue (Some e))
       end).

(** The [for] loop. *)
Fixpoint image_pass (prompt : string) (models : list string)
         (last_error : option exn) : M step :=
  match models with
  | [] => ret (Continue last_error)
  | try_model :: rest =>
      let* s := image_attempt prompt try_model last_error in
      match s with
      | Return b => ret (Return b)
      | Continue last_error' => image_pass prompt rest last_error'
      end
  end.

Definition generate_image (prompt model : string) : M bytes :=
  let* s := image_pass prompt (image_models_to_try model) None in
  match s with
  | Return b => ret b
  | Continue (Some last_error) => raise last_error
  | Continue None => raise (PyException "All image models failed")
  end.

(** *** [generate_video] *)

Definition video_endpoint : string :=
  String.append VENICE_API_BASE "/video/generate".

Definition video_models_to_try : list (string * bool) :=
  [("sora-2-pro-text-to-video", true);
   ("veo3.1-full-text-to-video", true);
   ("kling-2.6-pro-text-to-video", true);
   ("wan-2.6-text-to-video", true);
   ("ltx-2-full-text-to-video", true)].

Definition video_payload (model_id prompt : string)
           (supports_duration : bool) (duration : Z) : json :=
  JObj ([("model", JStr model_id); ("prompt", JStr prompt)]
        ++ (if supports_duration then [("duration", JNum duration)] else [])).

(** The request of an iteration, as an event of the trace. *)
Definition video_post (entry : string * bool) (prompt : string)
           (duration : Z) : event :=
  EvRequest (Post video_endpoint (headers self)
                  (video_payload (fst entry) prompt (snd entry) duration)
                  (Some 180%Z)).

(** ["videos" in data and len(data["videos"]) > 0] *)
Definition has_videos (data : json) : outcome bool :=
  has_nonempty "videos" data.

(** The [if "video" in data: ... elif "url" in data: ... elif ...: ...
    else: raise] chain; [None] is leaving it without a [return]. *)
Definition video_decode (data : json) : M (option bytes) :=
  let* has_video := lift (contains "video" data) in
  if has_video then
    let* v := lift (getitem data "video") in
    fetch_or_decode service v
  else
    let* has_url := lift (contains "url" data) in
    if has_url then
      let* u := lift (getitem data "url") in
      let* video_response := send service (Get u) in
      ret (Some (content video_response))
    else
      let* ok := lift (has_videos data) in
      if ok then
        let* videos := lift (getitem data "videos") in
        let* video_data := lift (getitem0 videos) in
        fetch_or_decode service video_data
      else raise (PyException "No video data in response").

(** The body of the [try]. *)
Definition video_try (payload : json) : M (option bytes) :=
  let* response :=
    send service (Post video_endpoint (headers self) payload (Some 180%Z)) in
  let* _ := raise_for_status response in
  let* data := response_json response in
  video_decode data.

(** One iteration of [for model_id, supports_duration in models_to_try]. *)
Definition video_attempt (prompt : string) (duration : Z)
           (entry : string * bool) (last_error : option exn) : M step :=
  let '(model_id, supports_duration) := entry in
  let payload := video_payload model_id prompt supports_duration duration in
  try_except
    (let* r := video_try payload in
     match r with
     | Some b => ret (Return b)
     | None => ret (Continue last_error)
     end)
    (fun e =>
       match e with
       | HTTPError r =>
           let last_error := Some e in
           if (status_code r =? 404)%Z then ret (Continue last_error)
           else if (status_code r =? 429)%Z then
             let* _ := sleep 15 in
             ret (Continue last_error)
           else ret (Continue last_error)
       | _ => ret (Continue (Some e))
       end).

Fixpoint video_pass (prompt : string) (duration : Z)
         (models : list (string * bool)) (last_error : option exn) : M step :=
  match models with
  | [] => ret (Continue last_error)
  | entry :: rest =>
      let* s := video_attempt prompt duration entry last_error in
      match s with
      | Return b => ret (Return b)
      | Continue last_error' => video_pass prompt duration rest last_error'
      end
  end.

Definition generate_video (prompt : string) (duration : Z) : M bytes :=
  let* s := video_pass prompt duration video_models_to_try None in
  match s with
  | Return b => ret b
  | Continue _ =>
      (* If all video models failed, fall back to image *)
      generate_image prompt default_model
  end.

End Methods.
End Main.

(** ** [generate_graeber_video_full.py]: class [VeniceAPIClient] *)

Module Full.
Import Py Base64 Net Expr.

Section Methods.
Variable service : service_t.
(** The class of this script has the [__init__] and the two fields of
    the one in [generate_graeber_video.py]; its record is shared. *)
Variable self : Main.VeniceAPIClient.

Definition image_endpoint : string :=
  String.append VENICE_API_BASE "/image/generate".

Definition video_endpoint : string :=
  String.append VENICE_API_BASE "/video/generate".

Definition default_image_model : string := "fluently-xl".
Definition default_video_model : string := "wan-2.5".

Definition image_payload (model prompt : string) : json :=
  JObj [("model", JStr model);
        ("prompt", JStr prompt);
        ("width", JNum 1920);
        ("height", JNum 1080);
        ("return_binary", JBool false);
        ("hide_watermark", JBool true)].

Definition image_post (model prompt : string) : event :=
  EvRequest (Post image_endpoint (Main.headers self)
                  (image_payload model prompt) None).

Definition generate_image (prompt model : string) : M bytes :=
  let payload := image_payload model prompt in
  let* response :=
    send service (Post image_endpoint (Main.headers self) payload None) in
  let* _ := raise_for_status response in
  let* data := response_json response in
  let* ok := lift (has_images data) in
  if ok then lift (decode_first_image data)
  else raise (PyException "No image data returned from Venice API").

Definition video_payload (model prompt : string) : json :=
  JObj [("model", JStr model);
        ("prompt", JStr prompt);
        ("width", JNum 1920);
        ("height", JNum 1080)].

Definition video_post (model prompt : string) : event :=
  EvRequest (Post video_endpoint (Main.headers self)
                  (video_payload model prompt) (Some 120%Z)).

(** The body of the [try]; [None] is leaving the [if] chain without a
    [return], after which the method returns Python's [None]. *)
Definition video_try (payload : json) : M (option bytes) :=
  let* response :=
    send service (Post video_endpoint (Main.headers self) payload (Some 120%Z)) in
  let* _ := raise_for_status response in
  let* data := response_json response in
  let* has_video := lift (contains "video" data) in
  if has_video then
    let* v := lift (getitem data "video") in
    fetch_or_decode service v
  else
    let* has_url := lift (contains "url" data) in
    if has_url then
      let* u := lift (getitem data "url") in
      let* video_response := send service (Get u) in
      ret (Some (content video_response))
    else raise (PyException "No video data returned").

Definition generate_video (prompt model : string) : M (option bytes) :=
  let payload := video_payload model prompt in
  try_except (video_try payload)
    (fun e =>
       match e with
       | HTTPError r =>
           if (status_code r =? 404)%Z then
             let* b := generate_image prompt default_image_model in
             ret (Some b)
           else raise e
       | _ => raise e
       end).

End Methods.
End Full.

(** ** [generate_sections.py]: class [VeniceClient] *)

Module Sections.
Import Py Base64 Net Expr.

Record VeniceClient := mkClient {
  api_key : string;
  headers : list (string * string)
}.

Definition init (api_key : string) : VeniceClient :=
  mkClient api_key (make_headers api_key).

Section Methods.
Variable service : service_t.
Variable self : VeniceClient.

Definition image_models : list string :=
  ["nano-banana-pro"; "hidream"; "venice-sd35"; "qwen-image"].

Definition image_payload (model prompt : string) : json :=
  JObj [("model", JStr model);
        ("prompt", JStr prompt);
        ("width", JNum 1280);
        ("height", JNum 720);
        ("return_binary", JBool false)].

Definition image_post (model prompt : string) : event :=
  EvRequest (Post (String.append VENICE_API_BASE "/image/generate")
                  (headers self) (image_payload model prompt) (Some 60%Z)).

(** One iteration of [for model in models]: [Some] is a [return],
    [None] goes on to the next model. *)
Definition image_attempt (prompt model : string) : M (option bytes) :=
  try_except
    (let payload := image_payload model prompt in
     let* response :=
       send service
         (Post (String.append VENICE_API_BASE "/image/generate")
               (headers self) payload (Some 60%Z)) in
     if (status_code response =? 429)%Z then
       let* _ := sleep 15 in
       ret None
     else
       let* _ := raise_for_status response in
       let* data := response_json response in
       let* ok := lift (has_images data) in
       if ok then
         let* b := lift (decode_first_image data) in
         ret (Some b)
       else ret None)
    (fun _ => ret None).

Fixpoint image_pass (prompt : string) (models : list string)
  : M (option bytes) :=
  match models with
  | [] => ret None
  | model :: rest =>
      let* r := image_attempt prompt model in
      match r with
      | Some b => ret (Some b)
      | None => image_pass prompt rest
      end
  end.

Definition generate_image (prompt : string) : M bytes :=
  let* r := image_pass prompt image_models in
  match r with
  | Some b => ret b
  | None => raise (PyException "All image models failed")
  end.

Definition video_models : list string :=
  ["sora-2-pro-text-to-video"; "veo3.1-full-text-to-video";
   "kling-2.6-pro-text-to-video"; "wan-2.6-text-to-video"].

Definition video_payload (model prompt : string) (duration : Z) : json :=
  JObj [("model", JStr model);
        ("prompt", JStr prompt);
        ("duration", JNum duration)].

Definition video_post (model prompt : string) (duration : Z) : event :=
  EvRequest (Post (String.append VENICE_API_BASE "/video/generate")
                  (headers self) (video_payload model prompt duration)
                  (Some 180%Z)).

(** [for key in ["video", "url", "videos"]: ...] *)
Fixpoint scan_keys (data : json) (keys : list string) : M (option bytes) :=
  match keys with
  | [] => ret None
  | key :: rest =>
      let* has := lift (contains key data) in
      if has then
        let* video_data := lift (getitem data key) in
        let* video_data :=
          (if isinstance_list video_data then lift (getitem0 video_data)
           else ret video_data) in
        let* r := fetch_or_decode service video_data in
        match r with
        | Some b => ret (Some b)
        | None => scan_keys data rest
        end
      else scan_keys data rest
  end.

Definition video_attempt (prompt : string) (duration : Z) (model : string)
  : M (option bytes) :=
  try_except
    (let payload := video_payload model prompt duration in
     let* response :=
       send service
         (Post (String.append VENICE_API_BASE "/video/generate")
               (headers self) payload (Some 180%Z)) in
     if (status_code response =? 429)%Z then
       let* _ := sleep 15 in
       ret None
     else
       let* _ := raise_for_status response in
       let* data := response_json response in
       scan_keys data ["video"; "url"; "videos"])
    (fun _ => ret None).

Fixpoint video_pass (prompt : string) (duration : Z) (models : list string)
  : M (option bytes) :=
  match models with
  | [] => ret None
  | model :: rest =>
      let* r := video_attempt prompt duration model in
      match r with
      | Some b => ret (Some b)
      | None => video_pass prompt duration rest
      end
  end.

Definition generate_video (prompt : string) (duration : Z) : M bytes :=
  let* r := video_pass prompt duration video_models in
  match r with
  | Some b => ret b
  | None =>
      (* Fallback to image *)
      generate_image prompt
  end.

End Methods.
End Sections.

(** ** [generate_single_image.py]: function [generate_image] *)

Module Single.
Import Py Base64 Net Expr.

Section Function.
Variable service : service_t.

Definition models : list string :=
  ["nano-banana-pro"; "hidream"; "venice-sd35"; "qwen-image";
   "z-image-turbo"].

Definition payload (model prompt : string) : json :=
  JObj [("model", JStr model);
        ("prompt", JStr prompt);
        ("width", JNum 1280);
        ("height", JNum 720);
        ("return_binary", JBool false)].

(** One iteration of [for model in models]: [true] is [return True],
    [false] goes on to the next model. *)
Definition attempt (headers : list (string * string))
           (prompt output_file model : string) : M bool :=
  try_except
    (let* response :=
       send service
         (Post (String.append VENICE_API_BASE "/image/generate")
               headers (payload model prompt) (Some 60%Z)) in
     if (status_code response =? 429)%Z then ret false
     else
       let* _ := raise_for_status response in
       let* data := response_json response in
       let* _ := lift (keys data) in
       let* ok := lift (has_images data) in
       if ok then
         let* image_data := lift (decode_first_image data) in
         let* _ := write_bytes output_file image_data in
         ret true
       else ret false)
    (fun _ => ret false).

Fixpoint pass (headers : list (string * string))
         (prompt output_file : string) (ms : list string) : M bool :=
  match ms with
  | [] => ret false
  | model :: rest =>
      let* done := attempt headers prompt output_file model in
      if done then ret true else pass headers prompt output_file rest
  end.

Definition generate_image (api_key prompt output_file : string) : M bool :=
  let headers := make_headers api_key in
  pass headers prompt output_file models.

End Function.
End Single.

(** ** Observing a run *)

Module Obs.
Import Py Base64 Net.

(** The world after the events [evs] have been added to the trace. *)
Definition extend (w : world) (evs : list event) : world :=
  mkWorld (trace w ++ evs) (files w).

(** The ["model"] entry of the body of a POST. *)
Definition request_model (r : request) : option string :=
  match r with
  | Post _ _ (JObj kvs) _ =>
      match assoc "model" kvs with
      | Some (JStr m) => Some m
      | _ => None
      end
  | _ => None
  end.

(** The model identifiers contacted, in the order of the requests. *)
Fixpoint posted_models (evs : list event) : list string :=
  match evs with
  | [] => []
  | EvRequest r :: rest =>
      match request_model r with
      | Some m => m :: posted_models rest
      | None => posted_models rest
      end
  | EvSleep _ :: rest => posted_models rest
  end.

Definition is_post_to (endpoint : string) (e : event) : bool :=
  match e with
  | EvRequest (Post url _ _ _) => String.eqb url endpoint
  | _ => false
  end.

Definition is_get (e : event) : bool :=
  match e with
  | EvRequest (Get _) => true
  | _ => false
  end.

(** The integer under [k] in the body of a POST. *)
Definition request_dimension (k : string) (r : request) : option Z :=
  match r with
  | Post _ _ (JObj kvs) _ =>
      match assoc k kvs with
      | Some (JNum n) => Some n
      | _ => None
      end
  | _ => None
  end.

(** The exceptions the scripts raise themselves, with [raise Exception]. *)
Definition is_generic (e : exn) : bool :=
  match e with
  | PyException _ => true
  | _ => false
  end.

(** [raise_for_status] lets the response through. *)
Definition http_ok (r : response) : bool :=
  negb ((400 <=? status_code r)%Z && (status_code r <? 600)%Z).

(** [tried] lists every entry of [models] once or twice, in order. *)
Inductive stutter : list string -> list string -> Prop :=
| stutter_nil : stutter [] []
| stutter_once m models tried :
    stutter models tried -> stutter (m :: models) (m :: tried)
| stutter_twice m models tried :
    stutter models tried -> stutter (m :: models) (m :: m :: tried).

(** [tried] walks [models] from the front, each entry once or twice, and
    may stop before the end. *)
Inductive in_order : list string -> list string -> Prop :=
| in_order_stop models : in_order models []
| in_order_once m models tried :
    in_order models tried -> in_order (m :: models) (m :: tried)
| in_order_twice m models tried :
    in_order models tried -> in_order (m :: models) (m :: m :: tried).


End Obs.

(** ** Mock services *)

Module Mock.
Import Py Base64 Net Expr Obs.

Definition w0 : world := mkWorld [] ∅.

Definition status (code : Z) : net_result :=
  Response (mkResponse code None []).

Definition body (data : json) : net_result :=
  Response (mkResponse 200 (Some data) []).

Definition is_video_post (r : request) : bool :=
  is_post_to (String.append VENICE_API_BASE "/video/generate") (EvRequest r).

(** A service that looks at the request only. *)
Definition stateless (on_image on_video : option string -> net_result)
           (on_get : json -> net_result) : service_t :=
  fun _ r =>
    match r with
    | Post _ _ _ _ =>
        if is_video_post r then on_video (request_model r)
        else on_image (request_model r)
    | Get u => on_get u
    end.

(** Every request is answered with the same status and no body. *)
Definition always (code : Z) : service_t :=
  stateless (fun _ => status code) (fun _ => status code) (fun _ => status code).

(** Images come back inline as the base64 text of [B]. *)
Definition image_inline (B : bytes) : service_t :=
  stateless (fun _ => body (JObj [("images", JList [JStr (b64encode B)])]))
            (fun _ => status 404) (fun _ => status 404).


(** Videos come back inline in the [video] field; no image model exists. *)
Definition video_inline (B : bytes) : service_t :=
  stateless (fun _ => status 404)
            (fun _ => body (JObj [("video", JStr (b64encode B))]))
            (fun _ => NetFail "Invalid URL: No scheme supplied").


(** Every video model answers 200 with a [video] entry that is an object;
    the image models answer [code]. *)
Definition video_not_a_string (code : Z) : service_t :=
  stateless (fun _ => status code)
            (fun _ => body (JObj [("video", JObj [("status", JStr "queued")])]))
            (fun _ => status 404).

(** The first video model is rate limited, the others answer inline. *)
Definition first_video_rate_limited (B : bytes) : service_t :=
  stateless (fun _ => status 404)
            (fun m =>
               match m with
               | Some "sora-2-pro-text-to-video" => status 429
               | _ => body (JObj [("video", JStr (b64encode B))])
               end)
            (fun _ => status 404).

Definition slept (e : event) : bool :=
  match e with EvSleep _ => true | _ => false end.

(** Rate limited until the client has paused once; images inline after. *)
Definition rate_limited_until_pause (B : bytes) : service_t :=
  fun history r =>
    if existsb slept history then image_inline B history r
    else status 429.

End Mock.

(** ** Python strings, integers and paths used by the callers

    Strings are sequences of 8-bit characters: the functions below are
    those of Python on ASCII text, and a character above 127 stands for
    itself. *)

Module Str.
Import Py.

Definition is_upper (c : ascii) : bool :=
  N.leb 65 (N_of_ascii c) && N.leb (N_of_ascii c) 90.

Definition lower_char (c : ascii) : ascii :=
  if is_upper c then ascii_of_N (N_of_ascii c + 32) else c.

(** [s.lower()] *)
Fixpoint lower (s : string) : string :=
  match s with
  | EmptyString => EmptyString
  | String c rest => String (lower_char c) (lower rest)
  end.

(** [s.replace(old, new)] for single characters. *)
Fixpoint replace (old new : ascii) (s : string) : string :=
  match s with
  | EmptyString => EmptyString
  | String c rest =>
      String (if Ascii.eqb c old then new else c) (replace old new rest)
  end.

(** [c in s] for a single character. *)
Fixpoint contains_char (c : ascii) (s : string) : bool :=
  match s with
  | EmptyString => false
  | String c' rest => Ascii.eqb c' c || contains_char c rest
  end.

(** [s.split(sep)] for a single character. *)
Fixpoint split (sep : ascii) (s : string) : list string :=
  match s with
  | EmptyString => [EmptyString]
  | String c rest =>
      if Ascii.eqb c sep then EmptyString :: split sep rest
      else
        match split sep rest with
        | [] => [String c EmptyString]
        | part :: parts => String c part :: parts
        end
  end.

(** [sep.join(parts)] *)
Fixpoint join (sep : string) (parts : list string) : string :=
  match parts with
  | [] => EmptyString
  | [part] => part
  | part :: rest => String.append part (String.append sep (join sep rest))
  end.

Fixpoint string_of_uint (d : Decimal.uint) : string :=
  match d with
  | Decimal.Nil => EmptyString
  | Decimal.D0 d => String "0" (string_of_uint d)
  | Decimal.D1 d => String "1" (string_of_uint d)
  | Decimal.D2 d => String "2" (string_of_uint d)
  | Decimal.D3 d => String "3" (string_of_uint d)
  | Decimal.D4 d => String "4" (string_of_uint d)
  | Decimal.D5 d => String "5" (string_of_uint d)
  | Decimal.D6 d => String "6" (string_of_uint d)
  | Decimal.D7 d => String "7" (string_of_uint d)
  | Decimal.D8 d => String "8" (string_of_uint d)
  | Decimal.D9 d => String "9" (string_of_uint d)
  end.

(** [str(n)] for [n >= 0]. *)
Definition decimal (n : N) : string := string_of_uint (N.to_uint n).

(** [f"{z:02d}"]: zero padded to a width of two, the sign counted. *)
Definition format_02d (z : Z) : string :=
  if (z <? 0)%Z then String "-" (decimal (Z.to_N (- z)))
  else if (z <? 10)%Z then String "0" (decimal (Z.to_N z))
  else decimal (Z.to_N z).

(** The characters [int] strips from both ends of an ASCII [str]: tab,
    line feed, vertical tab, form feed, carriage return and space. *)
Definition is_space (c : ascii) : bool :=
  let n := N_of_ascii c in
  (N.leb 9 n && N.leb n 13) || N.eqb n 32.

Definition is_digit (c : ascii) : bool :=
  N.leb 48 (N_of_ascii c) && N.leb (N_of_ascii c) 57.

Definition digit_value (c : ascii) : Z := Z.of_N (N_of_ascii c - 48).

Fixpoint lstrip (cs : list ascii) : list ascii :=
  match cs with
  | c :: rest => if is_space c then lstrip rest else cs
  | [] => []
  end.

Definition strip (cs : list ascii) : list ascii :=
  rev (lstrip (rev (lstrip cs))).

(** Digits, with single underscores between them. *)
Fixpoint digits_value (cs : list ascii) (acc : Z) (after_underscore : bool)
  : option Z :=
  match cs with
  | [] => if after_underscore then None else Some acc
  | c :: rest =>
      if is_digit c then digits_value rest (acc * 10 + digit_value c) false
      else if Ascii.eqb c "_" then
        if after_underscore then None else digits_value rest acc true
      else None
  end.

(** [sys.int_info.default_max_str_digits]: a text with more digits is
    refused with a [ValueError]. *)
Definition max_str_digits : Z := 4300.

Definition unsigned_value (cs : list ascii) : option Z :=
  match cs with
  | c :: _ =>
      if is_digit c then
        if (max_str_digits <? Z.of_nat (List.length (List.filter is_digit cs)))%Z
        then None
        else digits_value cs 0 false
      else None
  | [] => None
  end.

(** [int(s)] for a [str], with the default limit on the number of
    digits. *)
Definition int (s : string) : outcome Z :=
  let invalid := Raise (ValueError "invalid literal for int() with base 10") in
  let value cs :=
    match unsigned_value cs with
    | Some z => Ok z
    | None => invalid
    end in
  match strip (list_ascii_of_string s) with
  | [] => invalid
  | c :: cs =>
      if Ascii.eqb c "+" then value cs
      else if Ascii.eqb c "-" then obind (value cs) (fun z => Ok (- z)%Z)
      else value (c :: cs)
  end.

(** [range(start, stop)] as a list.  The list is built whatever its
    length: the [OverflowError] and the [MemoryError] with which
    [indices.extend(range(...))] ends on a range too long for the machine
    are not modelled, so a statement on [parse_section_args] here is one
    on the calls that have the memory they need. *)
Definition range (start stop : Z) : list Z :=
  map (fun k => (start + Z.of_nat k)%Z) (seq 0 (Z.to_nat (stop - start))).

Fixpoint insert_sorted (z : Z) (l : list Z) : list Z :=
  match l with
  | [] => [z]
  | x :: rest =>
      if (z <? x)%Z then z :: l
      else if (z =? x)%Z then l
      else x :: insert_sorted z rest
  end.

(** [sorted(set(l))]: the distinct elements of [l] in increasing order. *)
Definition sorted_set (l : list Z) : list Z := fold_right insert_sorted [] l.

End Str.

(** [pathlib] on POSIX: a path is kept as the string [str(path)]. *)
Module PathLib.

(** The components of a string: the pieces between slashes that are
    neither empty nor a dot. *)
Definition components (s : string) : list string :=
  filter (fun part => negb (String.eqb part EmptyString || String.eqb part "."))
         (Str.split "/" s).

(** The root of an absolute string: two slashes when it starts with
    exactly two, one otherwise. *)
Definition root (s : string) : string :=
  match s with
  | String "/" (String "/" (String "/" _)) => "/"
  | String "/" (String "/" _) => "//"
  | String "/" _ => "/"
  | _ => EmptyString
  end.

(** [Path(s)] *)
Definition Path (s : string) : string :=
  match root s, components s with
  | EmptyString, [] => "."
  | r, parts => String.append r (Str.join "/" parts)
  end.

Fixpoint ends_with_slash (s : string) : bool :=
  match s with
  | EmptyString => false
  | String c EmptyString => Ascii.eqb c "/"
  | String _ rest => ends_with_slash rest
  end.

(** [path / name], for [path] the string of a path. *)
Definition joinpath (path name : string) : string :=
  match root name with
  | EmptyString =>
      match components name with
      | [] => path
      | parts =>
          if String.eqb path "." then Str.join "/" parts
          else if ends_with_slash path then
            String.append path (Str.join "/" parts)
          else String.append path (String "/" (Str.join "/" parts))
      end
  | r => String.append r (Str.join "/" (components name))
  end.

End PathLib.

(** ** [generate_graeber_video.py] and [generate_graeber_video_full.py]:
       [ScriptSection] and [generate_assets]

    Directories are not part of the world, the file system being a map from
    path to content: a write to a path succeeds, and [setup_directories],
    which only creates directories, leaves the world as it is.  The
    assignment [section.asset_path = asset_path] changes an object the
    caller's list shares: [generate_assets] is given the list and returns
    it as the loop leaves it. *)

Module Script.

Record ScriptSection := mkSection {
  title : string;
  start_time : Z;
  duration : Z;
  narration : string;
  visual_type : string;
  prompt : string;
  asset_path : option string
}.

(** [__init__]: a fresh section has no asset. *)
Definition init (title : string) (start_time duration : Z)
           (narration visual_type prompt : string) : ScriptSection :=
  mkSection title start_time duration narration visual_type prompt None.

(** [section.asset_path = path] *)
Definition set_asset_path (section : ScriptSection) (path : string)
  : ScriptSection :=
  mkSection (title section) (start_time section) (duration section)
            (narration section) (visual_type section) (prompt section)
            (Some path).

Definition OUTPUT_DIR : string := PathLib.Path "/home/claude/graeber_video".
Definition ASSETS_DIR : string := PathLib.joinpath OUTPUT_DIR "assets".
Definition IMAGES_DIR : string := PathLib.joinpath ASSETS_DIR "images".
Definition VIDEOS_DIR : string := PathLib.joinpath ASSETS_DIR "videos".

(** [f"{i:02d}_{section.title.lower().replace(' ', '_')}" + ext] *)
Definition asset_name (i : Z) (title ext : string) : string :=
  String.append (Str.format_02d i)
    (String "_" (String.append (Str.replace " " "_" (Str.lower title)) ext)).

Definition image_path (i : nat) (section : ScriptSection) : string :=
  PathLib.joinpath IMAGES_DIR (asset_name (Z.of_nat i) (title section) ".png").

Definition video_path (i : nat) (section : ScriptSection) : string :=
  PathLib.joinpath VIDEOS_DIR (asset_name (Z.of_nat i) (title section) ".mp4").

End Script.

Module MainAssets.
Import Py Net Expr Script.

Section Caller.
Variable service : service_t.

(** The body of the loop for the section at position [i]; the result is
    the section as the iteration leaves it. *)
Definition process (client : Main.VeniceAPIClient) (i : nat)
           (section : ScriptSection) : M ScriptSection :=
  try_except
    (let* section' :=
       if String.eqb (visual_type section) "image" then
         let* image_data :=
           Main.generate_image service client (prompt section)
                               Main.default_model in
         let asset_path := image_path i section in
         let* _ := write_bytes asset_path image_data in
         ret (set_asset_path section asset_path)
       else if String.eqb (visual_type section) "video" then
         let* video_data :=
           Main.generate_video service client (prompt section) 5 in
         let asset_path := video_path i section in
         let* _ := write_bytes asset_path video_data in
         ret (set_asset_path section asset_path)
       else ret section in
     (* Rate limiting - be respectful *)
     let* _ := sleep 5 in
     ret section')
    (fun _ => ret section).

(** [for i, section in enumerate(script)], from position [i] on. *)
Fixpoint assets_loop (client : Main.VeniceAPIClient) (i : nat)
         (script : list ScriptSection) : M (list ScriptSection) :=
  match script with
  | [] => ret []
  | section :: rest =>
      let* section' := process client i section in
      let* rest' := assets_loop client (S i) rest in
      ret (section' :: rest')
  end.

Definition generate_assets (api_key : string) (script : list ScriptSection)
  : M (list ScriptSection) :=
  let client := Main.init api_key in
  assets_loop client 0 script.

End Caller.
End MainAssets.

Module FullAssets.
Import Py Net Expr Script.

Section Caller.
Variable service : service_t.

(** [asset_path.write_bytes(data)] for what [generate_video] of this
    script returns: [None] is not bytes-like, and the [TypeError] comes
    before the file is opened. *)
Definition write_maybe (path : string) (data : option bytes) : M unit :=
  match data with
  | Some b => write_bytes path b
  | None => raise TypeError
  end.

Definition process (client : Main.VeniceAPIClient) (i : nat)
           (section : ScriptSection) : M ScriptSection :=
  try_except
    (let* section' :=
       if String.eqb (visual_type section) "image" then
         let* image_data :=
           Full.generate_image service client (prompt section)
                               Full.default_image_model in
         let asset_path := image_path i section in
         let* _ := write_bytes asset_path image_data in
         ret (set_asset_path section asset_path)
       else if String.eqb (visual_type section) "video" then
         let* video_data :=
           Full.generate_video service client (prompt section)
                               Full.default_video_model in
         let asset_path := video_path i section in
         let* _ := write_maybe asset_path video_data in
         ret (set_asset_path section asset_path)
       else ret section in
     (* Rate limiting *)
     let* _ := sleep 2 in
     ret section')
    (fun _ => ret section).

Fixpoint assets_loop (client : Main.VeniceAPIClient) (i : nat)
         (script : list ScriptSection) : M (list ScriptSection) :=
  match script with
  | [] => ret []
  | section :: rest =>
      let* section' := process client i section in
      let* rest' := assets_loop client (S i) rest in
      ret (section' :: rest')
  end.

Definition generate_assets (api_key : string) (script : list ScriptSection)
  : M (list ScriptSection) :=
  let client := Main.init api_key in
  assets_loop client 0 script.

End Caller.
End FullAssets.

(** ** [generate_sections.py]: [ALL_SECTIONS], [generate_sections] and
       [parse_section_args]

    [generate_sections] makes its three directories before anything else,
    outside any [try], writes its files inside the [try] of a section, and
    after the loop asks for the absolute path of its directory and lists
    the two asset directories for the closing lines, outside any [try]
    again.  Whether the file system lets an operation through is not for
    the script to decide: as with the remote service, it is a parameter,
    [disk], that answers an operation as a function of what has happened so
    far.  An operation that is refused raises an [OSError] and changes
    nothing; a write can also fail after part of the bytes has reached the
    file; an operation that goes through adds the directory to those that
    exist, or stores the bytes.  What the [print] calls put on the console
    is left out. *)

Module SectionsCli.
Import Py Net Expr.

Record ScriptSection := mkSection {
  idx : Z;
  title : string;
  start_time : Z;
  duration : Z;
  narration : string;
  visual_type : string;
  prompt : string
}.

Definition ALL_SECTIONS : list ScriptSection :=
  [mkSection 0 "Opening" 0 10 "For thousands of years..." "image"
     "Ancient coins and scrolls on weathered parchment, dramatic lighting, cinematic, historical atmosphere, 16:9";
   mkSection 1 "The Myth" 10 8 "The myth goes like this..." "image"
     "Medieval marketplace illustration showing primitive barter, hand-drawn style, historical documentation feel, muted colors, 16:9";
   mkSection 2 "Chicken Scene" 18 5 "Except... that never happened." "video"
     "Medieval peasant trying to trade live chickens with a blacksmith for an iron axe, frustrated, chickens escaping, comedic timing, cinematic lighting, 5 second duration, 16:9";
   mkSection 3 "Graeber's Research" 23 12 "Anthropologist David Graeber..." "image"
     "Anthropological research imagery, ancient debt tablets, community networks visualization, scholarly aesthetic, muted academic colors, 16:9";
   mkSection 4 "Money's Purpose" 35 10 "Money wasn't invented..." "image"
     "Ancient army formations and tax collectors, historical documentation style, imposing architecture, power dynamics visualization, cinematic, 16:9";
   mkSection 5 "Modern Abstraction" 45 12 "Today, money is backed by..." "image"
     "Modern financial trading screens with stock market data, abstract numbers floating in digital space, disconnected from reality, cold blue lighting, 16:9";
   mkSection 6 "Financial Glitch" 57 3 EmptyString "video"
     "Stock market charts and financial data dissolving into static and glitching, matrix-style corruption, numbers becoming meaningless, unsettling transformation, 3 second duration, 16:9";
   mkSection 7 "Participation" 60 8 "And somehow, we all just..." "image"
     "People staring at smartphone screens showing stock tickers and financial apps, disconnected expressions, modern urban setting, cold tones, 16:9";
   mkSection 8 "Health Data Locked" 68 12 "Meanwhile, something genuinely valuable..." "image"
     "Medical records behind locked corporate logos, scattered health data visualization, person reaching for their own information but blocked, dystopian healthcare system, 16:9";
   mkSection 9 "Possibility" 80 10 "But what if we could build..." "image"
     "Clean geometric blockchain network visualization, crystalline structure, transparent and verifiable nodes, hopeful blue and white tones, technical but accessible, 16:9";
   mkSection 10 "Order from Chaos" 90 4 "Not money 2.0..." "video"
     "Geometric blockchain network forming from chaos, clean lines crystallizing, order emerging from disorder, hopeful but grounded, 4 second duration, 16:9";
   mkSection 11 "Real Utility" 94 8 "What if instead of..." "image"
     "Human-centered technology interface, health data flowing to real people, warm tones contrasting with previous cold imagery, hope and agency, 16:9";
   mkSection 12 "Amach Introduction" 102 12 "This is where Amach comes in..." "image"
     "Clean health data dashboard showing Amach platform, user-controlled interface, transparent data flows, modern medical visualization, professional and trustworthy, 16:9";
   mkSection 13 "Better Services" 114 12 "Better actuarial models..." "image"
     "Cohort analysis visualization, AI-assisted health insights, people benefiting from real data, network effects visualization, optimistic and grounded, 16:9";
   mkSection 14 "Full Circle" 126 12 "Graeber showed us..." "image"
     "Person holding their complete health data securely, connected to community health network, full circle from opening imagery, warm human-centered tones, 16:9";
   mkSection 15 "Closing" 138 7 "Not the future of money..." "image"
     "Amach Health logo on clean background with tagline 'Value Moored to Reality', professional, confident, simple and powerful, 16:9"].

Definition OUTPUT_DIR : string := PathLib.Path "./graeber_assets".
Definition IMAGES_DIR : string := PathLib.joinpath OUTPUT_DIR "images".
Definition VIDEOS_DIR : string := PathLib.joinpath OUTPUT_DIR "videos".

(** [ALL_SECTIONS[idx]], a negative index counting from the end. *)
Definition section_at (idx : Z) : outcome ScriptSection :=
  let n := Z.of_nat (List.length ALL_SECTIONS) in
  let i := if (idx <? 0)%Z then (idx + n)%Z else idx in
  if (i <? 0)%Z then Raise IndexError
  else
    match nth_error ALL_SECTIONS (Z.to_nat i) with
    | Some section => Ok section
    | None => Raise IndexError
    end.

Definition image_path (idx : Z) (section : ScriptSection) : string :=
  PathLib.joinpath IMAGES_DIR (Script.asset_name idx (title section) ".png").

Definition video_path (idx : Z) (section : ScriptSection) : string :=
  PathLib.joinpath VIDEOS_DIR (Script.asset_name idx (title section) ".mp4").

(** *** The file system *)

Inductive fs_op : Type :=
| Mkdir (path : string)                   (* [path.mkdir(exist_ok=True)] *)
| WriteBytes (path : string)              (* [path.write_bytes(data)] *)
| Absolute (path : string)                (* [path.absolute()] *)
| Glob (path : string) (pattern : string). (* [list(path.glob(pattern))] *)

(** How the file system answers.  [Through]: the operation is carried
    out.  [Refused msg]: it raises an [OSError] (a [FileExistsError], a
    [PermissionError], ...) and nothing has changed.  [Cut msg kept]: a
    write raises an [OSError] after the file was opened and [kept] of the
    bytes were written (a full disk, say); for an operation other than a
    write it stands for a refusal. *)
Inductive fs_answer : Type :=
| Through
| Refused (msg : string)
| Cut (msg : string) (kept : nat).

Definition disk_t : Type := list event -> fs_op -> fs_answer.

(** What a call can end with: an exception of the client code, or an
    [OSError] of the file system. *)
Inductive failure : Type :=
| Client (e : exn)
| OSError (msg : string).

Inductive result (A : Type) : Type :=
| Done (a : A)
| Failed (f : failure).
Arguments Done {A} a.
Arguments Failed {A} f.

(** The world of the clients and the directories that exist. *)
Record state := mkState {
  net : world;
  dirs : gset string
}.

Definition C (A : Type) : Type := state -> result A * state.

Definition done {A} (a : A) : C A := fun s => (Done a, s).

Definition and_then {A B} (m : C A) (k : A -> C B) : C B :=
  fun s =>
    match m s with
    | (Done a, s') => k a s'
    | (Failed f, s') => (Failed f, s')
    end.

(** [try: m except Exception: h] *)
Definition try_except_c {A} (m : C A) (h : failure -> C A) : C A :=
  fun s =>
    match m s with
    | (Done a, s') => (Done a, s')
    | (Failed f, s') => h f s'
    end.

(** A computation of the clients' monad, which leaves the directories
    alone. *)
Definition lift_net {A} (m : M A) : C A :=
  fun s =>
    match m (net s) with
    | (Ok a, w) => (Done a, mkState w (dirs s))
    | (Raise e, w) => (Failed (Client e), mkState w (dirs s))
    end.

(** [path.mkdir(exist_ok=True)] *)
Definition mkdir (disk : disk_t) (path : string) : C unit :=
  fun s =>
    match disk (trace (net s)) (Mkdir path) with
    | Through => (Done tt, mkState (net s) ({[path]} ∪ dirs s))
    | Refused msg | Cut msg _ => (Failed (OSError msg), s)
    end.

(** An operation that reads the file system and changes nothing:
    [path.absolute()], [list(path.glob(pattern))]. *)
Definition look (disk : disk_t) (op : fs_op) : C unit :=
  fun s =>
    match disk (trace (net s)) op with
    | Through => (Done tt, s)
    | Refused msg | Cut msg _ => (Failed (OSError msg), s)
    end.

(** [path.write_bytes(data)] *)
Definition write_file (disk : disk_t) (path : string) (data : bytes)
  : C unit :=
  fun s =>
    match disk (trace (net s)) (WriteBytes path) with
    | Through =>
        (Done tt,
         mkState (mkWorld (trace (net s)) (<[path := data]> (files (net s))))
                 (dirs s))
    | Refused msg => (Failed (OSError msg), s)
    | Cut msg kept =>
        (Failed (OSError msg),
         mkState (mkWorld (trace (net s))
                          (<[path := take kept data]> (files (net s))))
                 (dirs s))
    end.

Section Caller.
Variable service : service_t.
Variable disk : disk_t.

(** The [try] statement of the loop, for the entry at position [i] of
    [count] entries. *)
Definition process (client : Sections.VeniceClient) (count i : nat)
           (idx : Z) (section : ScriptSection) : C unit :=
  try_except_c
    (and_then
       (if String.eqb (visual_type section) "image" then
          and_then
            (lift_net
               (Sections.generate_image service client (prompt section)))
            (fun data => write_file disk (image_path idx section) data)
        else if String.eqb (visual_type section) "video" then
          and_then
            (lift_net
               (Sections.generate_video service client (prompt section)
                                        (duration section)))
            (fun data => write_file disk (video_path idx section) data)
        else done tt)
       (fun _ =>
          (* Rate limiting between sections *)
          if (Z.of_nat i <? Z.of_nat count - 1)%Z
          then lift_net (sleep 5)
          else done tt))
    (fun _ => done tt).

(** [for i, idx in enumerate(section_indices)], from position [i] on. *)
Fixpoint sections_loop (client : Sections.VeniceClient) (count i : nat)
         (section_indices : list Z) : C unit :=
  match section_indices with
  | [] => done tt
  | idx :: rest =>
      if (Z.of_nat (List.length ALL_SECTIONS) <=? idx)%Z then
        sections_loop client count (S i) rest
      else
        and_then (lift_net (lift (section_at idx)))
          (fun section =>
             and_then (process client count i idx section)
               (fun _ => sections_loop client count (S i) rest))
  end.

(** The closing lines: [OUTPUT_DIR.absolute()],
    [len(list(IMAGES_DIR.glob('*.png')))] and
    [len(list(VIDEOS_DIR.glob('*.mp4')))], each of them printed. *)
Definition report : C unit :=
  and_then (look disk (Absolute OUTPUT_DIR)) (fun _ =>
  and_then (look disk (Glob IMAGES_DIR "*.png")) (fun _ =>
  look disk (Glob VIDEOS_DIR "*.mp4"))).

Definition generate_sections (api_key : string) (section_indices : list Z)
  : C unit :=
  (* Setup directories *)
  and_then (mkdir disk OUTPUT_DIR) (fun _ =>
  and_then (mkdir disk IMAGES_DIR) (fun _ =>
  and_then (mkdir disk VIDEOS_DIR) (fun _ =>
  let client := Sections.init api_key in
  and_then
    (sections_loop client (List.length section_indices) 0 section_indices)
    (fun _ => report)))).

End Caller.

(** [start, end = map(int, arg.split('-'))]: the parts are converted one
    by one as the unpacking asks for them, a third one included. *)
Definition unpack_range (parts : list string) : outcome (Z * Z) :=
  match parts with
  | [] => Raise (ValueError "not enough values to unpack")
  | p1 :: rest1 =>
      let+ start := Str.int p1 in
      match rest1 with
      | [] => Raise (ValueError "not enough values to unpack")
      | p2 :: rest2 =>
          let+ stop := Str.int p2 in
          match rest2 with
          | [] => Ok (start, stop)
          | p3 :: _ =>
              let+ _ := Str.int p3 in
              Raise (ValueError "too many values to unpack")
          end
      end
  end.

(** The loop of [parse_section_args], with [indices] as collected so
    far. *)
Fixpoint parse_loop (sections_arg : list string) (indices : list Z)
  : outcome (list Z) :=
  match sections_arg with
  | [] => Ok indices
  | arg :: rest =>
      if Str.contains_char "-" arg then
        let+ bounds := unpack_range (Str.split "-" arg) in
        parse_loop rest
          (indices ++ Str.range (fst bounds) (snd bounds + 1))
      else
        let+ n := Str.int arg in
        parse_loop rest (indices ++ [n])
  end.

Definition parse_section_args (sections_arg : list string)
  : outcome (list Z) :=
  let+ indices := parse_loop sections_arg [] in
  Ok (Str.sorted_set indices).

End SectionsCli.

(** ** More mock services *)

Module Mock2.
Import Py Base64 Net Expr Obs.

(** No request reaches the service. *)
Definition unreachable : service_t :=
  fun _ _ => NetFail "Connection refused".

(** Every POST is answered with status 200 and the body [data]; every
    GET with status 404. *)
Definition no_media (data : json) : service_t :=
  fun _ req =>
    match req with
    | Post _ _ _ _ => Mock.body data
    | Get _ => Mock.status 404
    end.

(** The body has [video] set to null and names the media under [url];
    the fetch serves [B]. *)
Definition video_null_url_given (u : string) (B : bytes) : service_t :=
  fun _ req =>
    match req with
    | Post _ _ _ _ => Mock.body (JObj [("video", JNull); ("url", JStr u)])
    | Get _ => Response (mkResponse 200 None B)
    end.

(** The body names the media under [url] only, by the string [u]; the
    fetch serves [B]. *)
Definition url_only (u : string) (B : bytes) : service_t :=
  fun _ req =>
    match req with
    | Post _ _ _ _ => Mock.body (JObj [("url", JStr u)])
    | Get _ => Response (mkResponse 200 None B)
    end.

(** A file system that lets every operation through. *)
Definition disk_ok : SectionsCli.disk_t := fun _ _ => SectionsCli.Through.

(** A file system in which [blocked] cannot be made a directory (a file
    of that name exists) and everything else goes through. *)
Definition disk_file_in_the_way (blocked : string) : SectionsCli.disk_t :=
  fun _ op =>
    match op with
    | SectionsCli.Mkdir path =>
        if String.eqb path blocked
        then SectionsCli.Refused "File exists"
        else SectionsCli.Through
    | _ => SectionsCli.Through
    end.

(** A file system that creates directories and refuses every write. *)
Definition disk_read_only_files : SectionsCli.disk_t :=
  fun _ op =>
    match op with
    | SectionsCli.WriteBytes _ => SectionsCli.Refused "Permission denied"
    | _ => SectionsCli.Through
    end.

(** A file system on which every write fails with [room] bytes written
    at most. *)
Definition disk_full_after (room : nat) : SectionsCli.disk_t :=
  fun _ op =>
    match op with
    | SectionsCli.WriteBytes _ =>
        SectionsCli.Cut "No space left on device" room
    | _ => SectionsCli.Through
    end.

(** A working directory that has been removed: no absolute path. *)
Definition disk_no_working_directory : SectionsCli.disk_t :=
  fun _ op =>
    match op with
    | SectionsCli.Absolute _ => SectionsCli.Refused "No such file or directory"
    | _ => SectionsCli.Through
    end.

End Mock2.

(** ** Further observations on a run *)

Module Watch.
Import Py Net Obs.

Definition is_sleep (e : event) : bool :=
  match e with
  | EvSleep _ => true
  | EvRequest _ => false
  end.

Definition is_request (e : event) : bool :=
  match e with
  | EvRequest _ => true
  | EvSleep _ => false
  end.


(** The exceptions of Python's own operations on values. *)
Definition builtin (e : exn) : bool :=
  match e with
  | TypeError | KeyError | IndexError | ValueError _ => true
  | _ => false
  end.

(** The service never answers with status 429. *)
Definition never_rate_limited (service : service_t) : Prop :=
  forall history req r,
    service history req = Response r -> status_code r <> 429%Z.

(** The image an answer to an image request carries, as both [try]
    blocks of [generate_image] read it: the answer passes
    [raise_for_status], its body is JSON, ["images"] is in it with a
    length above zero, and [base64.b64decode(data["images"][0])] gives
    the bytes. *)
Definition carried_image (answer : net_result) : option bytes :=
  match answer with
  | Response r =>
      if http_ok r then
        match json_body r with
        | Some data =>
            match Expr.has_images data with
            | Ok true =>
                match Expr.decode_first_image data with
                | Ok b => Some b
                | Raise _ => None
                end
            | _ => None
            end
        | None => None
        end
      else None
  | NetFail _ => None
  end.

(** Total failure on the image side: no request is ever answered with
    an image. *)
Definition never_an_image (service : service_t) : Prop :=
  forall history request,
    carried_image (service history request) = None.

(** No video request is answered with a status that passes
    [raise_for_status]. *)
Definition never_a_video (service : service_t) : Prop :=
  forall history headers payload timeout,
    match service history
                  (Post Main.video_endpoint headers payload timeout) with
    | Response r => http_ok r = false
    | NetFail _ => True
    end.

(** Strictly increasing: every element is below all that follow it. *)
(** The three directories of [generate_sections.py] can be made after
    [history]. *)
Definition directories_can_be_made (disk : SectionsCli.disk_t)
           (history : list event) : Prop :=
  disk history (SectionsCli.Mkdir SectionsCli.OUTPUT_DIR)
  = SectionsCli.Through /\
  disk history (SectionsCli.Mkdir SectionsCli.IMAGES_DIR)
  = SectionsCli.Through /\
  disk history (SectionsCli.Mkdir SectionsCli.VIDEOS_DIR)
  = SectionsCli.Through.

(** The three look-ups of the closing lines of [generate_sections] go
    through after [history]. *)
Definition report_can_be_made (disk : SectionsCli.disk_t)
           (history : list event) : Prop :=
  disk history (SectionsCli.Absolute SectionsCli.OUTPUT_DIR)
  = SectionsCli.Through /\
  disk history (SectionsCli.Glob SectionsCli.IMAGES_DIR "*.png")
  = SectionsCli.Through /\
  disk history (SectionsCli.Glob SectionsCli.VIDEOS_DIR "*.mp4")
  = SectionsCli.Through.

(** Every write is refused before the file is touched. *)
Definition refuses_every_write (disk : SectionsCli.disk_t) : Prop :=
  forall history path,
  exists msg,
    disk history (SectionsCli.WriteBytes path) = SectionsCli.Refused msg.

Fixpoint increasing (l : list Z) : Prop :=
  match l with
  | [] => True
  | x :: rest => Forall (fun y => (x < y)%Z) rest /\ increasing rest
  end.

(** Two sections that differ in the recorded asset at most. *)
Definition same_section (a b : Script.ScriptSection) : Prop :=
  Script.title a = Script.title b /\
  Script.start_time a = Script.start_time b /\
  Script.duration a = Script.duration b /\
  Script.narration a = Script.narration b /\
  Script.visual_type a = Script.visual_type b /\
  Script.prompt a = Script.prompt b.

(** The index [z] is one of those the command-line argument [arg] stands
    for: the number itself, or a number of the range [a-b]. *)
Definition denotes (arg : string) (z : Z) : Prop :=
  if Str.contains_char "-" arg then
    exists start stop,
      SectionsCli.unpack_range (Str.split "-" arg) = Ok (start, stop) /\
      (start <= z <= stop)%Z
  else Str.int arg = Ok z.

End Watch.

(** * Properties *)

(** ** Base64: decoding undoes encoding *)

Section Base64Facts.
Import Py Base64.

Lemma to_uchar_to_N (b : byte) : to_uchar (Byte.to_N b) = b.
Proof. destruct b; reflexivity. Qed.

Lemma in_all_bytes (b : byte) : In b all_bytes.
Proof.
  unfold all_bytes. apply in_map_iff.
  exists (N.to_nat (Byte.to_N b)). split.
  - rewrite N2Nat.id. apply to_uchar_to_N.
  - apply in_seq. pose proof (Byte.to_N_bounded b). lia.
Qed.

Lemma forall_byte (p : byte -> bool) :
  forallb p all_bytes = true -> forall b, p b = true.
Proof.
  intros H b. rewrite forallb_forall in H. apply H, in_all_bytes.
Qed.

Lemma forall_byte2 (p : byte -> byte -> bool) :
  forallb (fun a => forallb (p a) all_bytes) all_bytes = true ->
  forall a b, p a b = true.
Proof.
  intros H a b.
  pose proof (forall_byte _ H a) as Ha. cbv beta in Ha.
  exact (forall_byte _ Ha b).
Qed.

Lemma good_char_spec n :
  good_char n = true ->
  is_ascii (table_b2a_base64 n) = true /\
  Ascii.eqb (table_b2a_base64 n) BASE64_PAD = false /\
  table_a2b_base64 (table_b2a_base64 n) = n /\
  N.leb 64 n = false.
Proof.
  unfold good_char. intros H.
  repeat (apply andb_true_iff in H; destruct H as [H ?]).
  repeat split; try assumption.
  - now apply negb_true_iff.
  - now apply N.eqb_eq.
  - apply N.leb_gt. now apply N.ltb_lt.
Qed.

Lemma good_sextet0 a : good_char (sextet0 a) = true.
Proof. revert a. apply forall_byte. vm_compute. reflexivity. Qed.

Lemma good_sextet1 a b : good_char (sextet1 a b) = true.
Proof.
  revert a b. apply (forall_byte2 (fun a b => good_char (sextet1 a b))).
  vm_compute. reflexivity.
Qed.

Lemma good_sextet2 b c : good_char (sextet2 b c) = true.
Proof.
  revert b c. apply (forall_byte2 (fun b c => good_char (sextet2 b c))).
  vm_compute. reflexivity.
Qed.

Lemma good_sextet3 c : good_char (sextet3 c) = true.
Proof. revert c. apply forall_byte. vm_compute. reflexivity. Qed.

(** The three stores of a quad give the three bytes back. *)
Lemma store1 a b :
  to_uchar (N.lor (N.shiftl (sextet0 a) 2) (N.shiftr (sextet1 a b) 4)) = a.
Proof.
  apply Byte.byte_dec_bl. revert a b.
  apply (forall_byte2 (fun a b => Byte.eqb
    (to_uchar (N.lor (N.shiftl (sextet0 a) 2) (N.shiftr (sextet1 a b) 4))) a)).
  vm_compute. reflexivity.
Qed.

Lemma left1 a b : N.land (sextet1 a b) 15 = N.shiftr (Byte.to_N b) 4.
Proof.
  apply N.eqb_eq. revert a b.
  apply (forall_byte2 (fun a b =>
    N.eqb (N.land (sextet1 a b) 15) (N.shiftr (Byte.to_N b) 4))).
  vm_compute. reflexivity.
Qed.

Lemma store2 b c :
  to_uchar (N.lor (N.shiftl (N.shiftr (Byte.to_N b) 4) 4)
                  (N.shiftr (sextet2 b c) 2)) = b.
Proof.
  apply Byte.byte_dec_bl. revert b c.
  apply (forall_byte2 (fun b c => Byte.eqb
    (to_uchar (N.lor (N.shiftl (N.shiftr (Byte.to_N b) 4) 4)
                     (N.shiftr (sextet2 b c) 2))) b)).
  vm_compute. reflexivity.
Qed.

Lemma left2 b c : N.land (sextet2 b c) 3 = N.shiftr (Byte.to_N c) 6.
Proof.
  apply N.eqb_eq. revert b c.
  apply (forall_byte2 (fun b c =>
    N.eqb (N.land (sextet2 b c) 3) (N.shiftr (Byte.to_N c) 6))).
  vm_compute. reflexivity.
Qed.

Lemma store3 c :
  to_uchar (N.lor (N.shiftl (N.shiftr (Byte.to_N c) 6) 6) (sextet3 c)) = c.
Proof.
  apply Byte.byte_dec_bl. revert c.
  apply (forall_byte (fun c => Byte.eqb
    (to_uchar (N.lor (N.shiftl (N.shiftr (Byte.to_N c) 6) 6) (sextet3 c))) c)).
  vm_compute. reflexivity.
Qed.

(** Induction in steps of three, the way the encoder consumes its input. *)
Lemma list_ind3 {A} (P : list A -> Prop) :
  P [] -> (forall a, P [a]) -> (forall a b, P [a; b]) ->
  (forall a b c l, P l -> P (a :: b :: c :: l)) ->
  forall l, P l.
Proof.
  intros H0 H1 H2 H3.
  fix IH 1. intros [|a [|b [|c l]]].
  - exact H0.
  - apply H1.
  - apply H2.
  - apply H3, IH.
Qed.

(** One step of the decoder on a character the encoder emitted. *)
Lemma a2b_loop_good n rest st :
  good_char n = true ->
  a2b_loop (table_b2a_base64 n :: rest) st = a2b_loop rest (a2b_push st n).
Proof.
  intros H. apply good_char_spec in H as (_ & Hpad & Htab & Hlt).
  cbn [a2b_loop]. rewrite Hpad, Htab, Hlt. reflexivity.
Qed.

Lemma a2b_loop_encoded (data : bytes) : forall out,
  a2b_loop (b64encode_chars data) (mkA2b 0 0 0 out) = Ok (out ++ data).
Proof.
  induction data as [|a|a b|a b c rest IH] using list_ind3; intros out.
  - cbn. now rewrite app_nil_r.
  - cbn [b64encode_chars].
    rewrite !a2b_loop_good by (apply good_sextet0 || apply good_sextet1).
    cbn. now rewrite store1.
  - cbn [b64encode_chars].
    rewrite !a2b_loop_good
      by (apply good_sextet0 || apply good_sextet1 || apply good_sextet2).
    cbn. rewrite store1, left1, store2, <- app_assoc. reflexivity.
  - cbn [b64encode_chars].
    rewrite !a2b_loop_good
      by (apply good_sextet0 || apply good_sextet1 || apply good_sextet2
          || apply good_sextet3).
    unfold a2b_push at 1 2 3 4. cbn [quad_pos leftchar bin_data].
    rewrite store1, left1, store2, left2, store3.
    rewrite IH, <- !app_assoc. reflexivity.
Qed.

Lemma b64encode_chars_ascii (data : bytes) :
  forallb is_ascii (b64encode_chars data) = true.
Proof.
  pose proof (fun a => proj1 (good_char_spec _ (good_sextet0 a))) as H0.
  pose proof (fun a b => proj1 (good_char_spec _ (good_sextet1 a b))) as H1.
  pose proof (fun a b => proj1 (good_char_spec _ (good_sextet2 a b))) as H2.
  pose proof (fun a => proj1 (good_char_spec _ (good_sextet3 a))) as H3.
  induction data as [|a|a b|a b c rest IH] using list_ind3;
    cbn [b64encode_chars forallb].
  - reflexivity.
  - now rewrite H0, H1.
  - now rewrite H0, H1, H2.
  - now rewrite H0, H1, H2, H3, IH.
Qed.

(** [base64.b64decode(base64.b64encode(B)) == B]. *)
Lemma b64decode_b64encode (B : bytes) :
  b64decode (JStr (b64encode B)) = Ok B.
Proof.
  unfold b64decode, b64encode.
  rewrite list_ascii_of_string_of_list_ascii, b64encode_chars_ascii.
  apply (a2b_loop_encoded B []).
Qed.

(** The encoding of whatever starts with the bytes 86 DB 69 starts with
  the text [http]. *)
Lemma b64encode_http_prefix (rest : bytes) :
startswith (b64encode (x86 :: xdb :: x69 :: rest)) "http" = true.
Proof.
change (b64encode (x86 :: xdb :: x69 :: rest))
  with (String.append "http" (b64encode rest)).
unfold startswith. destruct (b64encode rest); reflexivity.
Qed.

End Base64Facts.

(** ** Running the monad *)

Section Running.
Import Py Net Obs.

Lemma extend_nil w : extend w [] = w.
Proof. destruct w. unfold extend. cbn. now rewrite app_nil_r. Qed.

Lemma extend_extend w a b : extend (extend w a) b = extend w (a ++ b).
Proof. unfold extend. cbn. now rewrite app_assoc. Qed.

Lemma send_response service r resp w :
  service (trace w) r = Response resp ->
  send service r w = (Ok resp, extend w [EvRequest r]).
Proof. intros H. unfold send. now rewrite H. Qed.

Lemma raise_for_status_ok r w :
  http_ok r = true -> raise_for_status r w = (Ok tt, w).
Proof.
  unfold http_ok, raise_for_status. intros H.
  apply negb_true_iff in H. now rewrite H.
Qed.

Lemma raise_for_status_error r w :
  http_ok r = false -> raise_for_status r w = (Raise (HTTPError r), w).
Proof.
  unfold http_ok, raise_for_status. intros H.
  apply negb_false_iff in H. now rewrite H.
Qed.

Lemma status_not_ok r code :
  status_code r = code -> (400 <=? code)%Z && (code <? 600)%Z = true ->
  http_ok r = false.
Proof. intros <- H. unfold http_ok. now rewrite H. Qed.

Lemma posted_models_app a b :
  posted_models (a ++ b) = posted_models a ++ posted_models b.
Proof.
  induction a as [|[r|s] a IH]; cbn; [reflexivity| |assumption].
  destruct (request_model r); cbn; now rewrite IH.
Qed.

End Running.

(** Case analysis along the control flow of a client. *)
Ltac run_step :=
  match goal with
  | H : ?b = _ |- context [if ?b then _ else _] => rewrite H
  | H : ?x = _ |- context [match ?x with _ => _ end] => rewrite H
  | H : ?s (Net.trace ?w) ?r = Net.Response ?resp
    |- context [Net.send ?s ?r ?w] => rewrite (send_response s r resp w H)
  | H : Obs.http_ok ?r = true |- context [Net.raise_for_status ?r ?w] =>
      rewrite (raise_for_status_ok r w H)
  | H : Obs.http_ok ?r = false |- context [Net.raise_for_status ?r ?w] =>
      rewrite (raise_for_status_error r w H)
  | H : Py.json_body ?r = _ |- context [Net.response_json ?r ?w] =>
      unfold Net.response_json at 1; rewrite H
  | H : ?o = _ |- context [Net.lift ?o ?w] => rewrite H
  | |- context [Net.lift (Py.Ok ?a) ?w] =>
      change (Net.lift (Py.Ok a) w) with (Py.Ok a, w)
  | |- context [Net.lift (Py.Raise ?e) ?w] =>
      change (Net.lift (@Py.Raise ?A e) w) with (@Py.Raise A e, w)
  | |- context [Net.send ?s ?r ?w] =>
      unfold Net.send at 1;
      let E := fresh "Hsvc" in destruct (s (Net.trace w) r) eqn:E
  | |- context [Net.raise_for_status ?r ?w] =>
      let E := fresh "Hst" in
      destruct (Obs.http_ok r) eqn:E;
      [rewrite (raise_for_status_ok r w E)
      |rewrite (raise_for_status_error r w E)]
  | |- context [Net.response_json ?r ?w] =>
      unfold Net.response_json at 1;
      let E := fresh "Hjson" in destruct (Py.json_body r) eqn:E
  | |- context [Net.lift ?o ?w] =>
      unfold Net.lift at 1;
      let E := fresh "Hval" in destruct o eqn:E
  | |- context [Net.sleep ?n ?w] => unfold Net.sleep at 1
  | |- context [if ?b then _ else _] =>
      let E := fresh "Hif" in destruct b eqn:E
  | |- context [match ?x with Some _ => _ | None => _ end] =>
      let E := fresh "Hopt" in destruct x eqn:E
  | |- context [match ?x with _ => _ end] => is_var x; destruct x
  end.

Ltac run :=
  repeat (cbv beta iota zeta delta
            [Net.bind Net.try_except Net.ret Net.raise fst snd
             Py.obind Py.contains Py.getitem Py.getitem0
             Py.isinstance_list Py.isinstance_str];
          try run_step).

(** Bring the world reached at the end of a run into the form
    [extend w evs]. *)
Ltac tidy_world :=
  unfold Obs.extend; cbn [Net.trace Net.files]; rewrite <- ?app_assoc.

Section MainFacts.
Import Py Base64 Net Expr Obs Main.
Variable service : service_t.
Variable self : VeniceAPIClient.

Local Abbreviation image_post := (Main.image_post self).
Local Abbreviation video_post := (Main.video_post self).

Lemma image_attempt_events prompt try_model last_error w :
  exists s evs,
    image_attempt service self prompt try_model last_error w
    = (Ok s, extend w evs) /\
    (evs = [image_post try_model prompt] \/
     evs = [image_post try_model prompt; EvSleep 15;
            image_post try_model prompt]).
Proof.
  unfold image_attempt, image_try, image_retry, image_request.
  run.
  all: eexists _, _; (split; [tidy_world; reflexivity|]); cbn [app]; auto.
Qed.

(** The loop never raises, adds events only, and contacts the models in
    list order, each position once or twice. *)
Lemma image_pass_events prompt models : forall last_error w,
  exists s evs,
    image_pass service self prompt models last_error w = (Ok s, extend w evs) /\
    in_order models (posted_models evs) /\
    (forall le, s = Continue le -> stutter models (posted_models evs)).
Proof.
  induction models as [|m models IH]; intros last_error w.
  - exists (Continue last_error), []. rewrite extend_nil.
    repeat split; constructor.
  - cbn [image_pass]. unfold bind at 1.
    destruct (image_attempt_events prompt m last_error w)
      as (s & evs & -> & Hevs).
    assert (Hm : posted_models evs = [m] \/ posted_models evs = [m; m])
      by (destruct Hevs as [-> | ->]; [left | right]; reflexivity).
    destruct s as [b | le].
    + exists (Return b), evs. split; [reflexivity|]. split.
      * destruct Hm as [-> | ->];
          [apply in_order_once | apply in_order_twice]; apply in_order_stop.
      * discriminate.
    + destruct (IH le (extend w evs)) as (s & evs' & -> & Hord & Hall).
      exists s, (evs ++ evs'). rewrite extend_extend, posted_models_app.
      split; [reflexivity|]. split.
      * destruct Hm as [-> | ->];
          [apply in_order_once | apply in_order_twice]; exact Hord.
      * intros le' ->. specialize (Hall _ eq_refl).
        destruct Hm as [-> | ->];
          [apply stutter_once | apply stutter_twice]; exact Hall.
Qed.

(** Running the loop over [pre ++ post] is running it over [pre] and, if
    that ends without a [return], over [post]. *)
Lemma image_pass_app prompt pre post : forall last_error w,
  image_pass service self prompt (pre ++ post) last_error w =
  match image_pass service self prompt pre last_error w with
  | (Ok (Continue le), w1) => image_pass service self prompt post le w1
  | r => r
  end.
Proof.
  induction pre as [|m pre IH]; intros last_error w; [reflexivity|].
  cbn [app image_pass]. unfold bind.
  destruct (image_attempt service self prompt m last_error w) as [[[b|le]|e] w1];
    try reflexivity.
  apply IH.
Qed.

Lemma has_nonempty_list k kvs x rest :
  assoc k kvs = Some (JList (x :: rest)) ->
  has_nonempty k (JObj kvs) = Ok true.
Proof.
  intros H. unfold has_nonempty. cbn. rewrite H. cbn.
  unfold obind. cbn. reflexivity.
Qed.

Lemma decode_first_image_list kvs x rest :
  assoc "images" kvs = Some (JList (x :: rest)) ->
  decode_first_image (JObj kvs) = b64decode x.
Proof. intros H. unfold decode_first_image. cbn. now rewrite H. Qed.

(** A response with a decodable first image ends the iteration with a
    [return] of the decoded bytes, after the one request. *)
Lemma image_attempt_success prompt m last_error w r kvs x rest b :
  service (trace w) (Post image_endpoint (headers self)
                          (image_payload m prompt) (Some 60%Z)) = Response r ->
  http_ok r = true ->
  json_body r = Some (JObj kvs) ->
  assoc "images" kvs = Some (JList (x :: rest)) ->
  b64decode x = Ok b ->
  image_attempt service self prompt m last_error w
  = (Ok (Return b), extend w [image_post m prompt]).
Proof.
  intros Hsvc Hok Hjson Himg Hdec.
  pose proof (has_nonempty_list _ _ _ _ Himg : has_images _ = _) as Hhas.
  rewrite <- (decode_first_image_list _ _ _ Himg) in Hdec.
  unfold image_attempt, image_try, image_request.
  run. reflexivity.
Qed.

Lemma generate_image_success prompt model pre m post le w w1 r kvs x rest b :
  image_models_to_try model = pre ++ m :: post ->
  image_pass service self prompt pre None w = (Ok (Continue le), w1) ->
  service (trace w1) (Post image_endpoint (headers self)
                           (image_payload m prompt) (Some 60%Z)) = Response r ->
  http_ok r = true ->
  json_body r = Some (JObj kvs) ->
  assoc "images" kvs = Some (JList (x :: rest)) ->
  b64decode x = Ok b ->
  generate_image service self prompt model w
  = (Ok b, extend w1 [image_post m prompt]).
Proof.
  intros Hlist Hpre Hsvc Hok Hjson Himg Hdec.
  unfold generate_image. rewrite Hlist. unfold bind.
  rewrite image_pass_app, Hpre. cbn [image_pass]. unfold bind.
  rewrite (image_attempt_success _ _ _ _ _ _ _ _ _ Hsvc Hok Hjson Himg Hdec).
  reflexivity.
Qed.

(** A rate-limited first answer: one pause, one more request to the same
    model, and the iteration ends either way. *)
Lemma image_attempt_rate_limited prompt m last_error w r :
  service (trace w) (Post image_endpoint (headers self)
                          (image_payload m prompt) (Some 60%Z)) = Response r ->
  status_code r = 429%Z ->
  exists s,
    image_attempt service self prompt m last_error w
    = (Ok s, extend w [image_post m prompt; EvSleep 15; image_post m prompt]) /\
    (s = Continue (Some (HTTPError r)) \/ exists b, s = Return b).
Proof.
  intros Hsvc H429.
  pose proof (status_not_ok r _ H429 eq_refl) as Hst.
  unfold image_attempt, image_try, image_retry, image_request.
  run; rewrite ?H429 in *; try discriminate.
  all: eexists; (split; [tidy_world; reflexivity|]); eauto.
Qed.

(** *** The video path *)

Lemma video_attempt_events prompt duration entry last_error w :
  exists s evs,
    video_attempt service self prompt duration entry last_error w
    = (Ok s, extend w evs) /\
    (evs = [video_post entry prompt duration] \/
     evs = [video_post entry prompt duration; EvSleep 15] \/
     exists u, evs = [video_post entry prompt duration; EvRequest (Get u)]).
Proof.
  destruct entry as [model_id supports_duration].
  unfold video_attempt, video_try, video_decode, fetch_or_decode.
  run.
  all: eexists _, _; (split; [tidy_world; reflexivity|]); cbn [app]; eauto.
Qed.

Lemma video_attempt_models prompt duration entry last_error w :
  exists s evs,
    video_attempt service self prompt duration entry last_error w
    = (Ok s, extend w evs) /\
    posted_models evs = [fst entry] /\
    filter (is_post_to image_endpoint) evs = [].
Proof.
  destruct (video_attempt_events prompt duration entry last_error w)
    as (s & evs & H & Hevs).
  exists s, evs. split; [exact H|].
  destruct Hevs as [-> | [-> | [u ->]]]; split; reflexivity.
Qed.

Lemma video_pass_events prompt duration models : forall last_error w,
  exists s evs,
    video_pass service self prompt duration models last_error w
    = (Ok s, extend w evs) /\
    in_order (map fst models) (posted_models evs) /\
    (forall le, s = Continue le -> posted_models evs = map fst models) /\
    filter (is_post_to image_endpoint) evs = [].
Proof.
  induction models as [|entry models IH]; intros last_error w.
  - exists (Continue last_error), []. rewrite extend_nil.
    repeat split. constructor.
  - cbn [video_pass]. unfold bind at 1.
    destruct (video_attempt_models prompt duration entry last_error w)
      as (s & evs & -> & Hm & Hno).
    destruct s as [b | le].
    + exists (Return b), evs. split; [reflexivity|]. rewrite Hm.
      repeat split; [|discriminate|exact Hno].
      apply in_order_once, in_order_stop.
    + destruct (IH le (extend w evs)) as (s & evs' & -> & Hord & Hall & Hno').
      exists s, (evs ++ evs').
      rewrite extend_extend, posted_models_app, Hm, filter_app, Hno, Hno'.
      repeat split.
      * now apply in_order_once.
      * intros le' ->. cbn. now rewrite (Hall _ eq_refl).
Qed.

Lemma video_pass_app prompt duration pre post : forall last_error w,
  video_pass service self prompt duration (pre ++ post) last_error w =
  match video_pass service self prompt duration pre last_error w with
  | (Ok (Continue le), w1) => video_pass service self prompt duration post le w1
  | r => r
  end.
Proof.
  induction pre as [|m pre IH]; intros last_error w; [reflexivity|].
  cbn [app video_pass]. unfold bind.
  destruct (video_attempt service self prompt duration m last_error w)
    as [[[b|le]|e] w1]; try reflexivity.
  apply IH.
Qed.



(** A [video] entry that is not a string: no [return], no exception, and
    [last_error] is left as it was. *)
Lemma video_attempt_not_a_string prompt duration entry last_error w r kvs v :
  service (trace w) (Post video_endpoint (headers self)
     (video_payload (fst entry) prompt (snd entry) duration) (Some 180%Z))
  = Response r ->
  http_ok r = true ->
  json_body r = Some (JObj kvs) ->
  assoc "video" kvs = Some v ->
  isinstance_str v = false ->
  video_attempt service self prompt duration entry last_error w
  = (Ok (Continue last_error), extend w [video_post entry prompt duration]).
Proof.
  intros Hsvc Hok Hjson Hv Hstr.
  destruct entry as [model_id supports_duration]. cbn [fst snd] in *.
  unfold video_attempt, video_try, video_decode, fetch_or_decode.
  run; try discriminate; reflexivity.
Qed.

(** An inline [video] entry is decoded and returned. *)
Lemma video_attempt_inline prompt duration entry last_error w r kvs s b :
  service (trace w) (Post video_endpoint (headers self)
     (video_payload (fst entry) prompt (snd entry) duration) (Some 180%Z))
  = Response r ->
  http_ok r = true ->
  json_body r = Some (JObj kvs) ->
  assoc "video" kvs = Some (JStr s) ->
  startswith s "http" = false ->
  b64decode (JStr s) = Ok b ->
  video_attempt service self prompt duration entry last_error w
  = (Ok (Return b), extend w [video_post entry prompt duration]).
Proof.
  intros Hsvc Hok Hjson Hv Hhttp Hdec.
  destruct entry as [model_id supports_duration]. cbn [fst snd] in *.
  unfold video_attempt, video_try, video_decode, fetch_or_decode.
  run. reflexivity.
Qed.

(** A rate-limited answer on the video path: the pause, and on to the
    next model. *)
Lemma video_attempt_rate_limited prompt duration entry last_error w r :
  service (trace w) (Post video_endpoint (headers self)
     (video_payload (fst entry) prompt (snd entry) duration) (Some 180%Z))
  = Response r ->
  status_code r = 429%Z ->
  video_attempt service self prompt duration entry last_error w
  = (Ok (Continue (Some (HTTPError r))),
     extend w [video_post entry prompt duration; EvSleep 15]).
Proof.
  intros Hsvc H429.
  pose proof (status_not_ok r _ H429 eq_refl) as Hst.
  destruct entry as [model_id supports_duration]. cbn [fst snd] in *.
  unfold video_attempt, video_try.
  run; rewrite ?H429 in *; try discriminate.
  tidy_world. reflexivity.
Qed.

(** Any error status other than 429 moves on at once. *)
Lemma video_attempt_http_error prompt duration entry last_error w r :
  service (trace w) (Post video_endpoint (headers self)
     (video_payload (fst entry) prompt (snd entry) duration) (Some 180%Z))
  = Response r ->
  http_ok r = false ->
  status_code r <> 429%Z ->
  video_attempt service self prompt duration entry last_error w
  = (Ok (Continue (Some (HTTPError r))),
     extend w [video_post entry prompt duration]).
Proof.
  intros Hsvc Hst Hne.
  destruct entry as [model_id supports_duration]. cbn [fst snd] in *.
  unfold video_attempt, video_try.
  run; try reflexivity.
  apply Z.eqb_eq in Hif0. contradiction.
Qed.

End MainFacts.

Section SectionsFacts.
Import Py Base64 Net Expr Obs Sections.
Variable service : service_t.
Variable self : VeniceClient.

Local Abbreviation sections_image_post := (Sections.image_post self).
Local Abbreviation sections_video_post := (Sections.video_post self).

Lemma sections_image_attempt_events prompt model w :
  exists r evs,
    image_attempt service self prompt model w = (Ok r, extend w evs) /\
    (evs = [sections_image_post model prompt] \/
     evs = [sections_image_post model prompt; EvSleep 15]).
Proof.
  unfold image_attempt.
  run.
  all: eexists _, _; (split; [tidy_world; reflexivity|]); cbn [app]; auto.
Qed.

Lemma sections_image_pass_events prompt models : forall w,
  exists r evs,
    image_pass service self prompt models w = (Ok r, extend w evs) /\
    in_order models (posted_models evs) /\
    (r = None -> posted_models evs = models).
Proof.
  induction models as [|m models IH]; intros w.
  - exists None, []. rewrite extend_nil. repeat split. constructor.
  - cbn [image_pass]. unfold bind at 1.
    destruct (sections_image_attempt_events prompt m w)
      as (r & evs & -> & Hevs).
    assert (Hm : posted_models evs = [m])
      by (destruct Hevs as [-> | ->]; reflexivity).
    destruct r as [b|].
    + exists (Some b), evs. rewrite Hm. repeat split; [|discriminate].
      apply in_order_once, in_order_stop.
    + destruct (IH (extend w evs)) as (r & evs' & -> & Hord & Hall).
      exists r, (evs ++ evs').
      rewrite extend_extend, posted_models_app, Hm.
      repeat split.
      * now apply in_order_once.
      * intros ->. cbn. now rewrite Hall.
Qed.

Lemma sections_image_pass_app prompt pre post : forall w,
  image_pass service self prompt (pre ++ post) w =
  match image_pass service self prompt pre w with
  | (Ok None, w1) => image_pass service self prompt post w1
  | r => r
  end.
Proof.
  induction pre as [|m pre IH]; intros w; [reflexivity|].
  cbn [app image_pass]. unfold bind.
  destruct (image_attempt service self prompt m w) as [[[b|]|e] w1];
    try reflexivity.
  apply IH.
Qed.

Lemma sections_image_attempt_success prompt m w r kvs x rest b :
  service (trace w) (Post (String.append VENICE_API_BASE "/image/generate")
      (headers self) (image_payload m prompt) (Some 60%Z)) = Response r ->
  http_ok r = true ->
  json_body r = Some (JObj kvs) ->
  assoc "images" kvs = Some (JList (x :: rest)) ->
  b64decode x = Ok b ->
  image_attempt service self prompt m w
  = (Ok (Some b), extend w [sections_image_post m prompt]).
Proof.
  intros Hsvc Hok Hjson Himg Hdec.
  pose proof (has_nonempty_list _ _ _ _ Himg : has_images _ = _) as Hhas.
  rewrite <- (decode_first_image_list _ _ _ Himg) in Hdec.
  assert (H429 : (status_code r =? 429)%Z = false).
  { unfold http_ok in Hok. apply negb_true_iff in Hok.
    destruct (status_code r =? 429)%Z eqn:E; [|reflexivity].
    apply Z.eqb_eq in E. rewrite E in Hok. discriminate. }
  unfold image_attempt.
  run. reflexivity.
Qed.

Lemma sections_generate_image_success prompt pre m post w w1 r kvs x rest b :
  image_models = pre ++ m :: post ->
  image_pass service self prompt pre w = (Ok None, w1) ->
  service (trace w1) (Post (String.append VENICE_API_BASE "/image/generate")
      (headers self) (image_payload m prompt) (Some 60%Z)) = Response r ->
  http_ok r = true ->
  json_body r = Some (JObj kvs) ->
  assoc "images" kvs = Some (JList (x :: rest)) ->
  b64decode x = Ok b ->
  generate_image service self prompt w
  = (Ok b, extend w1 [sections_image_post m prompt]).
Proof.
  intros Hlist Hpre Hsvc Hok Hjson Himg Hdec.
  unfold generate_image. rewrite Hlist. unfold bind.
  rewrite sections_image_pass_app, Hpre. cbn [image_pass]. unfold bind.
  rewrite (sections_image_attempt_success _ _ _ _ _ _ _ _ Hsvc Hok Hjson Himg Hdec).
  reflexivity.
Qed.

(** Whatever happened during the trials, the error raised at the end is
    the fixed one. *)
Lemma sections_generate_image_error prompt w e w' :
  generate_image service self prompt w = (Raise e, w') ->
  e = PyException "All image models failed".
Proof.
  unfold generate_image, bind.
  destruct (sections_image_pass_events prompt image_models w)
    as (r & evs & -> & _).
  destruct r; unfold ret, raise; intros H; inversion H; reflexivity.
Qed.

Lemma scan_keys_events data keys : forall w,
  exists o evs,
    scan_keys service data keys w = (o, extend w evs) /\
    (evs = [] \/ exists u, evs = [EvRequest (Get u)]).
Proof.
  induction keys as [|key keys IH]; intros w.
  - exists (Ok None), []. rewrite extend_nil. auto.
  - cbn [scan_keys]. unfold fetch_or_decode.
    run.
    all: try apply IH.
    all: try (eexists _, []; rewrite extend_nil; split; [reflexivity|auto]).
    all: eexists _, [_]; split; [reflexivity|eauto].
Qed.

Lemma sections_video_attempt_events prompt duration model w :
  exists r evs,
    video_attempt service self prompt duration model w = (Ok r, extend w evs) /\
    posted_models evs = [model].
Proof.
  unfold video_attempt.
  run.
  all: try match goal with
    | |- context [scan_keys ?s ?d ?k (mkWorld (trace ?w ++ ?l) (files ?w))] =>
        change (mkWorld (trace w ++ l) (files w)) with (extend w l);
        destruct (scan_keys_events d k (extend w l)) as (o & evs & -> & Hevs);
        rewrite extend_extend;
        destruct o as [[b|]|e];
        (eexists _, _; split; [reflexivity|]);
        destruct Hevs as [-> | [u ->]]; reflexivity
    end.
  all: eexists _, _; (split; [tidy_world; reflexivity|]); reflexivity.
Qed.

Lemma sections_video_pass_events prompt duration models : forall w,
  exists r evs,
    video_pass service self prompt duration models w = (Ok r, extend w evs) /\
    in_order models (posted_models evs) /\
    (r = None -> posted_models evs = models).
Proof.
  induction models as [|m models IH]; intros w.
  - exists None, []. rewrite extend_nil. repeat split. constructor.
  - cbn [video_pass]. unfold bind at 1.
    destruct (sections_video_attempt_events prompt duration m w)
      as (r & evs & -> & Hm).
    destruct r as [b|].
    + exists (Some b), evs. rewrite Hm. repeat split; [|discriminate].
      apply in_order_once, in_order_stop.
    + destruct (IH (extend w evs)) as (r & evs' & -> & Hord & Hall).
      exists r, (evs ++ evs').
      rewrite extend_extend, posted_models_app, Hm.
      repeat split.
      * now apply in_order_once.
      * intros ->. cbn. now rewrite Hall.
Qed.

Lemma sections_video_pass_app prompt duration pre post : forall w,
  video_pass service self prompt duration (pre ++ post) w =
  match video_pass service self prompt duration pre w with
  | (Ok None, w1) => video_pass service self prompt duration post w1
  | r => r
  end.
Proof.
  induction pre as [|m pre IH]; intros w; [reflexivity|].
  cbn [app video_pass]. unfold bind.
  destruct (video_attempt service self prompt duration m w) as [[[b|]|e] w1];
    try reflexivity.
  apply IH.
Qed.



Lemma sections_video_attempt_inline prompt duration model w r kvs s b :
  service (trace w) (Post (String.append VENICE_API_BASE "/video/generate")
     (headers self) (video_payload model prompt duration) (Some 180%Z))
  = Response r ->
  http_ok r = true ->
  json_body r = Some (JObj kvs) ->
  assoc "video" kvs = Some (JStr s) ->
  startswith s "http" = false ->
  b64decode (JStr s) = Ok b ->
  video_attempt service self prompt duration model w
  = (Ok (Some b), extend w [sections_video_post model prompt duration]).
Proof.
  intros Hsvc Hok Hjson Hv Hhttp Hdec.
  assert (H429 : (status_code r =? 429)%Z = false).
  { unfold http_ok in Hok. apply negb_true_iff in Hok.
    destruct (status_code r =? 429)%Z eqn:E; [|reflexivity].
    apply Z.eqb_eq in E. rewrite E in Hok. discriminate. }
  unfold video_attempt. cbn [scan_keys]. unfold fetch_or_decode.
  run. reflexivity.
Qed.

End SectionsFacts.

Section FullFacts.
Import Py Base64 Net Expr Obs Full.
Variable service : service_t.
Variable self : Main.VeniceAPIClient.

Local Abbreviation full_image_post := (Full.image_post self).
Local Abbreviation full_video_post := (Full.video_post self).

(** One request, whatever comes back. *)
Lemma full_generate_image_events prompt model w :
  exists o,
    generate_image service self prompt model w
    = (o, extend w [full_image_post model prompt]).
Proof.
  unfold generate_image.
  run.
  all: eexists; reflexivity.
Qed.

Lemma full_generate_video_events prompt model w :
  exists o evs,
    generate_video service self prompt model w = (o, extend w evs).
Proof.
  unfold generate_video, video_try, fetch_or_decode.
  run.
  all: try match goal with
    | |- context [generate_image ?s ?c ?p ?m ?w] =>
        destruct (full_generate_image_events p m w) as (o & ->);
        destruct o
    end.
  all: eexists _, _; tidy_world; reflexivity.
Qed.

(** The fallback of this client is taken on a 404 only. *)
Lemma full_generate_video_not_found prompt model w r :
  service (trace w) (Post video_endpoint (Main.headers self)
                          (video_payload model prompt) (Some 120%Z))
  = Response r ->
  status_code r = 404%Z ->
  generate_video service self prompt model w
  = (let* b := generate_image service self prompt default_image_model in
     ret (Some b)) (extend w [full_video_post model prompt]).
Proof.
  intros Hsvc H404.
  pose proof (status_not_ok r _ H404 eq_refl) as Hst.
  unfold generate_video, video_try.
  run; rewrite ?H404 in *; try discriminate.
  reflexivity.
Qed.

Lemma full_generate_video_other_error prompt model w r :
  service (trace w) (Post video_endpoint (Main.headers self)
                          (video_payload model prompt) (Some 120%Z))
  = Response r ->
  http_ok r = false ->
  status_code r <> 404%Z ->
  generate_video service self prompt model w
  = (Raise (HTTPError r), extend w [full_video_post model prompt]).
Proof.
  intros Hsvc Hst Hne.
  unfold generate_video, video_try.
  run; try reflexivity.
  apply Z.eqb_eq in Hif. contradiction.
Qed.

End FullFacts.

Section SingleFacts.
Import Py Base64 Net Expr Obs Single.
Variable service : service_t.



End SingleFacts.

(** ** The claims *)

Section Claims.
Import Py Base64 Net Expr Obs Watch.

Lemma in_order_app_stop models more tried :
  in_order models tried -> in_order (models ++ more) tried.
Proof. induction 1; cbn; now constructor. Qed.

Lemma in_order_app models more tried tried' :
  stutter models tried -> in_order more tried' ->
  in_order (models ++ more) (tried ++ tried').
Proof.
  induction 1; intros H'; cbn;
    [assumption | apply in_order_once | apply in_order_twice]; auto.
Qed.

Lemma stutter_of_exact models : stutter models models.
Proof. induction models; now constructor. Qed.

Lemma stutter_count m models tried :
  stutter models tried ->
  count_occ String.string_dec models m <= count_occ String.string_dec tried m.
Proof.
  induction 1 as [|x models tried _ IH|x models tried _ IH]; cbn.
  - lia.
  - destruct (String.string_dec x m); lia.
  - destruct (String.string_dec x m); lia.
Qed.

(** Both image loops and both video loops walk their list from the
    front. *)
Lemma main_generate_image_in_order service self prompt model w :
  exists o evs,
    Main.generate_image service self prompt model w = (o, extend w evs) /\
    in_order (Main.image_models_to_try model) (posted_models evs) /\
    (forall e, o = Raise e ->
       stutter (Main.image_models_to_try model) (posted_models evs)).
Proof.
  unfold Main.generate_image, bind.
  destruct (image_pass_events service self prompt
              (Main.image_models_to_try model) None w)
    as (s & evs & -> & Hord & Hall).
  destruct s as [b | [e|]]; eexists _, evs; (split; [reflexivity|]);
    (split; [exact Hord|]); intros e' He'; try discriminate;
    eapply Hall; reflexivity.
Qed.




(** *** Every call walks its list from the first entry *)

Lemma stutter_app models tried more tried' :
  stutter models tried -> stutter more tried' ->
  stutter (models ++ more) (tried ++ tried').
Proof.
  induction 1; intros H'; cbn;
    [assumption | apply stutter_once | apply stutter_twice]; auto.
Qed.

Lemma main_image_pass_starts service self prompt m ms le w :
  exists s rest,
    Main.image_pass service self prompt (m :: ms) le w
    = (Ok s, extend w (Main.image_post self m prompt :: rest)).
Proof.
  cbn [Main.image_pass]. unfold bind at 1.
  destruct (image_attempt_events service self prompt m le w)
    as (s & evs & -> & Hevs).
  assert (Hrest : exists rest, evs = Main.image_post self m prompt :: rest)
    by (destruct Hevs as [-> | ->]; eauto).
  destruct Hrest as (rest & ->).
  destruct s as [b | le'].
  - eexists _, _. reflexivity.
  - destruct (image_pass_events service self prompt ms le'
                (extend w (Main.image_post self m prompt :: rest)))
      as (s' & evs' & -> & _).
    rewrite extend_extend. cbn [app]. eexists _, _. reflexivity.
Qed.

Lemma main_generate_image_starts service self prompt model w :
  exists o rest,
    Main.generate_image service self prompt model w
    = (o, extend w (Main.image_post self "nano-banana-pro" prompt :: rest)).
Proof.
  unfold Main.generate_image, Main.image_models_to_try, bind.
  destruct (main_image_pass_starts service self prompt "nano-banana-pro"
              ["hidream"; "venice-sd35"; "qwen-image"; "z-image-turbo";
               model] None w) as (s & rest & ->).
  destruct s as [b | [e|]]; eexists _, _; reflexivity.
Qed.

Lemma main_video_pass_starts service self prompt duration entry ms le w :
  exists s rest,
    Main.video_pass service self prompt duration (entry :: ms) le w
    = (Ok s, extend w (Main.video_post self entry prompt duration :: rest)).
Proof.
  cbn [Main.video_pass]. unfold bind at 1.
  destruct (video_attempt_events service self prompt duration entry le w)
    as (s & evs & -> & Hevs).
  assert (Hrest : exists rest,
             evs = Main.video_post self entry prompt duration :: rest)
    by (destruct Hevs as [-> | [-> | [u ->]]]; eauto).
  destruct Hrest as (rest & ->).
  destruct s as [b | le'].
  - eexists _, _. reflexivity.
  - destruct (video_pass_events service self prompt duration ms le'
                (extend w (Main.video_post self entry prompt duration
                           :: rest)))
      as (s' & evs' & -> & _).
    rewrite extend_extend. cbn [app]. eexists _, _. reflexivity.
Qed.

Lemma main_generate_video_starts service self prompt duration w :
  exists o rest,
    Main.generate_video service self prompt duration w
    = (o, extend w (Main.video_post self ("sora-2-pro-text-to-video", true)
                                    prompt duration :: rest)).
Proof.
  unfold Main.generate_video, Main.video_models_to_try, bind.
  destruct (main_video_pass_starts service self prompt duration
              ("sora-2-pro-text-to-video", true)
              [("veo3.1-full-text-to-video", true);
               ("kling-2.6-pro-text-to-video", true);
               ("wan-2.6-text-to-video", true);
               ("ltx-2-full-text-to-video", true)] None w)
    as (s & rest & ->).
  destruct s as [b | le'].
  - eexists _, _. reflexivity.
  - match goal with
    | |- context [Main.generate_image ?s ?c ?p ?m ?w0] =>
        destruct (main_generate_image_in_order s c p m w0)
          as (o & evs'' & -> & _)
    end.
    rewrite extend_extend. cbn [app]. eexists _, _. reflexivity.
Qed.

Lemma sections_image_pass_starts service self prompt m ms w :
  exists r rest,
    Sections.image_pass service self prompt (m :: ms) w
    = (Ok r, extend w (Sections.image_post self m prompt :: rest)).
Proof.
  cbn [Sections.image_pass]. unfold bind at 1.
  destruct (sections_image_attempt_events service self prompt m w)
    as (r & evs & -> & Hevs).
  assert (Hrest : exists rest,
             evs = Sections.image_post self m prompt :: rest)
    by (destruct Hevs as [-> | ->]; eauto).
  destruct Hrest as (rest & ->).
  destruct r as [b|].
  - eexists _, _. reflexivity.
  - destruct (sections_image_pass_events service self prompt ms
                (extend w (Sections.image_post self m prompt :: rest)))
      as (r & evs' & -> & _).
    rewrite extend_extend. cbn [app]. eexists _, _. reflexivity.
Qed.

Lemma sections_video_attempt_starts service self prompt duration model w :
  exists r rest,
    Sections.video_attempt service self prompt duration model w
    = (Ok r, extend w (Sections.video_post self model prompt duration
                       :: rest)).
Proof.
  unfold Sections.video_attempt.
  run.
  all: try match goal with
    | |- context [Sections.scan_keys ?s ?d ?k
                    (mkWorld (trace ?w ++ ?l) (files ?w))] =>
        change (mkWorld (trace w ++ l) (files w)) with (extend w l);
        destruct (scan_keys_events s d k (extend w l))
          as (o & evs & -> & Hevs);
        rewrite extend_extend;
        destruct o as [[b|]|e];
        eexists _, _; reflexivity
    end.
  all: eexists _, _; tidy_world; reflexivity.
Qed.

Lemma sections_video_pass_starts service self prompt duration m ms w :
  exists r rest,
    Sections.video_pass service self prompt duration (m :: ms) w
    = (Ok r, extend w (Sections.video_post self m prompt duration :: rest)).
Proof.
  cbn [Sections.video_pass]. unfold bind at 1.
  destruct (sections_video_attempt_starts service self prompt duration m w)
    as (r & rest & ->).
  destruct r as [b|].
  - eexists _, _. reflexivity.
  - destruct (sections_video_pass_events service self prompt duration ms
                (extend w (Sections.video_post self m prompt duration
                           :: rest)))
      as (r & evs' & -> & _).
    rewrite extend_extend. cbn [app]. eexists _, _. reflexivity.
Qed.



Lemma sections_generate_image_walk service self prompt w :
  exists o evs,
    Sections.generate_image service self prompt w = (o, extend w evs) /\
    in_order Sections.image_models (posted_models evs) /\
    (exists rest,
        evs = Sections.image_post self "nano-banana-pro" prompt :: rest) /\
    (forall e, o = Raise e ->
       stutter Sections.image_models (posted_models evs)).
Proof.
  unfold Sections.generate_image, bind.
  destruct (sections_image_pass_events service self prompt
              Sections.image_models w) as (r & evs & Hpass & Hord & Hall).
  destruct (sections_image_pass_starts service self prompt
              "nano-banana-pro" (List.tl Sections.image_models) w)
    as (r' & rest & Hstart).
  assert (Hevs : evs = Sections.image_post self "nano-banana-pro" prompt
                       :: rest).
  { assert (Heq : (Ok r, extend w evs)
                  = (Ok r', extend w (Sections.image_post self
                                        "nano-banana-pro" prompt :: rest)))
      by (rewrite <- Hpass; exact Hstart).
    injection Heq as _ Heq. now apply app_inv_head in Heq. }
  rewrite Hpass.
  destruct r as [b|]; eexists _, evs; (split; [reflexivity|]);
    (split; [exact Hord|]); (split; [eauto|]).
  - discriminate.
  - intros e _. rewrite (Hall eq_refl). apply stutter_of_exact.
Qed.

Lemma sections_generate_video_walk service self prompt duration w :
  exists o evs,
    Sections.generate_video service self prompt duration w
    = (o, extend w evs) /\
    in_order (Sections.video_models ++ Sections.image_models)
             (posted_models evs) /\
    (exists rest,
        evs = Sections.video_post self "sora-2-pro-text-to-video" prompt
                                  duration :: rest) /\
    (forall e, o = Raise e ->
       stutter (Sections.video_models ++ Sections.image_models)
               (posted_models evs)).
Proof.
  unfold Sections.generate_video, bind.
  destruct (sections_video_pass_events service self prompt duration
              Sections.video_models w) as (r & evs & Hpass & Hord & Hall).
  destruct (sections_video_pass_starts service self prompt duration
              "sora-2-pro-text-to-video" (List.tl Sections.video_models) w)
    as (r' & rest & Hstart).
  assert (Hevs : evs = Sections.video_post self "sora-2-pro-text-to-video"
                         prompt duration :: rest).
  { assert (Heq : (Ok r, extend w evs)
                  = (Ok r', extend w (Sections.video_post self
                                        "sora-2-pro-text-to-video" prompt
                                        duration :: rest)))
      by (rewrite <- Hpass; exact Hstart).
    injection Heq as _ Heq. now apply app_inv_head in Heq. }
  rewrite Hpass. destruct r as [b|].
  - exists (Ok b), evs. split; [reflexivity|].
    split; [now apply in_order_app_stop|].
    split; [eauto|discriminate].
  - destruct (sections_generate_image_walk service self prompt
                (extend w evs)) as (o & evs' & -> & Hord' & _ & Hall').
    exists o, (evs ++ evs'). rewrite extend_extend, posted_models_app.
    split; [reflexivity|].
    assert (Hexact : stutter Sections.video_models (posted_models evs))
      by (rewrite (Hall eq_refl); apply stutter_of_exact).
    split; [now apply in_order_app|].
    split; [rewrite Hevs; cbn [app]; eauto|].
    intros e He. apply stutter_app; [exact Hexact|now apply (Hall' e)].
Qed.



(** Claim C9.  In the main client's image path the trial list is
    the five fixed identifiers followed by the caller's [model], which is
    so the sixth and last entry.  With the default argument the list
    starts and ends with [nano-banana-pro], and a call that fails has
    gone through every position of the list, so it has contacted
    [nano-banana-pro] at the first and at the last position: at least
    twice, and exactly the six list entries when no model is rate
    limited. *)
Theorem C9_model_parameter_tried_last :
  (forall model,
      Main.image_models_to_try model
      = ["nano-banana-pro"; "hidream"; "venice-sd35"; "qwen-image";
         "z-image-turbo"] ++ [model]
      /\ List.length (Main.image_models_to_try model) = 6
      /\ nth_error (Main.image_models_to_try model) 5 = Some model
      /\ List.last (Main.image_models_to_try model) EmptyString = model)
  /\
  (hd_error (Main.image_models_to_try Main.default_model)
   = Some "nano-banana-pro"
   /\ List.last (Main.image_models_to_try Main.default_model) EmptyString
      = "nano-banana-pro")
  /\
  (forall service self prompt w e w',
      Main.generate_image service self prompt Main.default_model w
      = (Raise e, w') ->
      exists evs,
        w' = extend w evs /\
        stutter (Main.image_models_to_try Main.default_model)
                (posted_models evs) /\
        2 <= count_occ String.string_dec (posted_models evs)
                       "nano-banana-pro").
Proof.
  split; [|split].
  - intros model. repeat split.
  - split; reflexivity.
  - intros service self prompt w e w' H.
    destruct (main_generate_image_in_order service self prompt
                Main.default_model w) as (o & evs & H' & _ & Hall).
    rewrite H in H'. injection H' as <- ->.
    exists evs. split; [reflexivity|].
    pose proof (Hall e eq_refl) as Hst. split; [exact Hst|].
    apply (stutter_count "nano-banana-pro") in Hst. exact Hst.
Qed.

(** Every model unknown: the call fails after six requests, the first and
    the last of them to [nano-banana-pro]. *)
Lemma C9_witness :
  posted_models
    (trace (snd (Main.generate_image (Mock.always 404) (Main.init "k") "P"
                                     Main.default_model Mock.w0)))
  = ["nano-banana-pro"; "hidream"; "venice-sd35"; "qwen-image";
     "z-image-turbo"; "nano-banana-pro"]
  /\
  exists evs,
    snd (Main.generate_image (Mock.always 404) (Main.init "k") "P"
                             Main.default_model Mock.w0)
    = extend Mock.w0 evs /\
    stutter (Main.image_models_to_try Main.default_model)
            (posted_models evs) /\
    2 <= count_occ String.string_dec (posted_models evs) "nano-banana-pro".
Proof.
  split; [reflexivity|].
  destruct C9_model_parameter_tried_last as (_ & _ & H).
  eapply (H (Mock.always 404) (Main.init "k") "P" Mock.w0).
  reflexivity.
Defined.

(** A pass in which every answer is of the kind of C10. *)
Lemma video_pass_not_a_string service self prompt duration :
  (forall h hd p t, exists r kvs v,
      service h (Post Main.video_endpoint hd p t) = Response r /\
      http_ok r = true /\
      json_body r = Some (JObj kvs) /\
      assoc "video" kvs = Some v /\
      isinstance_str v = false) ->
  forall models last_error w,
    Main.video_pass service self prompt duration models last_error w
    = (Ok (Main.Continue last_error),
       extend w (map (fun entry => Main.video_post self entry prompt duration)
                     models)).
Proof.
  intros Hsvc models.
  induction models as [|entry models IH]; intros last_error w.
  - cbn. now rewrite extend_nil.
  - cbn [Main.video_pass map]. unfold bind.
    destruct (Hsvc (trace w) (Main.headers self)
                (Main.video_payload (fst entry) prompt (snd entry) duration)
                (Some 180%Z))
      as (r & kvs & v & H1 & H2 & H3 & H4 & H5).
    rewrite (video_attempt_not_a_string service self prompt duration entry
               last_error w r kvs v H1 H2 H3 H4 H5).
    rewrite IH, extend_extend. reflexivity.
Qed.

(** Claim C10.  In the main client's video path, a response that
    passes [raise_for_status] and whose body has the key [video] bound to
    a value that is not a string ends the iteration with neither a
    [return] nor an exception: the only event is the request, the loop
    goes on, and [last_error] is what it was.  When every video model
    answers so, the pass ends with [last_error] still unset and the call
    is the image fallback, run after the five video requests. *)
Theorem C10_non_string_video_is_skipped_silently :
  forall (service : service_t) (self : Main.VeniceAPIClient)
         (prompt : string) (duration : Z),
    (forall entry last_error w r kvs v,
        service (trace w)
                (Post Main.video_endpoint (Main.headers self)
                      (Main.video_payload (fst entry) prompt (snd entry)
                                          duration) (Some 180%Z))
        = Response r ->
        http_ok r = true ->
        json_body r = Some (JObj kvs) ->
        assoc "video" kvs = Some v ->
        isinstance_str v = false ->
        Main.video_attempt service self prompt duration entry last_error w
        = (Ok (Main.Continue last_error),
           extend w [Main.video_post self entry prompt duration]))
    /\
    ((forall h hd p t, exists r kvs v,
         service h (Post Main.video_endpoint hd p t) = Response r /\
         http_ok r = true /\
         json_body r = Some (JObj kvs) /\
         assoc "video" kvs = Some v /\
         isinstance_str v = false) ->
     forall w,
       let w5 :=
         extend w (map (fun entry => Main.video_post self entry prompt duration)
                       Main.video_models_to_try) in
       Main.video_pass service self prompt duration
                       Main.video_models_to_try None w
       = (Ok (Main.Continue None), w5)
       /\
       Main.generate_video service self prompt duration w
       = Main.generate_image service self prompt Main.default_model w5).
Proof.
  intros service self prompt duration. split.
  - intros. eapply video_attempt_not_a_string; eassumption.
  - intros Hsvc w w5.
    pose proof (video_pass_not_a_string service self prompt duration Hsvc
                  Main.video_models_to_try None w) as Hpass.
    split; [exact Hpass|].
    unfold Main.generate_video, bind. rewrite Hpass. reflexivity.
Qed.

(** Every video model answers with [{"video": {"status": "queued"}}]. *)
Lemma C10_witness :
  Main.video_pass (Mock.video_not_a_string 500) (Main.init "k") "P" 5
                  Main.video_models_to_try None Mock.w0
  = (Ok (Main.Continue None),
     extend Mock.w0
       (map (fun entry => Main.video_post (Main.init "k") entry "P" 5)
            Main.video_models_to_try))
  /\
  Main.generate_video (Mock.video_not_a_string 500) (Main.init "k") "P" 5
                      Mock.w0
  = Main.generate_image (Mock.video_not_a_string 500) (Main.init "k") "P"
      Main.default_model
      (extend Mock.w0
         (map (fun entry => Main.video_post (Main.init "k") entry "P" 5)
              Main.video_models_to_try)).
Proof.
  destruct (C10_non_string_video_is_skipped_silently
              (Mock.video_not_a_string 500) (Main.init "k") "P" 5)
    as (_ & H).
  apply H. intros h hd p t.
  exists (mkResponse 200
            (Some (JObj [("video", JObj [("status", JStr "queued")])])) []),
         [("video", JObj [("status", JStr "queued")])],
         (JObj [("status", JStr "queued")]).
  repeat split.
Defined.




(** Claim C6, as amended.  When a response that passes [raise_for_status] carries
    the base64 text of [B] at the head of its [images] array, the image
    path returns [B], byte for byte, for every [B].  When it carries that
    text in its [video] field and the text does not start with [http],
    the video path returns [B]; a text that starts with [http] is taken
    for a URL.  Both hold in the main and in the sections client, at any
    position of the list. *)
Theorem C6_inline_base64_is_decoded :
  forall (service : service_t) (prompt : string) (B : bytes)
         (r : response) (kvs : list (string * json)),
    http_ok r = true ->
    json_body r = Some (JObj kvs) ->
    (forall rest,
        assoc "images" kvs = Some (JList (JStr (b64encode B) :: rest)) ->
        (forall self model pre m post le w w1,
            Main.image_models_to_try model = pre ++ m :: post ->
            Main.image_pass service self prompt pre None w
            = (Ok (Main.Continue le), w1) ->
            service (trace w1)
                    (Post Main.image_endpoint (Main.headers self)
                          (Main.image_payload m prompt) (Some 60%Z))
            = Response r ->
            Main.generate_image service self prompt model w
            = (Ok B, extend w1 [Main.image_post self m prompt]))
        /\
        (forall self pre m post w w1,
            Sections.image_models = pre ++ m :: post ->
            Sections.image_pass service self prompt pre w = (Ok None, w1) ->
            service (trace w1)
                    (Post (String.append VENICE_API_BASE "/image/generate")
                          (Sections.headers self)
                          (Sections.image_payload m prompt) (Some 60%Z))
            = Response r ->
            Sections.generate_image service self prompt w
            = (Ok B, extend w1 [Sections.image_post self m prompt])))
    /\
    (assoc "video" kvs = Some (JStr (b64encode B)) ->
     startswith (b64encode B) "http" = false ->
     (forall self duration pre entry post le w w1,
         Main.video_models_to_try = pre ++ entry :: post ->
         Main.video_pass service self prompt duration pre None w
         = (Ok (Main.Continue le), w1) ->
         service (trace w1)
                 (Post Main.video_endpoint (Main.headers self)
                       (Main.video_payload (fst entry) prompt (snd entry)
                                           duration) (Some 180%Z))
         = Response r ->
         Main.generate_video service self prompt duration w
         = (Ok B, extend w1 [Main.video_post self entry prompt duration]))
     /\
     (forall self duration pre m post w w1,
         Sections.video_models = pre ++ m :: post ->
         Sections.video_pass service self prompt duration pre w
         = (Ok None, w1) ->
         service (trace w1)
                 (Post (String.append VENICE_API_BASE "/video/generate")
                       (Sections.headers self)
                       (Sections.video_payload m prompt duration)
                       (Some 180%Z))
         = Response r ->
         Sections.generate_video service self prompt duration w
         = (Ok B, extend w1 [Sections.video_post self m prompt duration]))).
Proof.
  intros service prompt B r kvs Hok Hjson.
  pose proof (b64decode_b64encode B) as Hdec.
  split.
  - intros rest Himg. split.
    + intros. eapply generate_image_success; eassumption.
    + intros. eapply sections_generate_image_success; eassumption.
  - intros Hv Hhttp. split.
    + intros self duration pre entry post le w w1 Hlist Hpre Hsvc.
      unfold Main.generate_video. rewrite Hlist. unfold bind.
      rewrite video_pass_app, Hpre. cbn [Main.video_pass]. unfold bind.
      rewrite (video_attempt_inline service self prompt duration entry le w1
                 r kvs _ B Hsvc Hok Hjson Hv Hhttp Hdec).
      reflexivity.
    + intros self duration pre m post w w1 Hlist Hpre Hsvc.
      unfold Sections.generate_video. rewrite Hlist. unfold bind.
      rewrite sections_video_pass_app, Hpre.
      cbn [Sections.video_pass]. unfold bind.
      rewrite (sections_video_attempt_inline service self prompt duration m
                 w1 r kvs _ B Hsvc Hok Hjson Hv Hhttp Hdec).
      reflexivity.
Qed.

(** An image and a video of two bytes, answered by the first model. *)
Lemma C6_witness :
  Main.generate_image (Mock.image_inline [x41; x42]) (Main.init "k")
                      "P" "m" Mock.w0
  = (Ok [x41; x42],
     extend Mock.w0 [Main.image_post (Main.init "k") "nano-banana-pro" "P"])
  /\
  Main.generate_video (Mock.video_inline [x41; x42]) (Main.init "k")
                      "P" 5 Mock.w0
  = (Ok [x41; x42],
     extend Mock.w0
       [Main.video_post (Main.init "k") ("sora-2-pro-text-to-video", true) "P" 5]).
Proof.
  split.
  - destruct (C6_inline_base64_is_decoded
                (Mock.image_inline [x41; x42]) "P" [x41; x42]
                (mkResponse 200
                   (Some (JObj [("images",
                                 JList [JStr (b64encode [x41; x42])])])) [])
                [("images", JList [JStr (b64encode [x41; x42])])]
                eq_refl eq_refl) as [H _].
    destruct (H [] eq_refl) as [HM _].
    apply (HM (Main.init "k") "m" [] "nano-banana-pro"
              ["hidream"; "venice-sd35"; "qwen-image"; "z-image-turbo"; "m"]
              None Mock.w0 Mock.w0); reflexivity.
  - destruct (C6_inline_base64_is_decoded
                (Mock.video_inline [x41; x42]) "P" [x41; x42]
                (mkResponse 200
                   (Some (JObj [("video", JStr (b64encode [x41; x42]))])) [])
                [("video", JStr (b64encode [x41; x42]))]
                eq_refl eq_refl) as [_ H].
    destruct (H eq_refl eq_refl) as [HM _].
    apply (HM (Main.init "k") 5%Z [] ("sora-2-pro-text-to-video", true)
              (List.tl Main.video_models_to_try) None Mock.w0 Mock.w0);
      reflexivity.
Defined.

(** The three bytes 86 DB 69 encode to the text [http]: the service
    answers with them inline in [video], the client asks for the URL
    [http] instead of decoding, and the call does not return them. *)
Lemma C6_counterexample :
  b64encode [x86; xdb; x69] = "http"
  /\
  Mock.video_inline [x86; xdb; x69] []
    (Post Main.video_endpoint (Main.headers (Main.init "k"))
          (Main.video_payload "sora-2-pro-text-to-video" "P" true 5)
          (Some 180%Z))
  = Response (mkResponse 200
                (Some (JObj [("video", JStr (b64encode [x86; xdb; x69]))]))
                [])
  /\
  fst (Main.generate_video (Mock.video_inline [x86; xdb; x69])
                           (Main.init "k") "P" 5 Mock.w0)
  <> Ok [x86; xdb; x69]
  /\
  filter is_get
    (trace (snd (Main.generate_video (Mock.video_inline [x86; xdb; x69])
                                     (Main.init "k") "P" 5 Mock.w0)))
  = repeat (EvRequest (Get (JStr "http"))) 5.
Proof.
  repeat split; try reflexivity.
  vm_compute. discriminate.
Qed.

(** A pass in which every video model answers with an error status
    other than 429. *)
Lemma video_pass_all_errors service self prompt duration :
  (forall h hd p t, exists r,
      service h (Post Main.video_endpoint hd p t) = Response r /\
      http_ok r = false /\ status_code r <> 429%Z) ->
  forall models last_error w, exists le,
    Main.video_pass service self prompt duration models last_error w
    = (Ok (Main.Continue le),
       extend w (map (fun entry => Main.video_post self entry prompt duration)
                     models)).
Proof.
  intros Hsvc models.
  induction models as [|entry models IH]; intros last_error w.
  - exists last_error. cbn. now rewrite extend_nil.
  - cbn [Main.video_pass map]. unfold bind.
    destruct (Hsvc (trace w) (Main.headers self)
                (Main.video_payload (fst entry) prompt (snd entry) duration)
                (Some 180%Z)) as (r & H1 & H2 & H3).
    rewrite (video_attempt_http_error service self prompt duration entry
               last_error w r H1 H2 H3).
    destruct (IH (Some (HTTPError r))
                 (extend w [Main.video_post self entry prompt duration]))
      as (le & ->).
    exists le. rewrite extend_extend. reflexivity.
Qed.

(** Claim C1, as amended.  In the main client and in the sections client, when
    the loop over the video models ends without a [return], the call is
    one call of [generate_image] with the same prompt (and the default
    model), started in the world the loop left: its result, exception
    included, is the result of the call, and the loop itself has sent
    nothing to the image endpoint.  A call of the main client raises only
    in this way.  In particular, when every video model of the main client
    answers 404, the call is the image call made after the five video
    requests.  In the client of [generate_graeber_video_full.py] the
    fallback is taken only when the video request fails with status 404;
    any other error status is raised to the caller after the one video
    request, and no image request is made. *)
Theorem C1_video_falls_back_to_image :
  forall (service : service_t) (prompt : string),
    (forall self duration w le w1,
        Main.video_pass service self prompt duration
                        Main.video_models_to_try None w
        = (Ok (Main.Continue le), w1) ->
        Main.generate_video service self prompt duration w
        = Main.generate_image service self prompt Main.default_model w1
        /\ exists evs,
             w1 = extend w evs /\
             filter (is_post_to Main.image_endpoint) evs = [])
    /\
    (forall self duration w e w',
        Main.generate_video service self prompt duration w = (Raise e, w') ->
        exists le w1,
          Main.video_pass service self prompt duration
                          Main.video_models_to_try None w
          = (Ok (Main.Continue le), w1) /\
          Main.generate_image service self prompt Main.default_model w1
          = (Raise e, w'))
    /\
    (forall self duration w,
        (forall h hd p t, exists r,
            service h (Post Main.video_endpoint hd p t) = Response r /\
            status_code r = 404%Z) ->
        Main.generate_video service self prompt duration w
        = Main.generate_image service self prompt Main.default_model
            (extend w (map (fun entry =>
                              Main.video_post self entry prompt duration)
                           Main.video_models_to_try)))
    /\
    (forall self duration w w1,
        Sections.video_pass service self prompt duration
                            Sections.video_models w = (Ok None, w1) ->
        Sections.generate_video service self prompt duration w
        = Sections.generate_image service self prompt w1)
    /\
    (forall self model w r,
        service (trace w)
                (Post Full.video_endpoint (Main.headers self)
                      (Full.video_payload model prompt) (Some 120%Z))
        = Response r ->
        http_ok r = false ->
        (status_code r = 404%Z ->
         Full.generate_video service self prompt model w
         = (let* b := Full.generate_image service self prompt
                        Full.default_image_model in
            ret (Some b)) (extend w [Full.video_post self model prompt]))
        /\
        (status_code r <> 404%Z ->
         Full.generate_video service self prompt model w
         = (Raise (HTTPError r),
            extend w [Full.video_post self model prompt]))).
Proof.
  intros service prompt. repeat apply conj.
  - intros self duration w le w1 Hpass. split.
    + unfold Main.generate_video, bind. now rewrite Hpass.
    + destruct (video_pass_events service self prompt duration
                  Main.video_models_to_try None w)
        as (s & evs & H & _ & _ & Hno).
      rewrite Hpass in H. injection H as _ ->. eauto.
  - intros self duration w e w' H.
    unfold Main.generate_video, bind in H.
    destruct (video_pass_events service self prompt duration
                Main.video_models_to_try None w)
      as (s & evs & Hpass & _).
    rewrite Hpass in H |- *.
    destruct s as [b | le]; [discriminate|]. eauto.
  - intros self duration w Hsvc.
    destruct (video_pass_all_errors service self prompt duration)
      with (models := Main.video_models_to_try) (last_error := @None exn)
           (w := w) as (le & Hpass).
    { intros h hd p t. destruct (Hsvc h hd p t) as (r & H1 & H2).
      exists r. repeat split; [exact H1| |rewrite H2; discriminate].
      apply (status_not_ok r _ H2 eq_refl). }
    unfold Main.generate_video, bind. now rewrite Hpass.
  - intros self duration w w1 Hpass.
    unfold Sections.generate_video, bind. now rewrite Hpass.
  - intros self model w r Hsvc Hst. split.
    + intros H404. now apply (full_generate_video_not_found _ _ _ _ _ r).
    + intros Hne. now apply full_generate_video_other_error.
Qed.

(** All five video models unknown, then the image models unknown too;
    and the full client with the video model unknown. *)
Lemma C1_witness :
  Main.generate_video (Mock.always 404) (Main.init "k") "P" 5 Mock.w0
  = Main.generate_image (Mock.always 404) (Main.init "k") "P"
      Main.default_model
      (extend Mock.w0
         (map (fun entry => Main.video_post (Main.init "k") entry "P" 5)
              Main.video_models_to_try))
  /\
  Full.generate_video (Mock.always 404) (Main.init "k") "P"
                      Full.default_video_model Mock.w0
  = (let* b := Full.generate_image (Mock.always 404) (Main.init "k") "P"
                 Full.default_image_model in
     ret (Some b))
      (extend Mock.w0
         [Full.video_post (Main.init "k") Full.default_video_model "P"]).
Proof.
  destruct (C1_video_falls_back_to_image (Mock.always 404) "P")
    as (_ & _ & HM & _ & HF).
  split.
  - apply HM. intros h hd p t.
    exists (mkResponse 404 None []). split; reflexivity.
  - apply (HF (Main.init "k") Full.default_video_model Mock.w0
              (mkResponse 404 None [])); reflexivity.
Defined.

(** The full client, video model answering 500: the call raises that
    error after its single request; the image path is never tried. *)
Lemma C1_counterexample :
  Full.generate_video (Mock.always 500) (Main.init "k") "P"
                      Full.default_video_model Mock.w0
  = (Raise (HTTPError (mkResponse 500 None [])),
     extend Mock.w0
       [Full.video_post (Main.init "k") Full.default_video_model "P"])
  /\
  filter (is_post_to Full.image_endpoint)
    (trace (snd (Full.generate_video (Mock.always 500) (Main.init "k") "P"
                                     Full.default_video_model Mock.w0)))
  = [].
Proof. split; reflexivity. Qed.

(** Brings what the run found out about an answer to bear on what
    [carried_image] says of it. *)
Ltac settle_carried Hc :=
  unfold extend, Main.image_post, Sections.image_post in *;
  cbn [trace files] in *;
  rewrite <- ?app_assoc in *; cbn [app] in *;
  unfold carried_image in Hc;
  repeat match goal with
         | H : _ = Response _ |- _ => rewrite H in Hc
         | H : _ = NetFail _ |- _ => rewrite H in Hc
         | H : http_ok _ = _ |- _ => rewrite H in Hc
         | H : json_body _ = _ |- _ => rewrite H in Hc
         | H : has_images _ = _ |- _ => rewrite H in Hc
         | H : decode_first_image _ = _ |- _ => rewrite H in Hc
         end;
  try discriminate; try (injection Hc as <-); try reflexivity.

(** What a retry after a rate limit leads to is decided by the second
    answer alone. *)
Lemma image_attempt_rate_limited_outcome service self prompt m last_error
      w r :
  service (trace w)
          (Post Main.image_endpoint (Main.headers self)
                (Main.image_payload m prompt) (Some 60%Z))
  = Response r ->
  status_code r = 429%Z ->
  (forall b,
      carried_image
        (service (trace w ++ [Main.image_post self m prompt; EvSleep 15])
                 (Post Main.image_endpoint (Main.headers self)
                       (Main.image_payload m prompt) (Some 60%Z)))
      = Some b ->
      Main.image_attempt service self prompt m last_error w
      = (Ok (Main.Return b),
         extend w [Main.image_post self m prompt; EvSleep 15;
                   Main.image_post self m prompt]))
  /\
  (carried_image
     (service (trace w ++ [Main.image_post self m prompt; EvSleep 15])
              (Post Main.image_endpoint (Main.headers self)
                    (Main.image_payload m prompt) (Some 60%Z)))
   = None ->
   Main.image_attempt service self prompt m last_error w
   = (Ok (Main.Continue (Some (HTTPError r))),
      extend w [Main.image_post self m prompt; EvSleep 15;
                Main.image_post self m prompt])).
Proof.
  intros Hsvc H429.
  pose proof (status_not_ok r _ H429 eq_refl) as Hst.
  split; [intros b Hc | intros Hc];
    unfold Main.image_attempt, Main.image_try, Main.image_retry,
      Main.image_request;
    run; rewrite ?H429 in *; try discriminate;
    settle_carried Hc.
Qed.

(** Claim C2, as amended.  On the main client's image path, a 429 answer to the
    request for a model is followed by a pause of 15 seconds and by one
    more request, the same one, after which the iteration ends, and how
    it ends is decided by the second answer alone: when that answer
    carries an image the iteration returns its bytes, and in every other
    case (an error status, a second 429, a failed connection, a body
    without an image) the loop goes on to the next list entry with the
    first 429 as [last_error].  Every list position is so contacted once
    or twice in a pass (an identifier that is listed twice, up to four
    times), and a pass that ends without a [return] has contacted every
    position.  On the main client's video path a 429 answer is followed by
    the pause of 15 seconds only: the model is not contacted again and
    the loop goes on to the next entry. *)
Theorem C2_rate_limit_pause_and_retry :
  forall (service : service_t) (self : Main.VeniceAPIClient)
         (prompt : string),
    (forall m last_error w r,
        service (trace w)
                (Post Main.image_endpoint (Main.headers self)
                      (Main.image_payload m prompt) (Some 60%Z))
        = Response r ->
        status_code r = 429%Z ->
        (forall b,
            carried_image
              (service (trace w ++ [Main.image_post self m prompt;
                                    EvSleep 15])
                       (Post Main.image_endpoint (Main.headers self)
                             (Main.image_payload m prompt) (Some 60%Z)))
            = Some b ->
            Main.image_attempt service self prompt m last_error w
            = (Ok (Main.Return b),
               extend w [Main.image_post self m prompt; EvSleep 15;
                         Main.image_post self m prompt]))
        /\
        (carried_image
           (service (trace w ++ [Main.image_post self m prompt;
                                 EvSleep 15])
                    (Post Main.image_endpoint (Main.headers self)
                          (Main.image_payload m prompt) (Some 60%Z)))
         = None ->
         Main.image_attempt service self prompt m last_error w
         = (Ok (Main.Continue (Some (HTTPError r))),
            extend w [Main.image_post self m prompt; EvSleep 15;
                      Main.image_post self m prompt])))
    /\
    (forall models last_error w, exists s evs,
        Main.image_pass service self prompt models last_error w
        = (Ok s, extend w evs) /\
        in_order models (posted_models evs) /\
        (forall le, s = Main.Continue le ->
           stutter models (posted_models evs)))
    /\
    (forall duration entry last_error w r,
        service (trace w)
                (Post Main.video_endpoint (Main.headers self)
                      (Main.video_payload (fst entry) prompt (snd entry)
                                          duration) (Some 180%Z))
        = Response r ->
        status_code r = 429%Z ->
        Main.video_attempt service self prompt duration entry last_error w
        = (Ok (Main.Continue (Some (HTTPError r))),
           extend w [Main.video_post self entry prompt duration; EvSleep 15])).
Proof.
  intros service self prompt. repeat apply conj.
  - intros. now apply image_attempt_rate_limited_outcome.
  - intros models last_error w.
    destruct (image_pass_events service self prompt models last_error w)
      as (s & evs & H & Hord & Hall). eauto.
  - intros. now apply video_attempt_rate_limited.
Qed.

(** A service that is rate limited until the client has paused: the first
    image model is asked, the client pauses, asks the same model again
    and returns its image.  A service that is always rate limited: the
    second 429 ends the iteration with the first one as [last_error].
    And a rate-limited video model is left after the pause. *)
Lemma C2_witness :
  Main.image_attempt (Mock.rate_limited_until_pause [x41])
                     (Main.init "k") "P" "nano-banana-pro" None Mock.w0
  = (Ok (Main.Return [x41]),
     extend Mock.w0
       [Main.image_post (Main.init "k") "nano-banana-pro" "P"; EvSleep 15;
        Main.image_post (Main.init "k") "nano-banana-pro" "P"])
  /\
  Main.image_attempt (Mock.always 429)
                     (Main.init "k") "P" "nano-banana-pro" None Mock.w0
  = (Ok (Main.Continue (Some (HTTPError (mkResponse 429 None [])))),
     extend Mock.w0
       [Main.image_post (Main.init "k") "nano-banana-pro" "P"; EvSleep 15;
        Main.image_post (Main.init "k") "nano-banana-pro" "P"])
  /\
  Main.video_attempt (Mock.first_video_rate_limited [x41]) (Main.init "k")
                     "P" 5 ("sora-2-pro-text-to-video", true) None Mock.w0
  = (Ok (Main.Continue (Some (HTTPError (mkResponse 429 None [])))),
     extend Mock.w0
       [Main.video_post (Main.init "k") ("sora-2-pro-text-to-video", true) "P" 5;
        EvSleep 15]).
Proof.
  repeat apply conj.
  - destruct (C2_rate_limit_pause_and_retry
                (Mock.rate_limited_until_pause [x41]) (Main.init "k") "P")
      as (H & _).
    destruct (H "nano-banana-pro" None Mock.w0 (mkResponse 429 None [])
                eq_refl eq_refl) as [Hsome _].
    apply Hsome. reflexivity.
  - destruct (C2_rate_limit_pause_and_retry
                (Mock.always 429) (Main.init "k") "P")
      as (H & _).
    destruct (H "nano-banana-pro" None Mock.w0 (mkResponse 429 None [])
                eq_refl eq_refl) as [_ Hnone].
    apply Hnone. reflexivity.
  - destruct (C2_rate_limit_pause_and_retry
                (Mock.first_video_rate_limited [x41]) (Main.init "k") "P")
      as (_ & _ & H).
    apply (H 5%Z ("sora-2-pro-text-to-video", true)); reflexivity.
Defined.

(** The first video model is rate limited: after the pause the next
    request goes to the second model, and the first has been contacted
    once.  And when every image model is rate limited, the default
    identifier is contacted four times in the pass. *)
Lemma C2_counterexample :
  trace (snd (Main.generate_video (Mock.first_video_rate_limited [x41])
                                  (Main.init "k") "P" 5 Mock.w0))
  = [Main.video_post (Main.init "k") ("sora-2-pro-text-to-video", true) "P" 5;
     EvSleep 15;
     Main.video_post (Main.init "k") ("veo3.1-full-text-to-video", true) "P" 5]
  /\
  count_occ String.string_dec
    (posted_models
       (trace (snd (Main.generate_video (Mock.first_video_rate_limited [x41])
                                        (Main.init "k") "P" 5 Mock.w0))))
    "sora-2-pro-text-to-video" = 1
  /\
  count_occ String.string_dec
    (posted_models
       (trace (snd (Main.generate_image (Mock.always 429) (Main.init "k")
                                        "P" Main.default_model Mock.w0))))
    "nano-banana-pro" = 4.
Proof. repeat split; vm_compute; reflexivity. Qed.

(** The exceptions of the pure expressions are the built-in ones. *)
Lemma a2b_loop_raises s : forall st e,
  a2b_loop s st = Raise e -> is_generic e = false.
Proof.
  induction s as [|c s IH]; intros st e; cbn [a2b_loop].
  - repeat match goal with
           | |- context [if ?b then _ else _] => destruct b
           end; intros [= <-]; reflexivity.
  - repeat match goal with
           | |- context [if ?b then _ else _] => destruct b
           end; try apply IH; discriminate.
Qed.

Lemma b64decode_raises x e :
  b64decode x = Raise e -> is_generic e = false.
Proof.
  destruct x; cbn; try (intros [= <-]; reflexivity).
  destruct (forallb is_ascii _); [apply a2b_loop_raises|].
  intros [= <-]; reflexivity.
Qed.

Lemma has_nonempty_raises k data e :
  has_nonempty k data = Raise e -> is_generic e = false.
Proof.
  unfold has_nonempty.
  destruct data as [| | |s|l|kvs]; cbn;
    try (intros [= <-]; reflexivity).
  - destruct (is_substring k s); cbn; intros [= <-]; reflexivity.
  - destruct (existsb (is_JStr k) l); cbn; intros [= <-]; reflexivity.
  - destruct (assoc k kvs) as [[| | | | |]|]; cbn;
      intros [= <-]; reflexivity.
Qed.

Lemma decode_first_image_raises data e :
  decode_first_image data = Raise e -> is_generic e = false.
Proof.
  unfold decode_first_image, obind, getitem.
  destruct data; try (intros [= <-]; reflexivity).
  destruct (assoc "images" kvs) as [images|];
    [|intros [= <-]; reflexivity].
  destruct (getitem0 images) as [x|e'] eqn:H0.
  - apply b64decode_raises.
  - intros [= <-].
    destruct images as [| | |[|c s]|[|v l]|]; cbn in H0;
      try discriminate; injection H0 as <-; reflexivity.
Qed.

Lemma image_try_raises service self payload w e w' :
  Main.image_try service self payload w = (Raise e, w') ->
  e = PyException "No image data returned" \/ is_generic e = false.
Proof.
  unfold Main.image_try, Main.image_request, has_images.
  run; intros [= <- <-]; auto;
    right; eauto using has_nonempty_raises, decode_first_image_raises.
Qed.

(** An iteration that goes on has recorded the exception of its first
    request. *)
Lemma image_attempt_continue service self prompt m last_error w le w' :
  Main.image_attempt service self prompt m last_error w
  = (Ok (Main.Continue le), w') ->
  exists e w1,
    Main.image_try service self (Main.image_payload m prompt) w
    = (Raise e, w1) /\ le = Some e.
Proof.
  unfold Main.image_attempt, Main.image_retry, Main.image_request.
  unfold try_except at 1, bind at 1.
  destruct (Main.image_try service self (Main.image_payload m prompt) w)
    as [[b|e] w1]; [discriminate|].
  destruct e; run; intros [= <- <-]; eauto.
Qed.

Lemma main_generate_image_raises service self prompt model w e w' :
  Main.generate_image service self prompt model w = (Raise e, w') ->
  e <> PyException "All image models failed" /\
  exists le w5 w6,
    Main.image_pass service self prompt
      ["nano-banana-pro"; "hidream"; "venice-sd35"; "qwen-image";
       "z-image-turbo"] None w
    = (Ok (Main.Continue le), w5) /\
    Main.image_try service self (Main.image_payload model prompt) w5
    = (Raise e, w6).
Proof.
  unfold Main.generate_image, bind.
  change (Main.image_models_to_try model)
    with (["nano-banana-pro"; "hidream"; "venice-sd35"; "qwen-image";
           "z-image-turbo"] ++ [model]).
  rewrite image_pass_app.
  destruct (image_pass_events service self prompt
              ["nano-banana-pro"; "hidream"; "venice-sd35"; "qwen-image";
               "z-image-turbo"] None w) as (s & evs & -> & _).
  destruct s as [b | le]; [discriminate|].
  cbn [Main.image_pass]. unfold bind.
  destruct (image_attempt_events service self prompt model le (extend w evs))
    as (s & evs' & Hatt & _).
  rewrite Hatt.
  destruct s as [b | le']; [discriminate|].
  apply image_attempt_continue in Hatt as (e0 & w6 & Htry & ->).
  unfold ret, raise. intros [= <- <-].
  split; [|eauto].
  apply image_try_raises in Htry as [-> | Hgen]; [discriminate|].
  intros ->. discriminate.
Qed.

(** *** Total failure *)

(** When no answer carries an image, no iteration returns. *)
Lemma image_attempt_never service self prompt m last_error w :
  never_an_image service ->
  exists e w',
    Main.image_attempt service self prompt m last_error w
    = (Ok (Main.Continue (Some e)), w').
Proof.
  intros Hnever.
  pose proof (Hnever (trace w)
                (Post Main.image_endpoint (Main.headers self)
                      (Main.image_payload m prompt) (Some 60%Z))) as Hc1.
  pose proof (Hnever (trace w ++ [Main.image_post self m prompt; EvSleep 15])
                (Post Main.image_endpoint (Main.headers self)
                      (Main.image_payload m prompt) (Some 60%Z))) as Hc2.
  unfold Main.image_attempt, Main.image_try, Main.image_retry,
    Main.image_request.
  run.
  all: first [ solve [eexists _, _; reflexivity]
             | solve [exfalso; settle_carried Hc1]
             | solve [exfalso; settle_carried Hc2] ].
Qed.

Lemma image_pass_never service self prompt models :
  never_an_image service ->
  forall last_error w, exists le w',
    Main.image_pass service self prompt models last_error w
    = (Ok (Main.Continue le), w').
Proof.
  intros Hnever. induction models as [|m models IH]; intros last_error w.
  - eexists _, _. reflexivity.
  - cbn [Main.image_pass]. unfold bind.
    destruct (image_attempt_never service self prompt m last_error w Hnever)
      as (e & w1 & ->).
    apply IH.
Qed.

Lemma main_generate_image_never service self prompt model w :
  never_an_image service ->
  exists e w',
    Main.generate_image service self prompt model w = (Raise e, w').
Proof.
  intros Hnever. unfold Main.generate_image, bind.
  destruct (image_pass_never service self prompt
              (Main.image_models_to_try model) Hnever None w)
    as (le & w' & ->).
  destruct le as [e|]; eexists _, _; reflexivity.
Qed.

(** When no video request gets past [raise_for_status], the loop over
    the video models ends without a [return]. *)
Lemma video_attempt_never service self prompt duration entry last_error w :
  never_a_video service ->
  exists le w',
    Main.video_attempt service self prompt duration entry last_error w
    = (Ok (Main.Continue le), w').
Proof.
  intros Hnever. destruct entry as [model_id supports_duration].
  pose proof (Hnever (trace w) (Main.headers self)
                (Main.video_payload model_id prompt supports_duration
                                    duration) (Some 180%Z)) as Hc.
  unfold Main.video_attempt, Main.video_try.
  run.
  all: first [ solve [eexists _, _; reflexivity]
             | solve [exfalso;
                      repeat match goal with
                             | H : _ = Response _ |- _ => rewrite H in Hc
                             | H : _ = NetFail _ |- _ => rewrite H in Hc
                             end;
                      congruence] ].
Qed.

Lemma video_pass_never service self prompt duration models :
  never_a_video service ->
  forall last_error w, exists le w',
    Main.video_pass service self prompt duration models last_error w
    = (Ok (Main.Continue le), w').
Proof.
  intros Hnever. induction models as [|entry models IH]; intros last_error w.
  - eexists _, _. reflexivity.
  - cbn [Main.video_pass]. unfold bind.
    destruct (video_attempt_never service self prompt duration entry
                last_error w Hnever) as (le & w1 & ->).
    apply IH.
Qed.

Lemma sections_image_attempt_never service self prompt m w :
  never_an_image service ->
  exists w', Sections.image_attempt service self prompt m w = (Ok None, w').
Proof.
  intros Hnever.
  pose proof (Hnever (trace w)
                (Post (String.append VENICE_API_BASE "/image/generate")
                      (Sections.headers self)
                      (Sections.image_payload m prompt) (Some 60%Z))) as Hc.
  unfold Sections.image_attempt.
  run.
  all: first [ solve [eexists; reflexivity]
             | solve [exfalso; settle_carried Hc] ].
Qed.

Lemma sections_generate_image_never service self prompt w :
  never_an_image service ->
  exists w',
    Sections.generate_image service self prompt w
    = (Raise (PyException "All image models failed"), w').
Proof.
  intros Hnever. unfold Sections.generate_image, bind.
  assert (Hpass : forall models w0, exists w',
             Sections.image_pass service self prompt models w0
             = (Ok None, w')).
  { induction models as [|m models IH]; intros w0.
    - eexists. reflexivity.
    - cbn [Sections.image_pass]. unfold bind.
      destruct (sections_image_attempt_never service self prompt m w0 Hnever)
        as (w1 & ->).
      apply IH. }
  destruct (Hpass Sections.image_models w) as (w' & ->).
  eexists. reflexivity.
Qed.

(** Claim C4, as amended.  Total failure reaches the caller as an exception:
    when no request is answered with an image, [generate_image] of the
    main client raises, [generate_video] of the main client raises when
    its video requests get no answer past [raise_for_status] either, and
    [generate_image] of the sections client raises.  What the main client
    raises, when a call of [generate_image] fails, directly or as the
    fallback of [generate_video], is the exception of the first request
    for the last list entry, the caller's [model]: an exception of the
    trials, never the generic ["All image models failed"].  (What a retry
    after a rate limit raises is not recorded.)  The sections client
    keeps no record of the errors: when its image path fails it raises
    the generic exception ["All image models failed"]. *)
Theorem C4_error_surfaced_on_total_failure :
  forall (service : service_t) (prompt : string),
    (never_an_image service ->
     (forall self model w, exists e w',
         Main.generate_image service self prompt model w = (Raise e, w'))
     /\
     (forall self duration w,
         never_a_video service ->
         exists e w',
           Main.generate_video service self prompt duration w
           = (Raise e, w'))
     /\
     (forall self w, exists w',
         Sections.generate_image service self prompt w
         = (Raise (PyException "All image models failed"), w')))
    /\
    (forall self model w e w',
        Main.generate_image service self prompt model w = (Raise e, w') ->
        e <> PyException "All image models failed" /\
        exists le w5 w6,
          Main.image_pass service self prompt
            ["nano-banana-pro"; "hidream"; "venice-sd35"; "qwen-image";
             "z-image-turbo"] None w
          = (Ok (Main.Continue le), w5) /\
          Main.image_try service self (Main.image_payload model prompt) w5
          = (Raise e, w6))
    /\
    (forall self duration w e w',
        Main.generate_video service self prompt duration w = (Raise e, w') ->
        e <> PyException "All image models failed" /\
        exists le0 w1 le w5 w6,
          Main.video_pass service self prompt duration
                          Main.video_models_to_try None w
          = (Ok (Main.Continue le0), w1) /\
          Main.image_pass service self prompt
            ["nano-banana-pro"; "hidream"; "venice-sd35"; "qwen-image";
             "z-image-turbo"] None w1
          = (Ok (Main.Continue le), w5) /\
          Main.image_try service self
            (Main.image_payload Main.default_model prompt) w5
          = (Raise e, w6))
    /\
    (forall self w e w',
        Sections.generate_image service self prompt w = (Raise e, w') ->
        e = PyException "All image models failed").
Proof.
  intros service prompt. repeat apply conj.
  - intros Hnever. repeat apply conj.
    + intros. now apply main_generate_image_never.
    + intros self duration w Hvideo.
      unfold Main.generate_video, bind.
      destruct (video_pass_never service self prompt duration
                  Main.video_models_to_try Hvideo None w)
        as (le & w1 & ->).
      now apply main_generate_image_never.
    + intros. now apply sections_generate_image_never.
  - intros self model w e w' H.
    exact (main_generate_image_raises _ _ _ _ _ _ _ H).
  - intros self duration w e w' H.
    unfold Main.generate_video, bind in H.
    destruct (video_pass_events service self prompt duration
                Main.video_models_to_try None w) as (s & evs & Hpass & _).
    rewrite Hpass in H. destruct s as [b | le0]; [discriminate|].
    apply main_generate_image_raises in H as (Hne & le & w5 & w6 & H5 & Htry).
    split; [exact Hne|]. eexists _, _, _, _, _. eauto.
  - intros. eapply sections_generate_image_error; eassumption.
Qed.

(** Every model unknown: the three calls raise, the main client the 404
    of its last entry and the sections client the generic exception. *)
Lemma C4_witness :
  (exists e w',
      Main.generate_image (Mock.always 404) (Main.init "k") "P" "m" Mock.w0
      = (Raise e, w'))
  /\
  (exists e w',
      Main.generate_video (Mock.always 404) (Main.init "k") "P" 5 Mock.w0
      = (Raise e, w'))
  /\
  (exists w',
      Sections.generate_image (Mock.always 404) (Sections.init "k") "P"
                              Mock.w0
      = (Raise (PyException "All image models failed"), w'))
  /\
  (HTTPError (mkResponse 404 None [])
   <> PyException "All image models failed" /\
   exists le w5 w6,
     Main.image_pass (Mock.always 404) (Main.init "k") "P"
       ["nano-banana-pro"; "hidream"; "venice-sd35"; "qwen-image";
        "z-image-turbo"] None Mock.w0
     = (Ok (Main.Continue le), w5) /\
     Main.image_try (Mock.always 404) (Main.init "k")
                    (Main.image_payload "m" "P") w5
     = (Raise (HTTPError (mkResponse 404 None [])), w6))
  /\
  PyException "All image models failed"
  = PyException "All image models failed".
Proof.
  destruct (C4_error_surfaced_on_total_failure (Mock.always 404) "P")
    as (Hraise & HM & _ & HS).
  assert (Hnever : never_an_image (Mock.always 404)).
  { intros history [url hd body t | u];
      unfold Mock.always, Mock.stateless;
      [destruct (Mock.is_video_post _)|]; reflexivity. }
  assert (Hvideo : never_a_video (Mock.always 404))
    by (intros history hd payload t; reflexivity).
  destruct (Hraise Hnever) as (H1 & H2 & H3).
  split; [apply H1|].
  split; [apply H2; exact Hvideo|].
  split; [apply H3|].
  split.
  - apply (HM (Main.init "k") "m" Mock.w0 _
              (snd (Main.generate_image (Mock.always 404) (Main.init "k")
                                        "P" "m" Mock.w0))).
    reflexivity.
  - apply (HS (Sections.init "k") Mock.w0 _
              (snd (Sections.generate_image (Mock.always 404)
                                            (Sections.init "k") "P"
                                            Mock.w0))).
    reflexivity.
Defined.

(** The sections client, every model answering 404: the four trials end
    in an [HTTPError], and the call raises the generic exception. *)
Lemma C4_counterexample :
  (forall m,
      Sections.image_attempt (Mock.always 404) (Sections.init "k") "P" m
                             Mock.w0
      = (Ok None,
         extend Mock.w0 [Sections.image_post (Sections.init "k") m "P"])
      /\ Mock.always 404 [] (Post (String.append VENICE_API_BASE
                                               "/image/generate")
                                (Sections.headers (Sections.init "k"))
                                (Sections.image_payload m "P") (Some 60%Z))
         = Mock.status 404)
  /\
  fst (Sections.generate_image (Mock.always 404) (Sections.init "k") "P"
                               Mock.w0)
  = Raise (PyException "All image models failed")
  /\
  fst (Sections.generate_image (Mock.always 404) (Sections.init "k") "P"
                               Mock.w0)
  <> Raise (HTTPError (mkResponse 404 None [])).
Proof.
  repeat split; try reflexivity. vm_compute. discriminate.
Qed.

(** Claim C5, where the code departs from it.  Every call of
    [generate_image] of the client in [generate_graeber_video_full.py]
    issues one request, with width 1920 and height 1080, above the
    1280x720 that the other scripts name as the limit of the service. *)
Theorem C5_full_client_requests_1920x1080 :
  forall (service : service_t) (self : Main.VeniceAPIClient)
         (prompt model : string) (w : world),
  exists o req,
    Full.generate_image service self prompt model w
    = (o, extend w [EvRequest req]) /\
    request_dimension "width" req = Some 1920%Z /\
    request_dimension "height" req = Some 1080%Z /\
    (1280 < 1920)%Z /\ (720 < 1080)%Z.
Proof.
  intros service self prompt model w.
  destruct (full_generate_image_events service self prompt model w)
    as (o & H).
  exists o. eexists. split; [exact H|].
  repeat split.
Qed.

(** The requests of the other image paths stay at 1280x720. *)
Lemma image_payload_dimensions url hd m prompt t :
  let within r :=
    request_dimension "width" r = Some 1280%Z /\
    request_dimension "height" r = Some 720%Z in
  within (Post url hd (Main.image_payload m prompt) t) /\
  within (Post url hd (Sections.image_payload m prompt) t) /\
  within (Post url hd (Single.payload m prompt) t).
Proof. repeat split. Qed.



End Claims.

(** ** Further properties of the clients *)

Section ClientEdges.
Import Py Base64 Net Expr Obs Watch.

(** The pure expressions raise Python's own exceptions only. *)
Lemma a2b_loop_builtin s : forall st e,
  a2b_loop s st = Raise e -> builtin e = true.
Proof.
  induction s as [|c s IH]; intros st e; cbn [a2b_loop].
  - repeat match goal with
           | |- context [if ?b then _ else _] => destruct b
           end; intros [= <-]; reflexivity.
  - repeat match goal with
           | |- context [if ?b then _ else _] => destruct b
           end; try apply IH; discriminate.
Qed.

Lemma b64decode_builtin x e : b64decode x = Raise e -> builtin e = true.
Proof.
  destruct x; cbn; try (intros [= <-]; reflexivity).
  destruct (forallb is_ascii _); [apply a2b_loop_builtin|].
  intros [= <-]; reflexivity.
Qed.

Lemma has_nonempty_builtin k data e :
  has_nonempty k data = Raise e -> builtin e = true.
Proof.
  unfold has_nonempty.
  destruct data as [| | |s|l|kvs]; cbn;
    try (intros [= <-]; reflexivity).
  - destruct (is_substring k s); cbn; intros [= <-]; reflexivity.
  - destruct (existsb (is_JStr k) l); cbn; intros [= <-]; reflexivity.
  - destruct (assoc k kvs) as [[| | | | |]|]; cbn;
      intros [= <-]; reflexivity.
Qed.

Lemma decode_first_image_builtin data e :
  decode_first_image data = Raise e -> builtin e = true.
Proof.
  unfold decode_first_image, obind, getitem.
  destruct data; try (intros [= <-]; reflexivity).
  destruct (assoc "images" kvs) as [images|];
    [|intros [= <-]; reflexivity].
  destruct (getitem0 images) as [x|e'] eqn:H0.
  - apply b64decode_builtin.
  - intros [= <-].
    destruct images as [| | |[|c s]|[|v l]|]; cbn in H0;
      try discriminate; injection H0 as <-; reflexivity.
Qed.

(** Closes the cases in which a pure expression is supposed to have
    raised an [HTTPError]. *)
Ltac no_http_error :=
  match goal with
  | H : has_images _ = Raise (HTTPError _) |- _ =>
      apply has_nonempty_builtin in H; discriminate
  | H : Main.has_videos _ = Raise (HTTPError _) |- _ =>
      apply has_nonempty_builtin in H; discriminate
  | H : decode_first_image _ = Raise (HTTPError _) |- _ =>
      apply decode_first_image_builtin in H; discriminate
  | H : b64decode _ = Raise (HTTPError _) |- _ =>
      apply b64decode_builtin in H; discriminate
  | H : _ = Raise (HTTPError _) |- _ =>
      solve [repeat match type of H with
                    | context [match ?x with _ => _ end] => destruct x
                    end; discriminate]
  end.

(** Property X1.
    On the main image path, an error status other than 429 and a failure
    of the connection end the iteration at once: one request, no pause, no
    second request, and the exception is what [last_error] holds when the
    loop goes on. *)
Theorem main_image_failure_advances_at_once :
  forall (service : service_t) (self : Main.VeniceAPIClient)
         (prompt m : string) (last_error : option exn) (w : world),
    (forall r,
        service (trace w)
                (Post Main.image_endpoint (Main.headers self)
                      (Main.image_payload m prompt) (Some 60%Z))
        = Response r ->
        http_ok r = false ->
        status_code r <> 429%Z ->
        Main.image_attempt service self prompt m last_error w
        = (Ok (Main.Continue (Some (HTTPError r))),
           extend w [Main.image_post self m prompt]))
    /\
    (forall msg,
        service (trace w)
                (Post Main.image_endpoint (Main.headers self)
                      (Main.image_payload m prompt) (Some 60%Z))
        = NetFail msg ->
        Main.image_attempt service self prompt m last_error w
        = (Ok (Main.Continue (Some (RequestException msg))),
           extend w [Main.image_post self m prompt])).
Proof.
  intros service self prompt m last_error w. split.
  - intros r Hsvc Hst Hne.
    unfold Main.image_attempt, Main.image_try, Main.image_request.
    run; try reflexivity.
    apply Z.eqb_eq in Hif0. contradiction.
  - intros msg Hsvc.
    unfold Main.image_attempt, Main.image_try, Main.image_request.
    unfold bind at 1 2 3 4, try_except, send. rewrite Hsvc. reflexivity.
Qed.

Lemma main_image_failure_advances_at_once_witness :
  Main.image_attempt (Mock.always 404) (Main.init "k") "P" "hidream" None
                     Mock.w0
  = (Ok (Main.Continue (Some (HTTPError (mkResponse 404 None [])))),
     extend Mock.w0 [Main.image_post (Main.init "k") "hidream" "P"])
  /\
  Main.image_attempt Mock2.unreachable (Main.init "k") "P" "hidream" None
                     Mock.w0
  = (Ok (Main.Continue (Some (RequestException "Connection refused"))),
     extend Mock.w0 [Main.image_post (Main.init "k") "hidream" "P"]).
Proof.
  split.
  - apply (proj1 (main_image_failure_advances_at_once
                    (Mock.always 404) (Main.init "k") "P" "hidream" None
                    Mock.w0));
      [reflexivity | reflexivity | discriminate].
  - apply (proj2 (main_image_failure_advances_at_once
                    Mock2.unreachable (Main.init "k") "P" "hidream" None
                    Mock.w0)).
    reflexivity.
Defined.

(** Property X2.
    On the main image path, an answer that passes [raise_for_status] but
    carries no image (no [images] key, or an empty list) is turned into
    the exception ["No image data returned"], and a body that is not JSON
    into a decoding error; either is recorded and the loop goes on after
    the one request. *)
Theorem main_image_empty_payload_is_an_error :
  forall (service : service_t) (self : Main.VeniceAPIClient)
         (prompt m : string) (last_error : option exn) (w : world)
         (r : response),
    service (trace w)
            (Post Main.image_endpoint (Main.headers self)
                  (Main.image_payload m prompt) (Some 60%Z))
    = Response r ->
    http_ok r = true ->
    (forall kvs,
        json_body r = Some (JObj kvs) ->
        assoc "images" kvs = None \/ assoc "images" kvs = Some (JList []) ->
        Main.image_attempt service self prompt m last_error w
        = (Ok (Main.Continue (Some (PyException "No image data returned"))),
           extend w [Main.image_post self m prompt]))
    /\
    (json_body r = None ->
     Main.image_attempt service self prompt m last_error w
     = (Ok (Main.Continue (Some JSONDecodeError)),
        extend w [Main.image_post self m prompt])).
Proof.
  intros service self prompt m last_error w r Hsvc Hok. split.
  - intros kvs Hjson Himg.
    assert (Hhas : has_images (JObj kvs) = Ok false).
    { unfold has_images, has_nonempty. cbn.
      destruct Himg as [-> | ->]; reflexivity. }
    unfold Main.image_attempt, Main.image_try, Main.image_request.
    run. reflexivity.
  - intros Hjson.
    unfold Main.image_attempt, Main.image_try, Main.image_request.
    run. reflexivity.
Qed.

Lemma main_image_empty_payload_is_an_error_witness :
  Main.image_attempt (Mock2.no_media (JObj [("images", JList [])]))
                     (Main.init "k") "P" "hidream" None Mock.w0
  = (Ok (Main.Continue (Some (PyException "No image data returned"))),
     extend Mock.w0 [Main.image_post (Main.init "k") "hidream" "P"]).
Proof.
  refine (proj1 (main_image_empty_payload_is_an_error
                   (Mock2.no_media (JObj [("images", JList [])]))
                   (Main.init "k") "P" "hidream" None Mock.w0
                   (mkResponse 200 (Some (JObj [("images", JList [])])) [])
                   eq_refl eq_refl)
                [("images", JList [])] eq_refl (or_intror eq_refl)).
Defined.

(** Without a 429 there is no pause: an iteration of the main client
    pauses only after a rate-limited answer. *)
Lemma image_attempt_without_pause service self prompt m last_error w :
  never_rate_limited service ->
  exists s,
    Main.image_attempt service self prompt m last_error w
    = (Ok s, extend w [Main.image_post self m prompt]).
Proof.
  intros Hnrl.
  unfold Main.image_attempt, Main.image_try, Main.image_retry,
    Main.image_request.
  run.
  all: try no_http_error.
  all: try match goal with
    | H : (status_code ?r =? 429)%Z = true,
      Hs : _ = Response ?r |- _ =>
        exfalso; apply Z.eqb_eq in H; exact (Hnrl _ _ _ Hs H)
    end.
  all: eexists; reflexivity.
Qed.

Lemma video_attempt_without_pause service self prompt duration entry
      last_error w :
  never_rate_limited service ->
  exists s evs,
    Main.video_attempt service self prompt duration entry last_error w
    = (Ok s, extend w evs) /\ List.filter is_sleep evs = [].
Proof.
  intros Hnrl. destruct entry as [model_id supports_duration].
  unfold Main.video_attempt, Main.video_try, Main.video_decode,
    fetch_or_decode.
  run.
  all: try no_http_error.
  all: try match goal with
    | H : (status_code ?r =? 429)%Z = true,
      Hs : _ = Response ?r |- _ =>
        exfalso; apply Z.eqb_eq in H; exact (Hnrl _ _ _ Hs H)
    end.
  all: eexists _, _; (split; [tidy_world; reflexivity|]); reflexivity.
Qed.

Lemma image_pass_without_pause service self prompt models :
  never_rate_limited service ->
  forall last_error w, exists s evs,
    Main.image_pass service self prompt models last_error w
    = (Ok s, extend w evs) /\ List.filter is_sleep evs = [].
Proof.
  intros Hnrl.
  induction models as [|m models IH]; intros last_error w.
  - exists (Main.Continue last_error), []. now rewrite extend_nil.
  - cbn [Main.image_pass]. unfold bind.
    destruct (image_attempt_without_pause service self prompt m last_error
                w Hnrl) as (s & ->).
    destruct s as [b | le].
    + eexists _, _. split; reflexivity.
    + destruct (IH le (extend w [Main.image_post self m prompt]))
        as (s & evs & -> & Hevs).
      eexists _, _. rewrite extend_extend. split; [reflexivity|].
      cbn. exact Hevs.
Qed.

Lemma video_pass_without_pause service self prompt duration models :
  never_rate_limited service ->
  forall last_error w, exists s evs,
    Main.video_pass service self prompt duration models last_error w
    = (Ok s, extend w evs) /\ List.filter is_sleep evs = [].
Proof.
  intros Hnrl.
  induction models as [|m models IH]; intros last_error w.
  - exists (Main.Continue last_error), []. now rewrite extend_nil.
  - cbn [Main.video_pass]. unfold bind.
    destruct (video_attempt_without_pause service self prompt duration m
                last_error w Hnrl) as (s & evs & -> & Hevs).
    destruct s as [b | le].
    + eexists _, _. split; [reflexivity|exact Hevs].
    + destruct (IH le (extend w evs)) as (s & evs' & -> & Hevs').
      eexists _, _. rewrite extend_extend. split; [reflexivity|].
      now rewrite List.filter_app, Hevs, Hevs'.
Qed.

(** Property X3.
    When the service never answers 429, a call of the main client makes
    no pause at all: neither [generate_image] nor [generate_video], the
    image fallback included, ever sleeps. *)
Theorem main_client_pauses_only_when_rate_limited :
  forall (service : service_t) (self : Main.VeniceAPIClient)
         (prompt : string) (w : world),
    never_rate_limited service ->
    (forall model, exists o evs,
        Main.generate_image service self prompt model w = (o, extend w evs) /\
        List.filter is_sleep evs = [])
    /\
    (forall duration, exists o evs,
        Main.generate_video service self prompt duration w
        = (o, extend w evs) /\
        List.filter is_sleep evs = []).
Proof.
  intros service self prompt w Hnrl.
  assert (Himg : forall model w, exists o evs,
             Main.generate_image service self prompt model w
             = (o, extend w evs) /\ List.filter is_sleep evs = []).
  { intros model w'. unfold Main.generate_image, bind.
    destruct (image_pass_without_pause service self prompt
                (Main.image_models_to_try model) Hnrl None w')
      as (s & evs & -> & Hevs).
    destruct s as [b | [e|]]; eexists _, evs; split; try reflexivity;
      exact Hevs. }
  split; [intros model; apply Himg|].
  intros duration. unfold Main.generate_video, bind.
  destruct (video_pass_without_pause service self prompt duration
              Main.video_models_to_try Hnrl None w)
    as (s & evs & -> & Hevs).
  destruct s as [b | le].
  - eexists _, evs. split; [reflexivity|exact Hevs].
  - destruct (Himg Main.default_model (extend w evs))
      as (o & evs' & -> & Hevs').
    eexists _, _. rewrite extend_extend. split; [reflexivity|].
    now rewrite List.filter_app, Hevs, Hevs'.
Qed.

Lemma main_client_pauses_only_when_rate_limited_witness :
  List.filter is_sleep
    (trace (snd (Main.generate_video (Mock.always 404) (Main.init "k") "P" 5
                                     Mock.w0))) = [].
Proof.
  destruct (main_client_pauses_only_when_rate_limited
              (Mock.always 404) (Main.init "k") "P" Mock.w0) as [_ H].
  - intros history req r Hr. unfold Mock.always, Mock.stateless in Hr.
    destruct req; [destruct (Mock.is_video_post _)|];
      injection Hr as <-; discriminate.
  - destruct (H 5%Z) as (o & evs & -> & Hevs). exact Hevs.
Defined.

(** The work of a call is bounded. *)
Lemma image_pass_bounded service self prompt models :
  forall last_error w, exists s evs,
    Main.image_pass service self prompt models last_error w
    = (Ok s, extend w evs) /\
    List.length (List.filter is_request evs) <= 2 * List.length models /\
    List.length (List.filter is_sleep evs) <= List.length models.
Proof.
  induction models as [|m models IH]; intros last_error w.
  - exists (Main.Continue last_error), []. rewrite extend_nil. cbn. auto.
  - cbn [Main.image_pass]. unfold bind.
    destruct (image_attempt_events service self prompt m last_error w)
      as (s & evs & -> & Hevs).
    destruct s as [b | le].
    + eexists _, evs. split; [reflexivity|].
      destruct Hevs as [-> | ->]; cbn; lia.
    + destruct (IH le (extend w evs)) as (s & evs' & -> & H1 & H2).
      eexists _, _. rewrite extend_extend. split; [reflexivity|].
      rewrite !List.filter_app, !List.length_app.
      destruct Hevs as [-> | ->]; cbn [List.filter is_request is_sleep
        Main.image_post List.length] in *; lia.
Qed.

Lemma video_pass_bounded service self prompt duration models :
  forall last_error w, exists s evs,
    Main.video_pass service self prompt duration models last_error w
    = (Ok s, extend w evs) /\
    List.length (List.filter is_request evs) <= 2 * List.length models /\
    List.length (List.filter is_sleep evs) <= List.length models.
Proof.
  induction models as [|m models IH]; intros last_error w.
  - exists (Main.Continue last_error), []. rewrite extend_nil. cbn. auto.
  - cbn [Main.video_pass]. unfold bind.
    destruct (video_attempt_events service self prompt duration m
                last_error w) as (s & evs & -> & Hevs).
    destruct s as [b | le].
    + eexists _, evs. split; [reflexivity|].
      destruct Hevs as [-> | [-> | [u ->]]]; cbn; lia.
    + destruct (IH le (extend w evs)) as (s & evs' & -> & H1 & H2).
      eexists _, _. rewrite extend_extend. split; [reflexivity|].
      rewrite !List.filter_app, !List.length_app.
      destruct Hevs as [-> | [-> | [u ->]]]; cbn [List.filter is_request is_sleep
        Main.video_post List.length] in *; lia.
Qed.

(** Property X4.
    Whatever the service does, a call of [generate_image] of the main
    client ends after at most 12 requests and 6 pauses, and a call of
    [generate_video] after at most 22 requests (five video requests, five
    fetches and the twelve of the fallback) and 11 pauses. *)
Theorem main_client_work_is_bounded :
  forall (service : service_t) (self : Main.VeniceAPIClient)
         (prompt : string) (w : world),
    (forall model, exists o evs,
        Main.generate_image service self prompt model w = (o, extend w evs) /\
        List.length (List.filter is_request evs) <= 12 /\
        List.length (List.filter is_sleep evs) <= 6)
    /\
    (forall duration, exists o evs,
        Main.generate_video service self prompt duration w
        = (o, extend w evs) /\
        List.length (List.filter is_request evs) <= 22 /\
        List.length (List.filter is_sleep evs) <= 11).
Proof.
  intros service self prompt w.
  assert (Himg : forall model w, exists o evs,
             Main.generate_image service self prompt model w
             = (o, extend w evs) /\
             List.length (List.filter is_request evs) <= 12 /\
             List.length (List.filter is_sleep evs) <= 6).
  { intros model w'. unfold Main.generate_image, bind.
    destruct (image_pass_bounded service self prompt
                (Main.image_models_to_try model) None w')
      as (s & evs & -> & H1 & H2).
    cbn [Main.image_models_to_try List.length] in H1, H2.
    destruct s as [b | [e|]]; eexists _, evs; split; try reflexivity; lia. }
  split; [intros model; apply Himg|].
  intros duration. unfold Main.generate_video, bind.
  destruct (video_pass_bounded service self prompt duration
              Main.video_models_to_try None w)
    as (s & evs & -> & H1 & H2).
  cbn [Main.video_models_to_try List.length] in H1, H2.
  destruct s as [b | le].
  - eexists _, evs. split; [reflexivity|lia].
  - destruct (Himg Main.default_model (extend w evs))
      as (o & evs' & -> & H3 & H4).
    eexists _, _. rewrite extend_extend. split; [reflexivity|].
    rewrite !List.filter_app, !List.length_app. lia.
Qed.

(** Property X5.
    On the main video path a string under [url] is fetched as it is:
    when the body has no [video] key and [url] holds a string, the client
    issues a GET for that string without looking at its prefix (a string
    under [video] is fetched only when it starts with [http]) and returns
    the content of the answer. *)
Theorem main_video_url_field_is_fetched_unchecked :
  forall (service : service_t) (self : Main.VeniceAPIClient)
         (prompt : string) (duration : Z) (entry : string * bool)
         (last_error : option exn) (w : world) (r g : response)
         (kvs : list (string * json)) (u : string),
    service (trace w)
            (Post Main.video_endpoint (Main.headers self)
                  (Main.video_payload (fst entry) prompt (snd entry)
                                      duration) (Some 180%Z))
    = Response r ->
    http_ok r = true ->
    json_body r = Some (JObj kvs) ->
    assoc "video" kvs = None ->
    assoc "url" kvs = Some (JStr u) ->
    service (trace w ++ [Main.video_post self entry prompt duration])
            (Get (JStr u))
    = Response g ->
    Main.video_attempt service self prompt duration entry last_error w
    = (Ok (Main.Return (content g)),
       extend w [Main.video_post self entry prompt duration;
                 EvRequest (Get (JStr u))]).
Proof.
  intros service self prompt duration [model_id supports_duration]
         last_error w r g kvs u Hsvc Hok Hjson Hv Hu Hget.
  cbn [fst snd] in *. unfold Main.video_post in Hget. cbn [fst snd] in Hget.
  change (trace w ++ ?l) with (trace (extend w l)) in Hget.
  unfold Main.video_attempt, Main.video_try, Main.video_decode.
  run. rewrite extend_extend. reflexivity.
Qed.

(** The URL is written with capital letters: it does not start with
    [http], and it is fetched. *)
Lemma main_video_url_field_is_fetched_unchecked_witness :
  Main.video_attempt
    (Mock2.url_only "HTTPS://cdn.example/clip.mp4" [x41]) (Main.init "k")
    "P" 5 ("sora-2-pro-text-to-video", true) None Mock.w0
  = (Ok (Main.Return [x41]),
     extend Mock.w0
       [Main.video_post (Main.init "k") ("sora-2-pro-text-to-video", true)
                        "P" 5;
        EvRequest (Get (JStr "HTTPS://cdn.example/clip.mp4"))]).
Proof.
  apply (main_video_url_field_is_fetched_unchecked
           (Mock2.url_only "HTTPS://cdn.example/clip.mp4" [x41])
           (Main.init "k") "P" 5
           ("sora-2-pro-text-to-video", true) None Mock.w0
           (mkResponse 200
              (Some (JObj [("url", JStr "HTTPS://cdn.example/clip.mp4")]))
              [])
           (mkResponse 200 None [x41])
           [("url", JStr "HTTPS://cdn.example/clip.mp4")]
           "HTTPS://cdn.example/clip.mp4"); reflexivity.
Defined.

Lemma not_rate_limited r :
  http_ok r = true -> (status_code r =? 429)%Z = false.
Proof.
  unfold http_ok. intros Hok. apply negb_true_iff in Hok.
  destruct (status_code r =? 429)%Z eqn:E; [|reflexivity].
  apply Z.eqb_eq in E. rewrite E in Hok. discriminate.
Qed.

(** Property X6.
    The sections client reads on past a field that is neither a string
    nor a list: with [video] bound to such a value and [url] to a string
    that starts with [http], it fetches the URL and returns the content.
    (The main client leaves the same answer without a result.) *)
Theorem sections_scan_goes_past_a_non_string_field :
  forall (service : service_t) (self : Sections.VeniceClient)
         (prompt : string) (duration : Z) (model : string) (w : world)
         (r g : response) (kvs : list (string * json)) (v : json)
         (u : string),
    service (trace w)
            (Post (String.append VENICE_API_BASE "/video/generate")
                  (Sections.headers self)
                  (Sections.video_payload model prompt duration)
                  (Some 180%Z))
    = Response r ->
    http_ok r = true ->
    json_body r = Some (JObj kvs) ->
    assoc "video" kvs = Some v ->
    isinstance_str v = false ->
    isinstance_list v = false ->
    assoc "url" kvs = Some (JStr u) ->
    startswith u "http" = true ->
    service (trace w ++ [Sections.video_post self model prompt duration])
            (Get (JStr u)) = Response g ->
    Sections.video_attempt service self prompt duration model w
    = (Ok (Some (content g)),
       extend w [Sections.video_post self model prompt duration;
                 EvRequest (Get (JStr u))]).
Proof.
  intros service self prompt duration model w r g kvs v u
         Hsvc Hok Hjson Hv Hstr Hlist Hu Hhttp Hget.
  pose proof (not_rate_limited r Hok) as H429.
  unfold Sections.video_post in Hget.
  change (trace w ++ ?l) with (trace (extend w l)) in Hget.
  unfold Sections.video_attempt. cbn [Sections.scan_keys].
  unfold fetch_or_decode.
  destruct v; try discriminate; run; rewrite extend_extend; reflexivity.
Qed.

Lemma sections_scan_goes_past_a_non_string_field_witness :
  Sections.video_attempt (Mock2.video_null_url_given "http://cdn/v.mp4" [x41])
                         (Sections.init "k") "P" 5
                         "sora-2-pro-text-to-video" Mock.w0
  = (Ok (Some [x41]),
     extend Mock.w0
       [Sections.video_post (Sections.init "k") "sora-2-pro-text-to-video"
                            "P" 5;
        EvRequest (Get (JStr "http://cdn/v.mp4"))]).
Proof.
  apply (sections_scan_goes_past_a_non_string_field
           (Mock2.video_null_url_given "http://cdn/v.mp4" [x41])
           (Sections.init "k") "P" 5 "sora-2-pro-text-to-video" Mock.w0
           (mkResponse 200
              (Some (JObj [("video", JNull);
                           ("url", JStr "http://cdn/v.mp4")])) [])
           (mkResponse 200 None [x41])
           [("video", JNull); ("url", JStr "http://cdn/v.mp4")]
           JNull "http://cdn/v.mp4"); reflexivity.
Defined.

(** Property X7.
    In the sections client an empty list under the first key that is
    present makes the subscript [video_data[0]] fail; the exception is
    absorbed, the remaining keys of the answer are not looked at, and the
    next model is tried after the one request. *)
Theorem sections_empty_list_drops_the_answer :
  forall (service : service_t) (self : Sections.VeniceClient)
         (prompt : string) (duration : Z) (model : string) (w : world)
         (r : response) (kvs : list (string * json)),
    service (trace w)
            (Post (String.append VENICE_API_BASE "/video/generate")
                  (Sections.headers self)
                  (Sections.video_payload model prompt duration)
                  (Some 180%Z))
    = Response r ->
    http_ok r = true ->
    json_body r = Some (JObj kvs) ->
    assoc "video" kvs = Some (JList []) ->
    Sections.video_attempt service self prompt duration model w
    = (Ok None, extend w [Sections.video_post self model prompt duration]).
Proof.
  intros service self prompt duration model w r kvs Hsvc Hok Hjson Hv.
  pose proof (not_rate_limited r Hok) as H429.
  unfold Sections.video_attempt. cbn [Sections.scan_keys].
  run. reflexivity.
Qed.

Lemma sections_empty_list_drops_the_answer_witness :
  Sections.video_attempt
    (Mock2.no_media (JObj [("video", JList []);
                           ("url", JStr "http://cdn/v.mp4")]))
    (Sections.init "k") "P" 5 "sora-2-pro-text-to-video" Mock.w0
  = (Ok None,
     extend Mock.w0
       [Sections.video_post (Sections.init "k") "sora-2-pro-text-to-video"
                            "P" 5]).
Proof.
  apply (sections_empty_list_drops_the_answer
           (Mock2.no_media (JObj [("video", JList []);
                                  ("url", JStr "http://cdn/v.mp4")]))
           (Sections.init "k") "P" 5 "sora-2-pro-text-to-video" Mock.w0
           (mkResponse 200
              (Some (JObj [("video", JList []);
                           ("url", JStr "http://cdn/v.mp4")])) [])
           [("video", JList []); ("url", JStr "http://cdn/v.mp4")]);
    reflexivity.
Defined.

(** Property X8.
    In the sections client a 429 answer, on the image path and on the
    video path alike, is followed by a pause of 15 seconds and by the
    next model: the rate-limited model is not asked again. *)
Theorem sections_rate_limit_pauses_and_moves_on :
  forall (service : service_t) (self : Sections.VeniceClient)
         (prompt : string) (model : string) (w : world) (r : response),
    status_code r = 429%Z ->
    (service (trace w)
             (Post (String.append VENICE_API_BASE "/image/generate")
                   (Sections.headers self)
                   (Sections.image_payload model prompt) (Some 60%Z))
     = Response r ->
     Sections.image_attempt service self prompt model w
     = (Ok None,
        extend w [Sections.image_post self model prompt; EvSleep 15]))
    /\
    (forall duration,
        service (trace w)
                (Post (String.append VENICE_API_BASE "/video/generate")
                      (Sections.headers self)
                      (Sections.video_payload model prompt duration)
                      (Some 180%Z))
        = Response r ->
        Sections.video_attempt service self prompt duration model w
        = (Ok None,
           extend w [Sections.video_post self model prompt duration;
                     EvSleep 15])).
Proof.
  intros service self prompt model w r H429.
  assert (Hif : (status_code r =? 429)%Z = true) by now apply Z.eqb_eq.
  split.
  - intros Hsvc. unfold Sections.image_attempt.
    run. tidy_world. reflexivity.
  - intros duration Hsvc. unfold Sections.video_attempt.
    run. tidy_world. reflexivity.
Qed.

Lemma sections_rate_limit_pauses_and_moves_on_witness :
  Sections.image_attempt (Mock.always 429) (Sections.init "k") "P"
                         "hidream" Mock.w0
  = (Ok None,
     extend Mock.w0
       [Sections.image_post (Sections.init "k") "hidream" "P"; EvSleep 15]).
Proof.
  apply (proj1 (sections_rate_limit_pauses_and_moves_on
                  (Mock.always 429) (Sections.init "k") "P" "hidream"
                  Mock.w0 (mkResponse 429 None []) eq_refl)).
  reflexivity.
Defined.

(** *** The single-image function *)




(** *** The client of [generate_graeber_video_full.py] *)

(** Property X11.
    In the full client, an answer that passes [raise_for_status] and has
    [video] bound to a value that is not a string makes [generate_video]
    return Python's [None]: no bytes, no exception, and no image
    fallback. *)
Theorem full_video_returns_none_on_a_non_string :
  forall (service : service_t) (self : Main.VeniceAPIClient)
         (prompt model : string) (w : world) (r : response)
         (kvs : list (string * json)) (v : json),
    service (trace w)
            (Post Full.video_endpoint (Main.headers self)
                  (Full.video_payload model prompt) (Some 120%Z))
    = Response r ->
    http_ok r = true ->
    json_body r = Some (JObj kvs) ->
    assoc "video" kvs = Some v ->
    isinstance_str v = false ->
    Full.generate_video service self prompt model w
    = (Ok None, extend w [Full.video_post self model prompt]).
Proof.
  intros service self prompt model w r kvs v Hsvc Hok Hjson Hv Hstr.
  unfold Full.generate_video, Full.video_try, fetch_or_decode.
  destruct v; try discriminate; run; reflexivity.
Qed.

Lemma full_video_returns_none_on_a_non_string_witness :
  Full.generate_video (Mock.video_not_a_string 500) (Main.init "k") "P"
                      Full.default_video_model Mock.w0
  = (Ok None,
     extend Mock.w0
       [Full.video_post (Main.init "k") Full.default_video_model "P"]).
Proof.
  apply (full_video_returns_none_on_a_non_string
           (Mock.video_not_a_string 500) (Main.init "k") "P"
           Full.default_video_model Mock.w0
           (mkResponse 200
              (Some (JObj [("video", JObj [("status", JStr "queued")])])) [])
           [("video", JObj [("status", JStr "queued")])]
           (JObj [("status", JStr "queued")])); reflexivity.
Defined.

(** Property X12.
    The full client has no list of models and no retry: after its single
    request, [generate_image] raises whatever went wrong to its caller:
    the [HTTPError] of an error status (a 429 included), the exception
    of a failed connection, and its own exception for an answer without
    an image.  A failed connection of the video request is raised by
    [generate_video] as well: only a 404 answer is turned into the image
    fallback. *)
Theorem full_client_raises_every_failure :
  forall (service : service_t) (self : Main.VeniceAPIClient)
         (prompt model : string) (w : world),
    (forall r,
        service (trace w)
                (Post Full.image_endpoint (Main.headers self)
                      (Full.image_payload model prompt) None)
        = Response r ->
        (http_ok r = false ->
         Full.generate_image service self prompt model w
         = (Raise (HTTPError r),
            extend w [Full.image_post self model prompt]))
        /\
        (forall kvs,
            http_ok r = true ->
            json_body r = Some (JObj kvs) ->
            assoc "images" kvs = None \/
            assoc "images" kvs = Some (JList []) ->
            Full.generate_image service self prompt model w
            = (Raise (PyException "No image data returned from Venice API"),
               extend w [Full.image_post self model prompt])))
    /\
    (forall msg,
        service (trace w)
                (Post Full.image_endpoint (Main.headers self)
                      (Full.image_payload model prompt) None)
        = NetFail msg ->
        Full.generate_image service self prompt model w
        = (Raise (RequestException msg),
           extend w [Full.image_post self model prompt]))
    /\
    (forall msg,
        service (trace w)
                (Post Full.video_endpoint (Main.headers self)
                      (Full.video_payload model prompt) (Some 120%Z))
        = NetFail msg ->
        Full.generate_video service self prompt model w
        = (Raise (RequestException msg),
           extend w [Full.video_post self model prompt])).
Proof.
  intros service self prompt model w. repeat apply conj.
  - intros r Hsvc. split.
    + intros Hst. unfold Full.generate_image. run. reflexivity.
    + intros kvs Hok Hjson Himg.
      assert (Hhas : has_images (JObj kvs) = Ok false).
      { unfold has_images, has_nonempty. cbn.
        destruct Himg as [-> | ->]; reflexivity. }
      unfold Full.generate_image. run. reflexivity.
  - intros msg Hsvc. unfold Full.generate_image.
    unfold bind at 1, send. rewrite Hsvc. reflexivity.
  - intros msg Hsvc. unfold Full.generate_video, Full.video_try.
    unfold try_except, bind at 1, send. rewrite Hsvc. reflexivity.
Qed.

Lemma full_client_raises_every_failure_witness :
  Full.generate_image (Mock.always 429) (Main.init "k") "P"
                      Full.default_image_model Mock.w0
  = (Raise (HTTPError (mkResponse 429 None [])),
     extend Mock.w0
       [Full.image_post (Main.init "k") Full.default_image_model "P"])
  /\
  Full.generate_video Mock2.unreachable (Main.init "k") "P"
                      Full.default_video_model Mock.w0
  = (Raise (RequestException "Connection refused"),
     extend Mock.w0
       [Full.video_post (Main.init "k") Full.default_video_model "P"]).
Proof.
  split.
  - destruct (full_client_raises_every_failure
                (Mock.always 429) (Main.init "k") "P"
                Full.default_image_model Mock.w0) as (H & _).
    apply (H (mkResponse 429 None [])); reflexivity.
  - destruct (full_client_raises_every_failure
                Mock2.unreachable (Main.init "k") "P"
                Full.default_video_model Mock.w0) as (_ & _ & H).
    apply H. reflexivity.
Defined.

End ClientEdges.

(** ** [parse_section_args] *)

Section ParserFacts.
Import Py Str Watch SectionsCli.

Lemma insert_sorted_In z x l : In z (insert_sorted x l) <-> z = x \/ In z l.
Proof.
  induction l as [|y l IH]; cbn.
  - intuition congruence.
  - destruct (x <? y)%Z eqn:E1; [cbn; intuition congruence|].
    destruct (x =? y)%Z eqn:E2.
    + apply Z.eqb_eq in E2. subst. cbn. intuition congruence.
    + cbn. rewrite IH. intuition congruence.
Qed.

Lemma insert_sorted_increasing x l :
  increasing l -> increasing (insert_sorted x l).
Proof.
  induction l as [|y l IH]; cbn; intros H.
  - split; constructor.
  - destruct H as [Hy Hl]. destruct (x <? y)%Z eqn:E1.
    + apply Z.ltb_lt in E1. cbn. split; [|split; assumption].
      constructor; [assumption|].
      eapply List.Forall_impl; [|exact Hy]. cbn. intros. lia.
    + destruct (x =? y)%Z eqn:E2; cbn; [split; assumption|].
      apply Z.ltb_ge in E1. apply Z.eqb_neq in E2.
      split; [|now apply IH].
      apply List.Forall_forall. intros z Hz.
      apply insert_sorted_In in Hz as [-> | Hz]; [lia|].
      rewrite List.Forall_forall in Hy. now apply Hy.
Qed.

Lemma sorted_set_In z l : In z (sorted_set l) <-> In z l.
Proof.
  induction l as [|x l IH]; cbn; [tauto|].
  rewrite insert_sorted_In, IH. intuition congruence.
Qed.

Lemma sorted_set_increasing l : increasing (sorted_set l).
Proof.
  induction l as [|x l IH]; cbn; [exact I|].
  now apply insert_sorted_increasing.
Qed.

(** An increasing list is determined by its elements. *)
Lemma increasing_unique l1 : forall l2,
  increasing l1 -> increasing l2 ->
  (forall z, In z l1 <-> In z l2) -> l1 = l2.
Proof.
  induction l1 as [|x l1 IH]; intros [|y l2] H1 H2 Hin.
  - reflexivity.
  - exfalso. apply (Hin y). now left.
  - exfalso. apply (Hin x). now left.
  - destruct H1 as [Hx H1], H2 as [Hy H2].
    rewrite List.Forall_forall in Hx, Hy.
    assert (x = y) as ->.
    { destruct (proj1 (Hin x) (or_introl eq_refl)) as [E | Hxl2];
        [now symmetry|].
      destruct (proj2 (Hin y) (or_introl eq_refl)) as [E | Hyl1];
        [assumption|].
      specialize (Hx _ Hyl1). specialize (Hy _ Hxl2). lia. }
    f_equal. apply IH; try assumption.
    intros z. split; intros Hz.
    + destruct (proj1 (Hin z) (or_intror Hz)) as [E | Hz2]; [|assumption].
      specialize (Hx _ Hz). lia.
    + destruct (proj2 (Hin z) (or_intror Hz)) as [E | Hz1]; [|assumption].
      specialize (Hy _ Hz). lia.
Qed.

Lemma range_In z start stop :
  In z (range start stop) <-> (start <= z < stop)%Z.
Proof.
  unfold range. rewrite in_map_iff. split.
  - intros (k & <- & Hk). apply in_seq in Hk. lia.
  - intros H. exists (Z.to_nat (z - start)). split; [lia|].
    apply in_seq. lia.
Qed.

(** *** What [int] accepts *)

Lemma digits_value_nonneg cs : forall acc u z,
  (0 <= acc)%Z -> digits_value cs acc u = Some z -> (0 <= z)%Z.
Proof.
  induction cs as [|c cs IH]; intros acc u z Hacc; cbn.
  - destruct u; [discriminate|]. intros [= <-]. exact Hacc.
  - destruct (is_digit c).
    + apply IH. unfold digit_value. lia.
    + destruct (Ascii.eqb c "_"); [|discriminate].
      destruct u; [discriminate|]. now apply IH.
Qed.

Lemma unsigned_value_nonneg cs z :
  unsigned_value cs = Some z -> (0 <= z)%Z.
Proof.
  unfold unsigned_value. destruct cs as [|c cs]; [discriminate|].
  destruct (is_digit c); [|discriminate].
  destruct (max_str_digits <? _)%Z; [discriminate|].
  apply digits_value_nonneg. lia.
Qed.

Lemma lstrip_incl c cs : In c (lstrip cs) -> In c cs.
Proof.
  induction cs as [|c' cs IH]; cbn; [tauto|].
  destruct (is_space c'); [intros H; right; now apply IH|].
  cbn. tauto.
Qed.

Lemma strip_incl c cs : In c (strip cs) -> In c cs.
Proof.
  unfold strip. intros H.
  apply in_rev in H. apply lstrip_incl in H. apply in_rev in H.
  now apply lstrip_incl in H.
Qed.

Lemma contains_char_false c s :
  contains_char c s = false -> ~ In c (list_ascii_of_string s).
Proof.
  induction s as [|c' s IH]; cbn; [tauto|].
  intros H. apply orb_false_iff in H as [Hc Hs].
  intros [-> | Hin]; [|now apply IH].
  now rewrite Ascii.eqb_refl in Hc.
Qed.

(** Without a minus sign in the text there is none in the number. *)
Lemma int_nonneg s z :
  contains_char "-" s = false -> int s = Ok z -> (0 <= z)%Z.
Proof.
  intros Hno. apply contains_char_false in Hno. unfold int.
  destruct (strip (list_ascii_of_string s)) as [|c cs] eqn:E;
    [discriminate|].
  assert (Hc : c <> "-"%char).
  { intros ->. apply Hno, strip_incl. rewrite E. now left. }
  apply Ascii.eqb_neq in Hc. rewrite Hc.
  destruct (Ascii.eqb c "+").
  - destruct (unsigned_value cs) eqn:Hv; [|discriminate].
    intros [= <-]. now apply unsigned_value_nonneg in Hv.
  - destruct (unsigned_value (c :: cs)) eqn:Hv; [|discriminate].
    intros [= <-]. now apply unsigned_value_nonneg in Hv.
Qed.

Lemma int_raises s e : int s = Raise e -> exists msg, e = ValueError msg.
Proof.
  unfold int.
  destruct (strip (list_ascii_of_string s)) as [|c cs];
    [intros [= <-]; eauto|].
  destruct (Ascii.eqb c "+"); [|destruct (Ascii.eqb c "-")];
    match goal with
    | |- context [unsigned_value ?l] => destruct (unsigned_value l)
    end; cbn; intros [= <-]; eauto.
Qed.

Lemma split_parts_without_separator sep s :
  Forall (fun part => contains_char sep part = false) (split sep s).
Proof.
  induction s as [|c s IH]; cbn.
  - constructor; [reflexivity|constructor].
  - destruct (Ascii.eqb c sep) eqn:E.
    + constructor; [reflexivity|exact IH].
    + destruct (split sep s) as [|part parts].
      * constructor; [|constructor]. cbn. now rewrite E.
      * inversion IH; subst. constructor; [|assumption].
        cbn. now rewrite E.
Qed.

Lemma unpack_range_nonneg parts start stop :
  Forall (fun part => contains_char "-" part = false) parts ->
  unpack_range parts = Ok (start, stop) ->
  (0 <= start)%Z /\ (0 <= stop)%Z.
Proof.
  intros Hparts. unfold unpack_range, obind.
  destruct parts as [|p1 [|p2 [|p3 rest]]]; try discriminate.
  - destruct (int p1); discriminate.
  - inversion Hparts as [|? ? H1 Hr]; subst.
    inversion Hr as [|? ? H2 _]; subst.
    destruct (int p1) as [a|] eqn:E1; [|discriminate].
    destruct (int p2) as [b|] eqn:E2; [|discriminate].
    intros [= <- <-].
    split; [apply (int_nonneg p1) | apply (int_nonneg p2)]; assumption.
  - destruct (int p1); [|discriminate].
    destruct (int p2); [|discriminate].
    destruct (int p3); discriminate.
Qed.

Lemma unpack_range_raises parts e :
  unpack_range parts = Raise e -> exists msg, e = ValueError msg.
Proof.
  unfold unpack_range, obind.
  destruct parts as [|p1 [|p2 [|p3 rest]]].
  - intros [= <-]; eauto.
  - destruct (int p1) eqn:E; [intros [= <-]; eauto|].
    intros [= <-]. eapply int_raises, E.
  - destruct (int p1) eqn:E1; [|intros [= <-]; eapply int_raises, E1].
    destruct (int p2) eqn:E2; [discriminate|].
    intros [= <-]. eapply int_raises, E2.
  - destruct (int p1) eqn:E1; [|intros [= <-]; eapply int_raises, E1].
    destruct (int p2) eqn:E2; [|intros [= <-]; eapply int_raises, E2].
    destruct (int p3) eqn:E3; [intros [= <-]; eauto|].
    intros [= <-]. eapply int_raises, E3.
Qed.

(** *** The loop *)

Lemma parse_loop_In args : forall indices l,
  parse_loop args indices = Ok l ->
  forall z,
    In z l <-> In z indices \/ exists arg, In arg args /\ denotes arg z.
Proof.
  induction args as [|arg args IH]; intros indices l; cbn [parse_loop].
  - intros [= <-] z. split; [auto|]. intros [H | (arg & [] & _)]. exact H.
  - unfold obind.
    destruct (contains_char "-" arg) eqn:Hminus.
    + destruct (unpack_range (split "-" arg)) as [[start stop]|] eqn:Hu;
        [|discriminate].
      intros Hloop z. rewrite (IH _ _ Hloop z), in_app_iff, range_In.
      cbn [fst snd]. split.
      * intros [[H | H] | (a & Ha & Hd)].
        -- now left.
        -- right. exists arg. split; [now left|].
           unfold denotes. rewrite Hminus. exists start, stop.
           split; [exact Hu|lia].
        -- right. exists a. split; [now right|exact Hd].
      * intros [H | (a & [<- | Ha] & Hd)].
        -- now left; left.
        -- unfold denotes in Hd. rewrite Hminus in Hd.
           destruct Hd as (start' & stop' & Hu' & Hz).
           rewrite Hu in Hu'. injection Hu' as <- <-. left. right. lia.
        -- right. exists a. split; assumption.
    + destruct (int arg) as [n|] eqn:Hint; [|discriminate].
      intros Hloop z. rewrite (IH _ _ Hloop z), in_app_iff. cbn [In].
      split.
      * intros [[H | [<- | []]] | (a & Ha & Hd)].
        -- now left.
        -- right. exists arg. split; [now left|].
           unfold denotes. now rewrite Hminus.
        -- right. exists a. split; [now right|exact Hd].
      * intros [H | (a & [<- | Ha] & Hd)].
        -- now left; left.
        -- unfold denotes in Hd. rewrite Hminus, Hint in Hd.
           injection Hd as <-. left. right. now left.
        -- right. exists a. split; assumption.
Qed.

Lemma parse_loop_nonneg args : forall indices l,
  Forall (fun z => (0 <= z)%Z) indices ->
  parse_loop args indices = Ok l ->
  Forall (fun z => (0 <= z)%Z) l.
Proof.
  induction args as [|arg args IH]; intros indices l Hind;
    cbn [parse_loop].
  - now intros [= <-].
  - unfold obind.
    destruct (contains_char "-" arg) eqn:Hminus.
    + destruct (unpack_range (split "-" arg)) as [[start stop]|] eqn:Hu;
        [|discriminate].
      apply IH. apply List.Forall_app. split; [exact Hind|].
      apply unpack_range_nonneg in Hu as [Hs _];
        [|apply split_parts_without_separator].
      apply List.Forall_forall. intros z Hz.
      apply range_In in Hz. cbn [fst] in Hz. lia.
    + destruct (int arg) as [n|] eqn:Hint; [|discriminate].
      apply IH. apply List.Forall_app. split; [exact Hind|].
      constructor; [|constructor]. now apply (int_nonneg arg).
Qed.

Lemma parse_loop_leading_minus args arg rest :
  In arg args -> arg = String "-" rest ->
  forall indices, exists msg,
    parse_loop args indices = Raise (ValueError msg).
Proof.
  intros Hin ->.
  induction args as [|a args IH]; [destruct Hin|]. intros indices.
  cbn [parse_loop]. unfold obind.
  destruct Hin as [-> | Hin].
  - cbn. eauto.
  - destruct (contains_char "-" a).
    + destruct (unpack_range (split "-" a)) as [bounds|e] eqn:Hu;
        [now apply IH|].
      apply unpack_range_raises in Hu as [msg ->]. eauto.
    + destruct (int a) as [n|e] eqn:Hint; [now apply IH|].
      apply int_raises in Hint as [msg ->]. eauto.
Qed.

Lemma parse_section_args_increasing args l :
  parse_section_args args = Ok l -> increasing l.
Proof.
  unfold parse_section_args, obind.
  destruct (parse_loop args []) as [indices|]; [|discriminate].
  intros [= <-]. apply sorted_set_increasing.
Qed.

Lemma parse_section_args_In args l :
  parse_section_args args = Ok l ->
  forall z, In z l <-> exists arg, In arg args /\ denotes arg z.
Proof.
  unfold parse_section_args, obind.
  destruct (parse_loop args []) as [indices|] eqn:Hloop; [|discriminate].
  intros [= <-] z.
  rewrite sorted_set_In, (parse_loop_In _ _ _ Hloop z). cbn. tauto.
Qed.

Lemma parse_section_args_nonneg args l :
  parse_section_args args = Ok l -> Forall (fun z => (0 <= z)%Z) l.
Proof.
  unfold parse_section_args, obind.
  destruct (parse_loop args []) as [indices|] eqn:Hloop; [|discriminate].
  intros [= <-].
  apply parse_loop_nonneg in Hloop; [|constructor].
  rewrite List.Forall_forall in Hloop |- *.
  intros z Hz. apply Hloop. now apply sorted_set_In.
Qed.

(** Property X13.
    The indices [parse_section_args] returns are strictly increasing:
    sorted, and none of them twice, however the arguments overlap. *)
Theorem parse_section_args_is_strictly_increasing :
  forall (sections_arg : list string) (l : list Z),
    parse_section_args sections_arg = Ok l -> increasing l.
Proof.
  intros args l. apply parse_section_args_increasing.
Qed.

Lemma parse_section_args_is_strictly_increasing_witness :
  increasing [0; 1; 2; 3; 4; 5; 7]%Z.
Proof.
  apply (parse_section_args_is_strictly_increasing ["3-5"; "7"; "0-4"; "3"]).
  reflexivity.
Defined.

(** Property X14.
    [parse_section_args] never returns a negative index: a minus sign in
    an argument is always taken for the separator of a range, so no part
    handed to [int] has one. *)
Theorem parse_section_args_is_never_negative :
  forall (sections_arg : list string) (l : list Z),
    parse_section_args sections_arg = Ok l ->
    Forall (fun z => (0 <= z)%Z) l.
Proof.
  intros args l. apply parse_section_args_nonneg.
Qed.

Lemma parse_section_args_is_never_negative_witness :
  Forall (fun z => (0 <= z)%Z) [2; 3; 10]%Z.
Proof.
  apply (parse_section_args_is_never_negative ["+2-3"; " 1_0 "]).
  reflexivity.
Defined.

(** Property X15.
    The result holds exactly the indices the arguments stand for: an
    argument without a minus sign stands for its number, an argument
    [a-b] for the numbers from [a] to [b], both included, and for none
    when [a] is above [b]. *)
Theorem parse_section_args_returns_the_denoted_indices :
  forall (sections_arg : list string) (l : list Z),
    parse_section_args sections_arg = Ok l ->
    forall z,
      In z l <-> exists arg, In arg sections_arg /\ denotes arg z.
Proof.
  intros args l. apply parse_section_args_In.
Qed.

Lemma parse_section_args_returns_the_denoted_indices_witness :
  In 4%Z [0; 3; 4; 5]%Z <->
  exists arg, In arg ["3-5"; "9-8"; "0"] /\ denotes arg 4%Z.
Proof.
  apply (parse_section_args_returns_the_denoted_indices
           ["3-5"; "9-8"; "0"] [0; 3; 4; 5]%Z).
  reflexivity.
Defined.

(** Property X16.
    The result depends on the set of denoted indices only: two argument
    lists that stand for the same indices (arguments reordered, repeated,
    ranges split or overlapping) give the same list. *)
Theorem parse_section_args_depends_on_the_indices_only :
  forall (args1 args2 : list string) (l1 l2 : list Z),
    parse_section_args args1 = Ok l1 ->
    parse_section_args args2 = Ok l2 ->
    (forall z,
        (exists arg, In arg args1 /\ denotes arg z) <->
        (exists arg, In arg args2 /\ denotes arg z)) ->
    l1 = l2.
Proof.
  intros args1 args2 l1 l2 H1 H2 Hsame.
  apply increasing_unique.
  - eapply parse_section_args_increasing; eassumption.
  - eapply parse_section_args_increasing; eassumption.
  - intros z.
    rewrite (parse_section_args_In _ _ H1 z),
            (parse_section_args_In _ _ H2 z).
    apply Hsame.
Qed.

Lemma parse_section_args_depends_on_the_indices_only_witness :
  [0; 1; 2; 4]%Z = [0; 1; 2; 4]%Z.
Proof.
  apply (parse_section_args_depends_on_the_indices_only
           ["0-2"; "4"] ["4"; "2"; "0-1"; "1"]
           [0; 1; 2; 4]%Z [0; 1; 2; 4]%Z); [reflexivity|reflexivity|].
  intros z.
  rewrite <- (parse_section_args_In ["0-2"; "4"] [0; 1; 2; 4]%Z eq_refl z),
          <- (parse_section_args_In ["4"; "2"; "0-1"; "1"] [0; 1; 2; 4]%Z
                eq_refl z).
  reflexivity.
Defined.

(** Property X17.
    An argument list that holds an argument beginning with a minus sign
    is never parsed: the sign is taken for the separator of a range whose
    first bound is empty, so the call returns no list and a negative
    index cannot be asked for.  When the arguments before it are plain
    numbers, the exception is a [ValueError]. *)
Theorem parse_section_args_rejects_a_leading_minus :
  forall (sections_arg : list string) (rest : string),
    In (String "-" rest) sections_arg ->
    (forall l, parse_section_args sections_arg <> Ok l) /\
    (forall pre post,
        sections_arg = pre ++ String "-" rest :: post ->
        Forall (fun arg => contains_char "-" arg = false) pre ->
        exists msg,
          parse_section_args sections_arg = Raise (ValueError msg)).
Proof.
  intros args rest Hin. split.
  - intros l. unfold parse_section_args, obind.
    destruct (parse_loop_leading_minus args _ rest Hin eq_refl [])
      as (msg & ->).
    discriminate.
  - intros pre post -> Hpre. unfold parse_section_args, obind.
    destruct (parse_loop_leading_minus (pre ++ String "-" rest :: post) _
                rest Hin eq_refl []) as (msg & ->).
    eauto.
Qed.

Lemma parse_section_args_rejects_a_leading_minus_witness :
  (forall l, parse_section_args ["7"; "-1"; "0-2"] <> Ok l) /\
  exists msg,
    parse_section_args ["7"; "-1"; "0-2"] = Raise (ValueError msg).
Proof.
  destruct (parse_section_args_rejects_a_leading_minus
              ["7"; "-1"; "0-2"] "1") as [Hnever Hvalue].
  - right. now left.
  - split; [exact Hnever|].
    apply (Hvalue ["7"] ["0-2"]); [reflexivity|].
    repeat constructor.
Defined.

End ParserFacts.

(** ** The callers: [generate_assets] *)

Section CallerFacts.
Import Py Net Expr Obs Watch.

Lemma eqb_image_or_video (t : string) :
  String.eqb t "image" = true -> String.eqb t "video" = false.
Proof.
  intros H. apply String.eqb_eq in H. now subst.
Qed.

(** *** [generate_assets] of [generate_graeber_video.py] *)

(** What one iteration of the loop does to the section and the world. *)
Lemma main_process_spec service client i s w :
  exists s' evs fs,
    MainAssets.process service client i s w
    = (Ok s', mkWorld (trace w ++ evs) fs) /\
    same_section s s' /\
    (forall p, p <> Script.image_path i s -> p <> Script.video_path i s ->
               fs !! p = files w !! p) /\
    (Script.visual_type s = "image" ->
     exists rest,
       evs = Main.image_post client "nano-banana-pro" (Script.prompt s)
             :: rest) /\
    (Script.visual_type s = "video" ->
     exists rest,
       evs = Main.video_post client ("sora-2-pro-text-to-video", true)
                             (Script.prompt s) 5 :: rest).
Proof.
  unfold MainAssets.process.
  cbv beta iota zeta delta [bind try_except ret].
  destruct (String.eqb (Script.visual_type s) "image") eqn:Ei.
  - pose proof (eqb_image_or_video _ Ei) as Ev.
    apply String.eqb_eq in Ei. apply String.eqb_neq in Ev.
    destruct (main_generate_image_starts service client (Script.prompt s)
                Main.default_model w) as (o & rest & ->).
    destruct o as [b|e]; unfold write_bytes, sleep, extend;
      cbn [trace files]; rewrite <- ?app_assoc; cbn [app].
    + eexists _, _, _. split; [reflexivity|].
      split; [repeat split|]. split.
      { intros p Hp _. now rewrite lookup_insert_ne. }
      split; [eauto | congruence].
    + eexists _, _, _. split; [reflexivity|].
      split; [repeat split|].
      split; [auto|].
      split; [eauto | congruence].
  - destruct (String.eqb (Script.visual_type s) "video") eqn:Ev.
    + apply String.eqb_eq in Ev. apply String.eqb_neq in Ei.
      destruct (main_generate_video_starts service client (Script.prompt s)
                  5 w) as (o & rest & ->).
      destruct o as [b|e]; unfold write_bytes, sleep, extend;
        cbn [trace files]; rewrite <- ?app_assoc; cbn [app].
      * eexists _, _, _. split; [reflexivity|].
        split; [repeat split|]. split.
        { intros p _ Hp. now rewrite lookup_insert_ne. }
        split; [congruence | eauto].
      * eexists _, _, _. split; [reflexivity|].
        split; [repeat split|].
        split; [auto|].
        split; [congruence | eauto].
    + apply String.eqb_neq in Ev. apply String.eqb_neq in Ei.
      unfold sleep. cbn [trace files].
      eexists _, _, _. split; [reflexivity|].
      split; [repeat split|].
      split; [auto|].
      split; congruence.
Qed.

(** The loop from position [i] on: it never raises, changes the recorded
    asset of a section at most and writes to the paths of its sections
    only. *)
Lemma main_assets_loop_spec service client script : forall i w,
  exists script' evs fs,
    MainAssets.assets_loop service client i script w
    = (Ok script', mkWorld (trace w ++ evs) fs) /\
    Forall2 same_section script script' /\
    (forall p,
        (forall k s, nth_error script k = Some s ->
                     p <> Script.image_path (i + k) s /\
                     p <> Script.video_path (i + k) s) ->
        fs !! p = files w !! p) /\
    (forall k s,
        nth_error script k = Some s ->
        (Script.visual_type s = "image" ->
         In (Main.image_post client "nano-banana-pro" (Script.prompt s))
            evs) /\
        (Script.visual_type s = "video" ->
         In (Main.video_post client ("sora-2-pro-text-to-video", true)
                             (Script.prompt s) 5) evs)).
Proof.
  induction script as [|s script IH]; intros i w.
  - exists [], [], (files w). cbn [MainAssets.assets_loop]. unfold ret.
    rewrite app_nil_r. destruct w as [t f]. cbn [trace files].
    split; [reflexivity|]. split; [constructor|].
    split; [reflexivity|].
    intros [|k] ? *; discriminate.
  - cbn [MainAssets.assets_loop]. unfold bind at 1.
    destruct (main_process_spec service client i s w)
      as (s1 & evs1 & fs1 & -> & Hsame & Hframe & Himg & Hvid).
    unfold bind at 1.
    destruct (IH (S i) (mkWorld (trace w ++ evs1) fs1))
      as (script' & evs2 & fs2 & -> & Hsame' & Hframe' & Hposts).
    cbn [trace files] in *. unfold ret.
    exists (s1 :: script'), (evs1 ++ evs2), fs2.
    rewrite app_assoc. split; [reflexivity|].
    split; [now constructor|]. split.
    { intros p Hp. rewrite Hframe'.
      - apply Hframe.
        + specialize (Hp 0%nat s eq_refl). rewrite Nat.add_0_r in Hp.
          apply Hp.
        + specialize (Hp 0%nat s eq_refl). rewrite Nat.add_0_r in Hp.
          apply Hp.
      - intros k s0 Hk. specialize (Hp (S k) s0 Hk).
        now rewrite Nat.add_succ_r in Hp. }
    intros [|k] s0; cbn [nth_error].
    + intros [= <-]. split; intros Ht.
      * destruct (Himg Ht) as (rest & ->). now left.
      * destruct (Hvid Ht) as (rest & ->). now left.
    + intros Hk. destruct (Hposts k s0 Hk) as [Hi Hv].
      split; intros Ht; apply in_or_app; right; auto.
Qed.


(** Property X21.
    The main script writes to the asset paths of its sections only: any
    other path holds after the run what it held before. *)
Theorem main_generate_assets_writes_its_assets_only :
  forall (service : service_t) (api_key : string)
         (script : list Script.ScriptSection) (w : world) (p : string),
    (forall i s, nth_error script i = Some s ->
                 p <> Script.image_path i s /\ p <> Script.video_path i s) ->
    files (snd (MainAssets.generate_assets service api_key script w)) !! p
    = files w !! p.
Proof.
  intros service api_key script w p Hp. unfold MainAssets.generate_assets.
  destruct (main_assets_loop_spec service (Main.init api_key) script 0%nat w)
    as (script' & evs & fs & -> & _ & Hframe & _).
  cbn [snd files]. apply Hframe. exact Hp.
Qed.

Lemma main_generate_assets_writes_its_assets_only_witness :
  files (snd (MainAssets.generate_assets
                (Mock.image_inline [x41; x42]) "k"
                [Script.init "Opening" 0 10 "For thousands of years..."
                             "image" "P"]
                (mkWorld [] (<["notes.txt" := [x01]]> ∅))))
    !! "notes.txt"
  = files (mkWorld [] (<["notes.txt" := [x01]]> ∅)) !! "notes.txt".
Proof.
  apply (main_generate_assets_writes_its_assets_only
           (Mock.image_inline [x41; x42]) "k"
           [Script.init "Opening" 0 10 "For thousands of years..."
                        "image" "P"]
           (mkWorld [] (<["notes.txt" := [x01]]> ∅)) "notes.txt").
  intros [|[|i]] s; cbn [nth_error]; try discriminate.
  intros [= <-]. split; intros H; vm_compute in H; discriminate.
Defined.

(** Property X22.
    A failure in one section does not keep the main script from the
    others: every image section and every video section of the script is
    asked for, with the first model of its list, during the run. *)
Theorem main_generate_assets_attempts_every_section :
  forall (service : service_t) (api_key : string)
         (script : list Script.ScriptSection) (w : world),
  exists script' evs fs,
    MainAssets.generate_assets service api_key script w
    = (Ok script', mkWorld (trace w ++ evs) fs) /\
    forall i s,
      nth_error script i = Some s ->
      (Script.visual_type s = "image" ->
       In (Main.image_post (Main.init api_key) "nano-banana-pro"
                           (Script.prompt s)) evs) /\
      (Script.visual_type s = "video" ->
       In (Main.video_post (Main.init api_key)
                           ("sora-2-pro-text-to-video", true)
                           (Script.prompt s) 5) evs).
Proof.
  intros service api_key script w. unfold MainAssets.generate_assets.
  destruct (main_assets_loop_spec service (Main.init api_key) script 0%nat w)
    as (script' & evs & fs & H & _ & _ & Hposts).
  eexists _, _, _. split; [exact H|exact Hposts].
Qed.

(** *** [generate_assets] of [generate_graeber_video_full.py] *)

Lemma full_process_spec service client i s w :
  exists s' w',
    FullAssets.process service client i s w = (Ok s', w') /\
    same_section s s'.
Proof.
  unfold FullAssets.process.
  cbv beta iota zeta delta [bind try_except ret].
  destruct (String.eqb (Script.visual_type s) "image").
  - destruct (full_generate_image_events service client (Script.prompt s)
                Full.default_image_model w) as (o & ->).
    destruct o as [b|e]; unfold write_bytes, sleep;
      eexists _, _; (split; [reflexivity|repeat split]).
  - destruct (String.eqb (Script.visual_type s) "video").
    + destruct (full_generate_video_events service client (Script.prompt s)
                  Full.default_video_model w) as (o & evs & ->).
      destruct o as [[b|]|e];
        unfold FullAssets.write_maybe, write_bytes, sleep, raise;
        eexists _, _; (split; [reflexivity|repeat split]).
    + unfold sleep. eexists _, _. split; [reflexivity|repeat split].
Qed.

Lemma full_assets_loop_spec service client script : forall i w,
  exists script' w',
    FullAssets.assets_loop service client i script w = (Ok script', w') /\
    Forall2 same_section script script'.
Proof.
  induction script as [|s script IH]; intros i w.
  - exists [], w. split; [reflexivity|constructor].
  - cbn [FullAssets.assets_loop]. unfold bind at 1.
    destruct (full_process_spec service client i s w)
      as (s1 & w1 & -> & Hsame).
    unfold bind at 1.
    destruct (IH (S i) w1) as (script' & w2 & -> & Hsame').
    exists (s1 :: script'), w2. split; [reflexivity|now constructor].
Qed.

(** Property X23.
    The client of the full script raises every failure to its caller
    and can hand back [None] for a video; [generate_assets] absorbs both:
    it never raises, and the script it leaves has the sections it was
    given, changed in the recorded asset at most. *)
Theorem full_generate_assets_outlives_every_failure :
  forall (service : service_t) (api_key : string)
         (script : list Script.ScriptSection) (w : world),
  exists script' w',
    FullAssets.generate_assets service api_key script w = (Ok script', w') /\
    Forall2 same_section script script'.
Proof.
  intros service api_key script w. unfold FullAssets.generate_assets.
  apply full_assets_loop_spec.
Qed.

Lemma full_process_drops_non_string service client i s w r kvs v :
  service (trace w)
          (Post Full.video_endpoint (Main.headers client)
                (Full.video_payload Full.default_video_model
                                    (Script.prompt s)) (Some 120%Z))
  = Response r ->
  http_ok r = true ->
  json_body r = Some (JObj kvs) ->
  assoc "video" kvs = Some v ->
  isinstance_str v = false ->
  Script.visual_type s = "video" ->
  FullAssets.process service client i s w
  = (Ok s, extend w [Full.video_post client Full.default_video_model
                                     (Script.prompt s)]).
Proof.
  intros Hsvc Hok Hjson Hv Hstr Ht.
  unfold FullAssets.process. rewrite Ht.
  change (String.eqb "video" "image") with false.
  change (String.eqb "video" "video") with true.
  unfold Full.generate_video, Full.video_try, fetch_or_decode,
    FullAssets.write_maybe.
  destruct v; try discriminate; run; reflexivity.
Qed.

(** Property X24.
    When the service answers the video requests of the full script with
    a [video] entry that is not a string, a run over video sections ends
    as if nothing had been asked: one request per section, no file, no
    recorded asset, no pause and no exception.  The [None] that
    [generate_video] returns fails in [write_bytes], inside the [try]. *)
Theorem full_generate_assets_drops_non_string_videos :
  forall (service : service_t) (api_key : string)
         (script : list Script.ScriptSection) (w : world),
    (forall history prompt,
        exists r kvs v,
          service history
                  (Post Full.video_endpoint (make_headers api_key)
                        (Full.video_payload Full.default_video_model prompt)
                        (Some 120%Z))
          = Response r /\
          http_ok r = true /\
          json_body r = Some (JObj kvs) /\
          assoc "video" kvs = Some v /\
          isinstance_str v = false) ->
    Forall (fun s => Script.visual_type s = "video") script ->
    FullAssets.generate_assets service api_key script w
    = (Ok script,
       extend w (map (fun s => Full.video_post (Main.init api_key)
                                 Full.default_video_model (Script.prompt s))
                     script)).
Proof.
  intros service api_key script w Hsvc Hvideo.
  unfold FullAssets.generate_assets.
  generalize 0%nat as i. revert w.
  induction Hvideo as [|s script Hs Hrest IH]; intros w i.
  - cbn. now rewrite extend_nil.
  - cbn [FullAssets.assets_loop map]. unfold bind at 1.
    destruct (Hsvc (trace w) (Script.prompt s))
      as (r & kvs & v & Hr & Hok & Hjson & Hv & Hstr).
    rewrite (full_process_drops_non_string service (Main.init api_key) i s w
               r kvs v Hr Hok Hjson Hv Hstr Hs).
    unfold bind at 1. rewrite IH. unfold ret.
    now rewrite extend_extend.
Qed.

Lemma full_generate_assets_drops_non_string_videos_witness :
  FullAssets.generate_assets (Mock.video_not_a_string 500) "k"
    [Script.init "Chicken Scene" 18 5 "Except..." "video" "P1";
     Script.init "Financial Glitch" 57 3 EmptyString "video" "P2"]
    Mock.w0
  = (Ok [Script.init "Chicken Scene" 18 5 "Except..." "video" "P1";
         Script.init "Financial Glitch" 57 3 EmptyString "video" "P2"],
     extend Mock.w0
       (map (fun s => Full.video_post (Main.init "k")
                        Full.default_video_model (Script.prompt s))
            [Script.init "Chicken Scene" 18 5 "Except..." "video" "P1";
             Script.init "Financial Glitch" 57 3 EmptyString "video"
                         "P2"])).
Proof.
  apply (full_generate_assets_drops_non_string_videos
           (Mock.video_not_a_string 500) "k"
           [Script.init "Chicken Scene" 18 5 "Except..." "video" "P1";
            Script.init "Financial Glitch" 57 3 EmptyString "video" "P2"]
           Mock.w0).
  - intros history prompt.
    exists (mkResponse 200
              (Some (JObj [("video", JObj [("status", JStr "queued")])]))
              []),
           [("video", JObj [("status", JStr "queued")])],
           (JObj [("status", JStr "queued")]).
    repeat split.
  - repeat constructor.
Defined.

End CallerFacts.

(** ** The caller [generate_sections] *)

Section SectionsRun.
Import Py Net Expr Obs Watch SectionsCli.

Lemma table_length : Z.of_nat (List.length ALL_SECTIONS) = 16%Z.
Proof. reflexivity. Qed.

(** Subscripting the table succeeds from -16 to 15 and raises
    [IndexError] elsewhere. *)
Lemma section_at_cases idx :
  ((-16 <= idx < 16)%Z /\ exists s, section_at idx = Ok s) \/
  (((idx < -16)%Z \/ (16 <= idx)%Z) /\ section_at idx = Raise IndexError).
Proof.
  unfold section_at. rewrite table_length.
  destruct (idx <? 0)%Z eqn:Hneg.
  - apply Z.ltb_lt in Hneg.
    destruct (idx + 16 <? 0)%Z eqn:Hlow.
    + apply Z.ltb_lt in Hlow. right. split; [lia|reflexivity].
    + apply Z.ltb_ge in Hlow.
      destruct (nth_error ALL_SECTIONS (Z.to_nat (idx + 16)))
        as [s|] eqn:Hn.
      * left. split; [lia|eauto].
      * apply nth_error_None in Hn.
        pose proof table_length as Hlen. lia.
  - apply Z.ltb_ge in Hneg.
    replace (idx <? 0)%Z with false by (symmetry; now apply Z.ltb_ge).
    destruct (nth_error ALL_SECTIONS (Z.to_nat idx)) as [s|] eqn:Hn.
    + left. split; [|eauto].
      assert (Hsome : nth_error ALL_SECTIONS (Z.to_nat idx) <> None)
        by congruence.
      apply nth_error_Some in Hsome.
      pose proof table_length as Hlen. lia.
    + apply nth_error_None in Hn.
      pose proof table_length as Hlen. right. split; [lia|reflexivity].
Qed.

(** What the [try] statement of the loop does: it never fails, adds
    events, leaves the directories alone and writes to the path of its
    section at most. *)
Lemma cli_process_spec service disk client count i idx s st :
  exists evs fs,
    process service disk client count i idx s st
    = (Done tt,
       mkState (mkWorld (trace (net st) ++ evs) fs) (dirs st)) /\
    (forall p, p <> image_path idx s -> p <> video_path idx s ->
               fs !! p = files (net st) !! p) /\
    (refuses_every_write disk -> fs = files (net st)) /\
    (visual_type s = "image" ->
     exists rest,
       evs = Sections.image_post client "nano-banana-pro" (prompt s)
             :: rest) /\
    (visual_type s = "video" ->
     exists rest,
       evs = Sections.video_post client "sora-2-pro-text-to-video"
                                 (prompt s) (duration s) :: rest).
Proof.
  destruct st as [w d].
  unfold process, try_except_c, and_then, lift_net, write_file, done.
  cbn [net dirs].
  destruct (String.eqb (visual_type s) "image") eqn:Ei.
  - pose proof (eqb_image_or_video _ Ei) as Ev.
    apply String.eqb_eq in Ei. apply String.eqb_neq in Ev.
    cbn [net dirs].
    destruct (sections_generate_image_walk service client (prompt s) w)
      as (o & evs & -> & _ & (rest & ->) & _).
    destruct o as [b|e]; cbn [net dirs trace files extend].
    + destruct (disk _ (WriteBytes (image_path idx s)))
        as [|msg|msg kept] eqn:Hw.
      * destruct (Z.of_nat i <? Z.of_nat count - 1)%Z;
          unfold sleep; cbn [net dirs trace files];
          rewrite <- ?app_assoc; cbn [app];
          (eexists _, _; split; [reflexivity|]);
          (split; [intros p Hp _; now rewrite lookup_insert_ne|]);
          (split; [intros Hno; edestruct Hno; erewrite Hw in *; discriminate|]);
          (split; [eauto|congruence]).
      * eexists _, _. split; [reflexivity|].
        split; [auto|]. split; [auto|]. split; [eauto|congruence].
      * eexists _, _. split; [reflexivity|].
        split; [intros p Hp _; now rewrite lookup_insert_ne|].
        split; [intros Hno; edestruct Hno; erewrite Hw in *; discriminate|].
        split; [eauto|congruence].
    + eexists _, _. split; [reflexivity|].
      split; [auto|]. split; [auto|]. split; [eauto|congruence].
  - destruct (String.eqb (visual_type s) "video") eqn:Ev.
    + apply String.eqb_eq in Ev. apply String.eqb_neq in Ei.
      cbn [net dirs].
      destruct (sections_generate_video_walk service client (prompt s)
                  (duration s) w)
        as (o & evs & -> & _ & (rest & ->) & _).
      destruct o as [b|e]; cbn [net dirs trace files extend].
      * destruct (disk _ (WriteBytes (video_path idx s)))
          as [|msg|msg kept] eqn:Hw.
        -- destruct (Z.of_nat i <? Z.of_nat count - 1)%Z;
             unfold sleep; cbn [net dirs trace files];
             rewrite <- ?app_assoc; cbn [app];
             (eexists _, _; split; [reflexivity|]);
             (split; [intros p _ Hp; now rewrite lookup_insert_ne|]);
             (split; [intros Hno; edestruct Hno; erewrite Hw in *; discriminate|]);
             (split; [congruence|eauto]).
        -- eexists _, _. split; [reflexivity|].
           split; [auto|]. split; [auto|]. split; [congruence|eauto].
        -- eexists _, _. split; [reflexivity|].
           split; [intros p _ Hp; now rewrite lookup_insert_ne|].
           split; [intros Hno; edestruct Hno; erewrite Hw in *; discriminate|].
           split; [congruence|eauto].
      * eexists _, _. split; [reflexivity|].
        split; [auto|]. split; [auto|]. split; [congruence|eauto].
    + apply String.eqb_neq in Ev. apply String.eqb_neq in Ei.
      destruct (Z.of_nat i <? Z.of_nat count - 1)%Z;
        unfold sleep; cbn [net dirs trace files];
        [exists [EvSleep 5], (files w) | exists [], (files w)];
        rewrite ?app_nil_r; destruct w as [t f]; cbn [trace files];
        (split; [reflexivity|]); (split; [auto|]); (split; [auto|]);
        split; congruence.
Qed.

Lemma sections_loop_spec service disk client count l : forall i st,
  exists o evs fs,
    sections_loop service disk client count i l st
    = (o, mkState (mkWorld (trace (net st) ++ evs) fs) (dirs st)) /\
    (forall p,
        (forall idx s, In idx l -> section_at idx = Ok s ->
                       p <> image_path idx s /\ p <> video_path idx s) ->
        fs !! p = files (net st) !! p) /\
    (refuses_every_write disk -> fs = files (net st)) /\
    (Forall (fun idx => (-16 <= idx)%Z) l -> o = Done tt) /\
    (Exists (fun idx => (idx < -16)%Z) l -> o = Failed (Client IndexError)) /\
    (o = Done tt ->
     forall idx s,
       In idx l -> section_at idx = Ok s ->
       (visual_type s = "image" ->
        In (Sections.image_post client "nano-banana-pro" (prompt s)) evs) /\
       (visual_type s = "video" ->
        In (Sections.video_post client "sora-2-pro-text-to-video"
                                (prompt s) (duration s)) evs)).
Proof.
  induction l as [|idx l IH]; intros i st.
  - exists (Done tt), [], (files (net st)). cbn [sections_loop].
    unfold done. rewrite app_nil_r.
    destruct st as [[t f] d]. cbn [net dirs trace files].
    split; [reflexivity|]. split; [reflexivity|]. split; [reflexivity|].
    split; [reflexivity|].
    split; [intros H; inversion H|]. intros _ ? ? [].
  - cbn [sections_loop]. rewrite table_length.
    destruct (section_at_cases idx) as [[Hrange [s Hs]] | [Hout Hraise]].
    + replace (16 <=? idx)%Z with false by (symmetry; apply Z.leb_gt; lia).
      unfold and_then at 1. unfold lift_net at 1. unfold lift.
      rewrite Hs.
      unfold and_then at 1.
      destruct (cli_process_spec service disk client count i idx s
                  (mkState (net st) (dirs st)))
        as (evs1 & fs1 & -> & Hframe & Hsame & Himg & Hvid).
      cbn [net dirs] in *.
      destruct (IH (S i) (mkState (mkWorld (trace (net st) ++ evs1) fs1)
                                  (dirs st)))
        as (o & evs2 & fs2 & -> & Hframe' & Hsame' & Hok & Hraises & Hposts).
      cbn [net dirs trace files] in *.
      exists o, (evs1 ++ evs2), fs2. rewrite app_assoc.
      split; [reflexivity|]. split.
      { intros p Hp. rewrite Hframe'.
        - apply Hframe; apply (Hp idx s); auto using in_eq.
        - intros idx' s' Hin. apply Hp. now right. }
      split.
      { intros Hno. rewrite (Hsame' Hno). now apply Hsame. }
      split.
      { intros Hall. apply Hok. now inversion Hall. }
      split.
      { intros Hex. apply Hraises.
        inversion Hex as [? ? Hlow | ? ? Hlater]; subst; [lia|exact Hlater]. }
      intros Ho idx' s' [<- | Hin] Hs'.
      * rewrite Hs in Hs'. injection Hs' as <-. split; intros Ht.
        -- destruct (Himg Ht) as (rest & ->). now left.
        -- destruct (Hvid Ht) as (rest & ->). now left.
      * destruct (Hposts Ho idx' s' Hin Hs') as [Hi Hv].
        split; intros Ht; apply in_or_app; right; auto.
    + destruct Hout as [Hlow | Hhigh].
      * replace (16 <=? idx)%Z with false
          by (symmetry; apply Z.leb_gt; lia).
        unfold and_then at 1. unfold lift_net at 1. unfold lift.
        rewrite Hraise.
        exists (Failed (Client IndexError)), [], (files (net st)).
        rewrite app_nil_r.
        destruct st as [[t f] d]. cbn [net dirs trace files].
        split; [reflexivity|]. split; [reflexivity|].
        split; [reflexivity|]. split.
        { intros Hall. inversion Hall; subst. lia. }
        split; [reflexivity|discriminate].
      * replace (16 <=? idx)%Z with true
          by (symmetry; apply Z.leb_le; lia).
        destruct (IH (S i) st)
          as (o & evs & fs & -> & Hframe & Hsame & Hok & Hraises & Hposts).
        exists o, evs, fs. split; [reflexivity|]. split.
        { intros p Hp. apply Hframe. intros idx' s' Hin.
          apply Hp. now right. }
        split; [exact Hsame|]. split.
        { intros Hall. apply Hok. now inversion Hall. }
        split.
        { intros Hex. apply Hraises.
          inversion Hex as [? ? Hlow | ? ? Hlater]; subst;
            [lia|exact Hlater]. }
        intros Ho idx' s' [<- | Hin] Hs'; [congruence|].
        exact (Hposts Ho idx' s' Hin Hs').
Qed.

(** The [try] statement for an image section whose bytes the client
    returns. *)
Lemma process_image_stores service disk client count i idx s w w' d b :
  visual_type s = "image" ->
  Sections.generate_image service client (prompt s) w = (Ok b, w') ->
  exists evs,
    process service disk client count i idx s (mkState w d)
    = (Done tt,
       mkState
         (mkWorld (trace w' ++ evs)
            match disk (trace w') (WriteBytes (image_path idx s)) with
            | Through => <[image_path idx s := b]> (files w')
            | Refused _ => files w'
            | Cut _ kept => <[image_path idx s := take kept b]> (files w')
            end)
         d).
Proof.
  intros Himage Hclient.
  unfold process, try_except_c, and_then, lift_net, write_file, done.
  apply String.eqb_eq in Himage. rewrite Himage. cbn [net dirs].
  rewrite Hclient. cbn [net dirs].
  destruct (disk (trace w') (WriteBytes (image_path idx s)))
    as [|msg|msg kept].
  - destruct (Z.of_nat i <? Z.of_nat count - 1)%Z;
      unfold sleep; cbn [net dirs trace files];
      [exists [EvSleep 5] | exists []; rewrite app_nil_r]; reflexivity.
  - exists []. rewrite app_nil_r. now destruct w'.
  - exists []. rewrite app_nil_r. reflexivity.
Qed.

(** The closing lines change nothing; they end without an exception when
    their look-ups go through, and with an [OSError] otherwise. *)
Lemma report_spec disk st :
  exists o,
    report disk st = (o, st) /\
    (o = Done tt \/ exists msg, o = Failed (OSError msg)) /\
    (report_can_be_made disk (trace (net st)) -> o = Done tt).
Proof.
  unfold report, report_can_be_made, and_then, look.
  destruct (disk (trace (net st)) (Absolute OUTPUT_DIR)) as [|m|m k];
    [|eexists; split; [reflexivity|];
      split; [eauto|intros (H & _); discriminate]..].
  destruct (disk (trace (net st)) (Glob IMAGES_DIR "*.png")) as [|m|m k];
    [|eexists; split; [reflexivity|];
      split; [eauto|intros (_ & H & _); discriminate]..].
  destruct (disk (trace (net st)) (Glob VIDEOS_DIR "*.mp4")) as [|m|m k];
    [|eexists; split; [reflexivity|];
      split; [eauto|intros (_ & _ & H); discriminate]..].
  eexists; split; [reflexivity|]. split; [now left|reflexivity].
Qed.

(** The three directories, once made. *)
Lemma directories_made service disk api_key l w d :
  directories_can_be_made disk (trace w) ->
  generate_sections service disk api_key l (mkState w d)
  = and_then
      (sections_loop service disk (Sections.init api_key) (List.length l)
                     0 l)
      (fun _ => report disk)
      (mkState w ({[VIDEOS_DIR]} ∪ ({[IMAGES_DIR]} ∪ ({[OUTPUT_DIR]} ∪ d)))).
Proof.
  intros (H1 & H2 & H3).
  unfold generate_sections, and_then at 1 2 3, mkdir. cbn [net dirs].
  rewrite H1. cbn [net dirs]. rewrite H2. cbn [net dirs]. rewrite H3.
  reflexivity.
Qed.

(** A run of [generate_sections], from its loop on. *)
Lemma loop_and_report_spec service disk client count l st :
  exists o evs fs,
    and_then (sections_loop service disk client count 0 l)
             (fun _ => report disk) st
    = (o, mkState (mkWorld (trace (net st) ++ evs) fs) (dirs st)) /\
    (forall p,
        (forall idx s, In idx l -> section_at idx = Ok s ->
                       p <> image_path idx s /\ p <> video_path idx s) ->
        fs !! p = files (net st) !! p) /\
    (refuses_every_write disk -> fs = files (net st)) /\
    (Forall (fun idx => (-16 <= idx)%Z) l ->
     (o = Done tt \/ exists msg, o = Failed (OSError msg)) /\
     (report_can_be_made disk (trace (net st) ++ evs) -> o = Done tt) /\
     forall idx s,
       In idx l -> section_at idx = Ok s ->
       (visual_type s = "image" ->
        In (Sections.image_post client "nano-banana-pro" (prompt s)) evs) /\
       (visual_type s = "video" ->
        In (Sections.video_post client "sora-2-pro-text-to-video"
                                (prompt s) (duration s)) evs)) /\
    (Exists (fun idx => (idx < -16)%Z) l -> o = Failed (Client IndexError)).
Proof.
  unfold and_then.
  destruct (sections_loop_spec service disk client count l 0%nat st)
    as (o & evs & fs & -> & Hframe & Hsame & Hok & Hraises & Hposts).
  destruct o as [[]|f].
  - destruct (report_spec disk
                (mkState (mkWorld (trace (net st) ++ evs) fs) (dirs st)))
      as (o' & -> & Hshape & Hdone).
    cbn [net trace] in Hdone.
    exists o', evs, fs. split; [reflexivity|].
    split; [exact Hframe|]. split; [exact Hsame|]. split.
    + intros _. split; [exact Hshape|]. split; [exact Hdone|].
      now apply Hposts.
    + intros Hex. discriminate (Hraises Hex).
  - exists (Failed f), evs, fs. split; [reflexivity|].
    split; [exact Hframe|]. split; [exact Hsame|]. split.
    + intros Hall. discriminate (Hok Hall).
    + exact Hraises.
Qed.

(* The three [mkdir] calls either stop the run at the first one that is
   refused, or leave the rest to run with the three directories made. *)
Lemma directories_cases service disk api_key l w d :
  (exists msg d',
      generate_sections service disk api_key l (mkState w d)
      = (Failed (OSError msg), mkState w d') /\
      d' ⊆ {[VIDEOS_DIR]} ∪ ({[IMAGES_DIR]} ∪ ({[OUTPUT_DIR]} ∪ d)))
  \/
  generate_sections service disk api_key l (mkState w d)
  = and_then
      (sections_loop service disk (Sections.init api_key) (List.length l)
                     0 l)
      (fun _ => report disk)
      (mkState w ({[VIDEOS_DIR]} ∪ ({[IMAGES_DIR]} ∪ ({[OUTPUT_DIR]} ∪ d)))).
Proof.
  destruct (disk (trace w) (Mkdir OUTPUT_DIR)) as [|msg|msg k] eqn:H1;
    [|left; exists msg, d; split; [|set_solver];
      unfold generate_sections, and_then, mkdir; cbn [net dirs];
      now rewrite H1..].
  destruct (disk (trace w) (Mkdir IMAGES_DIR)) as [|msg|msg k] eqn:H2;
    [|left; exists msg, ({[OUTPUT_DIR]} ∪ d); split; [|set_solver];
      unfold generate_sections, and_then, mkdir; cbn [net dirs];
      rewrite H1; cbn [net dirs]; now rewrite H2..].
  destruct (disk (trace w) (Mkdir VIDEOS_DIR)) as [|msg|msg k] eqn:H3;
    [|left; exists msg, ({[IMAGES_DIR]} ∪ ({[OUTPUT_DIR]} ∪ d));
      split; [|set_solver];
      unfold generate_sections, and_then, mkdir; cbn [net dirs];
      rewrite H1; cbn [net dirs]; rewrite H2; cbn [net dirs];
      now rewrite H3..].
  right. apply directories_made. now repeat split.
Qed.

(** Property X25.
    When the three directories can be made and the closing look-ups go
    through, a run over indices of 16 or more makes the directories and
    does nothing else: every such index is skipped before anything is
    asked, so there is no request, no pause and no file. *)
Theorem generate_sections_skips_indices_past_the_table :
  forall (service : service_t) (disk : disk_t) (api_key : string)
         (section_indices : list Z) (w : world) (d : gset string),
    directories_can_be_made disk (trace w) ->
    report_can_be_made disk (trace w) ->
    Forall (fun idx => (16 <= idx)%Z) section_indices ->
    generate_sections service disk api_key section_indices (mkState w d)
    = (Done tt,
       mkState w ({[VIDEOS_DIR]} ∪ ({[IMAGES_DIR]} ∪ ({[OUTPUT_DIR]} ∪ d)))).
Proof.
  intros service disk api_key l w d Hdirs Hreport Hall.
  rewrite (directories_made service disk api_key l w d Hdirs).
  unfold and_then.
  assert (Hloop : forall i count st,
             sections_loop service disk (Sections.init api_key) count i l st
             = (Done tt, st)).
  { induction Hall as [|idx l Hidx Hrest IH]; intros i count st.
    - reflexivity.
    - cbn [sections_loop]. rewrite table_length.
      replace (16 <=? idx)%Z with true by (symmetry; now apply Z.leb_le).
      apply IH. }
  rewrite Hloop.
  destruct (report_spec disk (mkState w ({[VIDEOS_DIR]} ∪ ({[IMAGES_DIR]} ∪ ({[OUTPUT_DIR]} ∪ d))))) as (o & -> & _ & Hdone).
  now rewrite (Hdone Hreport).
Qed.

Lemma generate_sections_skips_indices_past_the_table_witness :
  generate_sections (Mock.image_inline [x41]) Mock2.disk_ok "k" [16; 99]%Z
                    (mkState Mock.w0 ∅)
  = (Done tt,
     mkState Mock.w0
             ({[VIDEOS_DIR]} ∪ ({[IMAGES_DIR]} ∪ ({[OUTPUT_DIR]} ∪ ∅)))).
Proof.
  apply (generate_sections_skips_indices_past_the_table
           (Mock.image_inline [x41]) Mock2.disk_ok "k" [16; 99]%Z
           Mock.w0 ∅).
  - repeat split.
  - repeat split.
  - repeat constructor; lia.
Defined.

(** Property X29.
    A directory that cannot be made ends the run at once: the
    [OSError] of the first [mkdir] that is refused reaches the caller,
    and no request has been made and no file written. *)
Theorem generate_sections_stops_at_a_refused_directory :
  forall (service : service_t) (disk : disk_t) (api_key : string)
         (section_indices : list Z) (w : world) (d : gset string)
         (msg : string),
    disk (trace w) (Mkdir OUTPUT_DIR) = Refused msg \/
    (disk (trace w) (Mkdir OUTPUT_DIR) = Through /\
     disk (trace w) (Mkdir IMAGES_DIR) = Refused msg) \/
    (disk (trace w) (Mkdir OUTPUT_DIR) = Through /\
     disk (trace w) (Mkdir IMAGES_DIR) = Through /\
     disk (trace w) (Mkdir VIDEOS_DIR) = Refused msg) ->
    exists d',
      generate_sections service disk api_key section_indices (mkState w d)
      = (Failed (OSError msg), mkState w d').
Proof.
  intros service disk api_key l w d msg H.
  unfold generate_sections, and_then, mkdir. cbn [net dirs].
  destruct H as [H1 | [(H1 & H2) | (H1 & H2 & H3)]].
  - rewrite H1. eauto.
  - rewrite H1. cbn [net dirs]. rewrite H2. eauto.
  - rewrite H1. cbn [net dirs]. rewrite H2. cbn [net dirs]. rewrite H3.
    eauto.
Qed.

(** A file named [graeber_assets] is in the way. *)
Lemma generate_sections_stops_at_a_refused_directory_witness :
  exists d',
    generate_sections (Mock.image_inline [x41])
                      (Mock2.disk_file_in_the_way "graeber_assets") "k"
                      [0; 1]%Z (mkState Mock.w0 ∅)
    = (Failed (OSError "File exists"), mkState Mock.w0 d').
Proof.
  apply (generate_sections_stops_at_a_refused_directory
           (Mock.image_inline [x41])
           (Mock2.disk_file_in_the_way "graeber_assets") "k" [0; 1]%Z
           Mock.w0 ∅ "File exists").
  left. reflexivity.
Defined.

(** Property X26.
    Whatever [parse_section_args] returns, once the three directories
    are made [generate_sections] gets through its loop on it, whatever
    the service answers and whatever the file system does with the
    writes: every section of the table the list names is asked for with
    the first model of its kind, and the run can only end without an
    exception or with an [OSError] of its closing look-ups; it ends
    without one when these go through. *)
Theorem generate_sections_finishes_on_parsed_arguments :
  forall (service : service_t) (disk : disk_t) (api_key : string)
         (sections_arg : list string) (section_indices : list Z)
         (w : world) (d : gset string),
    parse_section_args sections_arg = Ok section_indices ->
    directories_can_be_made disk (trace w) ->
    exists o evs fs,
      generate_sections service disk api_key section_indices (mkState w d)
      = (o,
         mkState (mkWorld (trace w ++ evs) fs)
                 ({[VIDEOS_DIR]} ∪ ({[IMAGES_DIR]} ∪ ({[OUTPUT_DIR]} ∪ d))))
      /\
      (o = Done tt \/ exists msg, o = Failed (OSError msg)) /\
      (report_can_be_made disk (trace w ++ evs) -> o = Done tt) /\
      forall idx s,
        In idx section_indices -> section_at idx = Ok s ->
        (visual_type s = "image" ->
         In (Sections.image_post (Sections.init api_key) "nano-banana-pro"
                                 (prompt s)) evs) /\
        (visual_type s = "video" ->
         In (Sections.video_post (Sections.init api_key)
                                 "sora-2-pro-text-to-video"
                                 (prompt s) (duration s)) evs).
Proof.
  intros service disk api_key args l w d Hparse Hdirs.
  rewrite (directories_made service disk api_key l w d Hdirs).
  destruct (loop_and_report_spec service disk (Sections.init api_key)
              (List.length l) l (mkState w ({[VIDEOS_DIR]} ∪ ({[IMAGES_DIR]} ∪ ({[OUTPUT_DIR]} ∪ d)))))
    as (o & evs & fs & H & _ & _ & Hok & _).
  cbn [net dirs] in *.
  exists o, evs, fs. split; [exact H|]. apply Hok.
  apply parse_section_args_nonneg in Hparse.
  eapply List.Forall_impl; [|exact Hparse]. cbn. intros. lia.
Qed.

(** The service is unreachable and every write would be refused: the run
    over the parsed sections 2 and 3 still gets through its loop. *)
Lemma generate_sections_finishes_on_parsed_arguments_witness :
  exists o evs fs,
    generate_sections Mock2.unreachable Mock2.disk_read_only_files "k"
                      [2; 3]%Z (mkState Mock.w0 ∅)
    = (o,
       mkState (mkWorld (trace Mock.w0 ++ evs) fs)
               ({[VIDEOS_DIR]} ∪ ({[IMAGES_DIR]} ∪ ({[OUTPUT_DIR]} ∪ ∅))))
    /\
    (o = Done tt \/ exists msg, o = Failed (OSError msg)) /\
    (report_can_be_made Mock2.disk_read_only_files (trace Mock.w0 ++ evs)
     -> o = Done tt) /\
    forall idx s,
      In idx [2; 3]%Z -> section_at idx = Ok s ->
      (visual_type s = "image" ->
       In (Sections.image_post (Sections.init "k") "nano-banana-pro"
                               (prompt s)) evs) /\
      (visual_type s = "video" ->
       In (Sections.video_post (Sections.init "k")
                               "sora-2-pro-text-to-video"
                               (prompt s) (duration s)) evs).
Proof.
  apply (generate_sections_finishes_on_parsed_arguments
           Mock2.unreachable Mock2.disk_read_only_files "k" ["2-3"]
           [2; 3]%Z Mock.w0 ∅).
  - reflexivity.
  - repeat split.
Defined.

(** Property X27.
    The table is subscripted outside the [try]: once the directories are
    made, an index below -16 anywhere in the list ends the run with an
    [IndexError]. *)
Theorem generate_sections_index_error_below_the_table :
  forall (service : service_t) (disk : disk_t) (api_key : string)
         (section_indices : list Z) (w : world) (d : gset string),
    directories_can_be_made disk (trace w) ->
    Exists (fun idx => (idx < -16)%Z) section_indices ->
    fst (generate_sections service disk api_key section_indices
                           (mkState w d))
    = Failed (Client IndexError).
Proof.
  intros service disk api_key l w d Hdirs Hex.
  rewrite (directories_made service disk api_key l w d Hdirs).
  destruct (loop_and_report_spec service disk (Sections.init api_key)
              (List.length l) l (mkState w ({[VIDEOS_DIR]} ∪ ({[IMAGES_DIR]} ∪ ({[OUTPUT_DIR]} ∪ d)))))
    as (o & evs & fs & -> & _ & _ & _ & Hraises).
  cbn [fst]. now apply Hraises.
Qed.

Lemma generate_sections_index_error_below_the_table_witness :
  fst (generate_sections (Mock.image_inline [x41]) Mock2.disk_ok "k"
                         [0; -17]%Z (mkState Mock.w0 ∅))
  = Failed (Client IndexError).
Proof.
  apply (generate_sections_index_error_below_the_table
           (Mock.image_inline [x41]) Mock2.disk_ok "k" [0; -17]%Z
           Mock.w0 ∅).
  - repeat split.
  - apply Exists_cons_tl, Exists_cons_hd. lia.
Defined.

(** Property X28.
    [generate_sections] writes to the asset paths of the listed sections
    only, and makes no directory but its three: any other path holds
    after the run what it held before, whatever the service and the file
    system do and however the run ends. *)
Theorem generate_sections_writes_the_listed_assets_only :
  forall (service : service_t) (disk : disk_t) (api_key : string)
         (section_indices : list Z) (w : world) (d : gset string)
         (p : string),
    (forall idx s,
        In idx section_indices -> section_at idx = Ok s ->
        p <> image_path idx s /\ p <> video_path idx s) ->
    files (net (snd (generate_sections service disk api_key section_indices
                                       (mkState w d)))) !! p
    = files w !! p
    /\
    dirs (snd (generate_sections service disk api_key section_indices
                                 (mkState w d)))
    ⊆ {[VIDEOS_DIR]} ∪ ({[IMAGES_DIR]} ∪ ({[OUTPUT_DIR]} ∪ d)).
Proof.
  intros service disk api_key l w d p Hp.
  destruct (directories_cases service disk api_key l w d)
    as [(msg & d' & -> & Hd') | ->].
  - cbn [snd net dirs]. split; [reflexivity|exact Hd'].
  - destruct (loop_and_report_spec service disk (Sections.init api_key)
                (List.length l) l (mkState w ({[VIDEOS_DIR]} ∪ ({[IMAGES_DIR]} ∪ ({[OUTPUT_DIR]} ∪ d)))))
      as (o & evs & fs & -> & Hframe & _).
    cbn [snd net dirs files]. split; [|reflexivity].
    apply Hframe. exact Hp.
Qed.

(** The disk runs full during the write of section 0; a file of another
    name is as it was. *)
Lemma generate_sections_writes_the_listed_assets_only_witness :
  files (net (snd (generate_sections
                     (Mock.image_inline [x41; x42])
                     (Mock2.disk_full_after 1) "k" [0]%Z
                     (mkState (mkWorld [] (<["notes.txt" := [x01]]> ∅))
                              ∅))))
    !! "notes.txt"
  = files (mkWorld [] (<["notes.txt" := [x01]]> ∅)) !! "notes.txt"
  /\
  dirs (snd (generate_sections
               (Mock.image_inline [x41; x42])
               (Mock2.disk_full_after 1) "k" [0]%Z
               (mkState (mkWorld [] (<["notes.txt" := [x01]]> ∅)) ∅)))
  ⊆ {[VIDEOS_DIR]} ∪ ({[IMAGES_DIR]} ∪ ({[OUTPUT_DIR]} ∪ ∅)).
Proof.
  apply (generate_sections_writes_the_listed_assets_only
           (Mock.image_inline [x41; x42]) (Mock2.disk_full_after 1) "k"
           [0]%Z (mkWorld [] (<["notes.txt" := [x01]]> ∅)) ∅ "notes.txt").
  intros idx s [<- | []] Hs. vm_compute in Hs. injection Hs as <-.
  split; intros H; vm_compute in H; discriminate.
Defined.

(** Property X30.
    A write that the file system refuses is absorbed like any failure
    of a section: when every write is refused before the file is
    touched, the directories are made and the closing look-ups go
    through, a run over indices from -16 on ends without an exception
    and has changed no file. *)
Theorem generate_sections_absorbs_refused_writes :
  forall (service : service_t) (disk : disk_t) (api_key : string)
         (section_indices : list Z) (w : world) (d : gset string),
    directories_can_be_made disk (trace w) ->
    refuses_every_write disk ->
    (forall history, report_can_be_made disk history) ->
    Forall (fun idx => (-16 <= idx)%Z) section_indices ->
    exists evs,
      generate_sections service disk api_key section_indices (mkState w d)
      = (Done tt,
         mkState (mkWorld (trace w ++ evs) (files w))
                 ({[VIDEOS_DIR]} ∪ ({[IMAGES_DIR]} ∪ ({[OUTPUT_DIR]} ∪ d)))).
Proof.
  intros service disk api_key l w d Hdirs Hno Hreport Hall.
  rewrite (directories_made service disk api_key l w d Hdirs).
  destruct (loop_and_report_spec service disk (Sections.init api_key)
              (List.length l) l (mkState w ({[VIDEOS_DIR]} ∪ ({[IMAGES_DIR]} ∪ ({[OUTPUT_DIR]} ∪ d)))))
    as (o & evs & fs & H & _ & Hsame & Hok & _).
  cbn [net dirs] in *.
  destruct (Hok Hall) as (_ & Hdone & _).
  rewrite (Hdone (Hreport _)), (Hsame Hno) in H. eauto.
Qed.

Lemma generate_sections_absorbs_refused_writes_witness :
  exists evs,
    generate_sections (Mock.image_inline [x41; x42])
                      Mock2.disk_read_only_files "k" [0]%Z
                      (mkState Mock.w0 ∅)
    = (Done tt,
       mkState (mkWorld (trace Mock.w0 ++ evs) (files Mock.w0))
               ({[VIDEOS_DIR]} ∪ ({[IMAGES_DIR]} ∪ ({[OUTPUT_DIR]} ∪ ∅)))).
Proof.
  apply (generate_sections_absorbs_refused_writes
           (Mock.image_inline [x41; x42]) Mock2.disk_read_only_files "k"
           [0]%Z Mock.w0 ∅).
  - repeat split.
  - intros history path. eexists. reflexivity.
  - intros history. repeat split.
  - repeat constructor. lia.
Defined.

(** Property X31.
    What a run for one image section leaves in the file of the section,
    when the client returns the bytes [b]: all of [b] when the write goes
    through, the first [kept] bytes when the write fails after that many,
    and what was there before when the write is refused. *)
Theorem generate_sections_stores_what_the_client_returns :
  forall (service : service_t) (disk : disk_t) (api_key : string)
         (idx : Z) (s : ScriptSection) (w w' : world) (d : gset string)
         (b : bytes),
    section_at idx = Ok s ->
    visual_type s = "image" ->
    directories_can_be_made disk (trace w) ->
    Sections.generate_image service (Sections.init api_key) (prompt s) w
    = (Ok b, w') ->
    let after :=
      files (net (snd (generate_sections service disk api_key [idx]
                                         (mkState w d)))) in
    (disk (trace w') (WriteBytes (image_path idx s)) = Through ->
     after = <[image_path idx s := b]> (files w')) /\
    (forall msg kept,
        disk (trace w') (WriteBytes (image_path idx s)) = Cut msg kept ->
        after = <[image_path idx s := take kept b]> (files w')) /\
    (forall msg,
        disk (trace w') (WriteBytes (image_path idx s)) = Refused msg ->
        after = files w').
Proof.
  intros service disk api_key idx s w w' d b Hs Himage Hdirs Hclient after.
  assert (Hafter :
            after
            = match disk (trace w') (WriteBytes (image_path idx s)) with
              | Through => <[image_path idx s := b]> (files w')
              | Refused _ => files w'
              | Cut _ kept => <[image_path idx s := take kept b]> (files w')
              end).
  { subst after.
    rewrite (directories_made service disk api_key [idx] w d Hdirs).
    assert (Hidx : (16 <=? idx)%Z = false).
    { destruct (section_at_cases idx) as [[Hr _] | [_ Hr]];
        [apply Z.leb_gt; lia | congruence]. }
    unfold and_then at 1. cbn [sections_loop List.length].
    rewrite table_length, Hidx.
    unfold and_then at 1. unfold lift_net at 1. unfold lift. rewrite Hs.
    cbn [net dirs]. unfold and_then at 1.
    destruct (process_image_stores service disk (Sections.init api_key)
                1 0 idx s w w' ({[VIDEOS_DIR]} ∪ ({[IMAGES_DIR]} ∪ ({[OUTPUT_DIR]} ∪ d))) b
                Himage Hclient) as (evs & ->).
    unfold done.
    match goal with
    | |- context [report disk ?st] =>
        destruct (report_spec disk st) as (o & -> & _)
    end.
    reflexivity. }
  rewrite Hafter.
  split; [intros ->; reflexivity|].
  split; [intros msg kept ->; reflexivity|intros msg ->; reflexivity].
Qed.

(** The disk runs full after one of the two bytes the service
    returned. *)
Lemma generate_sections_stores_what_the_client_returns_witness :
  files (net (snd (generate_sections
                     (Mock.image_inline [x41; x42])
                     (Mock2.disk_full_after 1) "k" [0]%Z
                     (mkState Mock.w0 ∅))))
  !! "graeber_assets/images/00_opening.png" = Some [x41].
Proof.
  destruct (section_at 0) as [s|e] eqn:Hs; [|discriminate Hs].
  destruct (generate_sections_stores_what_the_client_returns
              (Mock.image_inline [x41; x42]) (Mock2.disk_full_after 1) "k"
              0%Z s Mock.w0
              (snd (Sections.generate_image
                      (Mock.image_inline [x41; x42]) (Sections.init "k")
                      (prompt s) Mock.w0))
              ∅ [x41; x42])
    as (_ & Hcut & _).
  - exact Hs.
  - injection Hs as <-. reflexivity.
  - repeat split.
  - injection Hs as <-. vm_compute. reflexivity.
  - rewrite (Hcut "No space left on device" 1%nat); [|reflexivity].
    injection Hs as <-. vm_compute. reflexivity.
Defined.

(** Property X32.
    The closing lines are outside every [try]: when the absolute path of
    the output directory cannot be had after the loop (the working
    directory is gone, say), the run ends with that [OSError], after
    all its sections were gone through. *)
Theorem generate_sections_raises_from_its_closing_lines :
  forall (service : service_t) (disk : disk_t) (api_key : string)
         (section_indices : list Z) (w : world) (d : gset string)
         (msg : string),
    directories_can_be_made disk (trace w) ->
    (forall history, disk history (Absolute OUTPUT_DIR) = Refused msg) ->
    Forall (fun idx => (-16 <= idx)%Z) section_indices ->
    fst (generate_sections service disk api_key section_indices
                           (mkState w d))
    = Failed (OSError msg).
Proof.
  intros service disk api_key l w d msg Hdirs Hgone Hall.
  rewrite (directories_made service disk api_key l w d Hdirs).
  unfold and_then.
  destruct (sections_loop_spec service disk (Sections.init api_key)
              (List.length l) l 0%nat (mkState w ({[VIDEOS_DIR]} ∪ ({[IMAGES_DIR]} ∪ ({[OUTPUT_DIR]} ∪ d)))))
    as (o & evs & fs & -> & _ & _ & Hok & _).
  rewrite (Hok Hall).
  unfold report, and_then, look. now rewrite Hgone.
Qed.

Lemma generate_sections_raises_from_its_closing_lines_witness :
  fst (generate_sections (Mock.image_inline [x41])
                         Mock2.disk_no_working_directory "k" [0]%Z
                         (mkState Mock.w0 ∅))
  = Failed (OSError "No such file or directory").
Proof.
  apply (generate_sections_raises_from_its_closing_lines
           (Mock.image_inline [x41]) Mock2.disk_no_working_directory "k"
           [0]%Z Mock.w0 ∅ "No such file or directory").
  - repeat split.
  - reflexivity.
  - repeat constructor. lia.
Defined.

End SectionsRun.
